(** * Audit-AI: a shallow embedding of the audit core

    The audit core of the repository lives in four Python modules:

    - [audit_core/detection/drift.py]          (module [Drift] below)
    - [audit_core/detection/hallucination.py]  (module [Hallucination])
    - [audit_core/metrics/base.py], [standard.py]  (module [Metrics])
    - [audit_core/integrations/middleware.py]  (module [Middleware])

    Conventions of the embedding.

    - Python [float]s are modelled by exact rationals [Q]: rounding, infinities
      and NaN of IEEE arithmetic are outside the model, except for the mean of
      an empty pandas selection, which is modelled explicitly ([pyfloat]).
    - Python [int]s are [Z]; [str] is [string] (read as the UTF-8 bytes of
      the text) and so is [bytes]: decoding bytes is the function
      [decode_utf8], white space is that of [str.isspace] on the encoded
      code points; a [dict] with string keys that is built once is a
      [gmap string _], a JSON object or a record whose key order is kept is
      an association list.
    - A call that can raise returns [Exc]; code that mutates the tracker or
      the disk runs in the state-and-exception monad [M], in which the
      mutations done before a [raise] are kept, as in Python.
    - Library calls whose result the repository does not define
      ([str.lower], [re.findall], the sentence embedder, the tokenizer,
      [json.loads], [json.dumps]) are the fields of the class [Externals].
      The properties hold for every instance of it; the module [Examples]
      gives one instance on which the embedding runs.
    - What the process reads from its environment (clock, CPU and memory
      counters, refusals of the file system) is an argument of the
      operation that reads it. *)

From Stdlib Require Import QArith Qabs Qround Lqa ZArith String Ascii List Bool Lia.
From stdpp Require Import gmap strings list pretty.

Local Open Scope string_scope.
Local Open Scope list_scope.

(** ** Python values, exceptions *)

Module Py.

(** The exceptions the audit core can meet. *)
Inductive exn : Type :=
| KeyError (key : string)
| IndexError
| AttributeError (attr : string)
| TypeError
| ValueError
| JSONDecodeError
| OSError
| FileNotFoundError
| RuntimeError (msg : string).

(** Result of a call that may raise. *)
Inductive Exc (A : Type) : Type :=
| Ok (a : A)
| Raise (e : exn).
Arguments Ok {A} a.
Arguments Raise {A} e.

Definition is_ok {A} (r : Exc A) : bool :=
  match r with Ok _ => true | Raise _ => false end.

(** [try: body  except Exception: handler]. *)
Definition try_except {A} (body : Exc A) (handler : exn -> A) : A :=
  match body with Ok a => a | Raise e => handler e end.

Definition exc_bind {A B} (r : Exc A) (k : A -> Exc B) : Exc B :=
  match r with Ok a => k a | Raise e => Raise e end.

(** A float that may be NaN: the result of [Series.mean()]. *)
Inductive pyfloat : Type :=
| NaN
| Fin (q : Q).

(** [x / d] on floats that may be NaN ([d] a non-zero constant). *)
Definition pyfloat_div (x : pyfloat) (d : Q) : pyfloat :=
  match x with NaN => NaN | Fin q => Fin (q / d) end.

Definition Qlt_bool (x y : Q) : bool := negb (Qle_bool y x).

(** Python's [min(a, b)] and [max(a, b)]: the first argument wins ties. *)
Definition py_min (a b : Q) : Q := if Qlt_bool b a then b else a.
Definition py_max (a b : Q) : Q := if Qlt_bool a b then b else a.

(** [int(x)] on a float: truncation toward zero. *)
Definition py_int (x : Q) : Z :=
  if Qlt_bool x 0 then Qceiling x else Qfloor x.

Definition Qsum (xs : list Q) : Q := fold_right Qplus 0%Q xs.

(** Arithmetic mean of a non-empty column. *)
Definition mean (xs : list Q) : Q := (Qsum xs / inject_Z (Z.of_nat (length xs)))%Q.

(** [Series.mean()]: missing entries (NaN) are skipped; the mean of no
    entries is NaN. *)
Definition series_mean (xs : list (option Q)) : pyfloat :=
  match omap id xs with
  | [] => NaN
  | ys => Fin (mean ys)
  end.

(** *** Dynamically typed values

    What [json.loads] returns and what the extractor functions hand on:
    the audit code receives these without any check of their type. *)

Set Warnings "-register-all".
Inductive value : Type :=
| VNone
| VBool (b : bool)
| VInt (z : Z)
| VFloat (q : Q)
| VStr (s : string)
| VList (l : list value)
| VDict (d : list (string * value)).
Set Warnings "register-all".

(** Structural equality of values is decidable. *)
Definition value_eq_dec : forall x y : value, {x = y} + {x <> y}.
Proof.
  fix IH 1. intros x y.
  decide equality.
  - apply bool_dec.
  - apply Z.eq_dec.
  - decide equality; [apply Pos.eq_dec | apply Z.eq_dec].
  - apply string_dec.
  - apply (List.list_eq_dec IH).
  - apply List.list_eq_dec. decide equality. apply string_dec.
Defined.
#[global] Instance value_eq_decision : EqDecision value := value_eq_dec.

(** Truth value of an object, as [if x:] and [not x] take it. *)
Definition truthy (v : value) : bool :=
  match v with
  | VNone => false
  | VBool b => b
  | VInt z => negb (z =? 0)%Z
  | VFloat q => negb (Qeq_bool q 0)
  | VStr s => negb (String.eqb s "")
  | VList l => match l with [] => false | _ => true end
  | VDict d => match d with [] => false | _ => true end
  end.

(** Dicts with string keys that keep their insertion order. *)
Definition dict (V : Type) : Type := list (string * V).

Fixpoint dict_get {V} (d : dict V) (key : string) : option V :=
  match d with
  | [] => None
  | (k, v) :: d' => if String.eqb k key then Some v else dict_get d' key
  end.

(** [d[key] = v]: an existing key keeps its place, a new one goes last. *)
Fixpoint dict_set {V} (d : dict V) (key : string) (v : V) : dict V :=
  match d with
  | [] => [(key, v)]
  | (k, x) :: d' =>
    if String.eqb k key then (k, v) :: d' else (k, x) :: dict_set d' key v
  end.

(** [x.get(key, default)] on an arbitrary object: only a dict has [get]. *)
Definition py_get (x : value) (key : string) (default : value) : Exc value :=
  match x with
  | VDict d => Ok (from_option id default (dict_get d key))
  | _ => Raise (AttributeError "get")
  end.

(** [needle in hay] on strings. *)
Fixpoint str_contains (needle hay : string) : bool :=
  String.prefix needle hay
  || match hay with
     | EmptyString => false
     | String _ hay' => str_contains needle hay'
     end.

(** Number of positions of [hay] at which [needle] starts. *)
Fixpoint str_occurrences (needle hay : string) : nat :=
  (if String.prefix needle hay then 1 else 0)
  + match hay with
    | EmptyString => 0
    | String _ hay' => str_occurrences needle hay'
    end.

(** *** Text and bytes

    [str.isspace()] on one code point, given by the bytes of its UTF-8
    form: U+0009..U+000D, U+001C..U+0020, then U+0085 and U+00A0, then
    U+1680, U+2000..U+200A, U+2028, U+2029, U+202F, U+205F and U+3000. *)
Definition is_space (c : ascii) : bool :=
  let n := nat_of_ascii c in
  ((9 <=? n)%nat && (n <=? 13)%nat) || ((28 <=? n)%nat && (n <=? 32)%nat).

Definition is_space2 (b0 b1 : ascii) : bool :=
  (nat_of_ascii b0 =? 194)%nat
  && ((nat_of_ascii b1 =? 133)%nat || (nat_of_ascii b1 =? 160)%nat).

Definition is_space3 (b0 b1 b2 : ascii) : bool :=
  let n0 := nat_of_ascii b0 in
  let n1 := nat_of_ascii b1 in
  let n2 := nat_of_ascii b2 in
  ((n0 =? 225)%nat && (n1 =? 154)%nat && (n2 =? 128)%nat)
  || ((n0 =? 226)%nat && (n1 =? 128)%nat
      && (((128 <=? n2)%nat && (n2 <=? 138)%nat)
          || (n2 =? 168)%nat || (n2 =? 169)%nat || (n2 =? 175)%nat))
  || ((n0 =? 226)%nat && (n1 =? 129)%nat && (n2 =? 159)%nat)
  || ((n0 =? 227)%nat && (n1 =? 128)%nat && (n2 =? 128)%nat).

(** [s.strip() == ""]: the text has white space only. *)
Fixpoint strip_is_empty (line : string) : bool :=
  match line with
  | EmptyString => true
  | String b0 rest =>
    if is_space b0 then strip_is_empty rest
    else
      match rest with
      | EmptyString => false
      | String b1 rest1 =>
        if is_space2 b0 b1 then strip_is_empty rest1
        else
          match rest1 with
          | EmptyString => false
          | String b2 rest2 => is_space3 b0 b1 b2 && strip_is_empty rest2
          end
      end
  end.

(** UTF-8: a continuation byte is 80..BF; after the lead bytes E0, ED, F0
    and F4 the second byte is restricted further (no overlong forms, no
    surrogates, nothing above U+10FFFF). *)
Definition is_continuation (c : ascii) : bool :=
  let n := nat_of_ascii c in (128 <=? n)%nat && (n <? 192)%nat.

Definition second_ok (lead c : ascii) : bool :=
  let l := nat_of_ascii lead in
  let n := nat_of_ascii c in
  is_continuation c
  && negb ((l =? 224)%nat && (n <? 160)%nat)
  && negb ((l =? 237)%nat && (160 <=? n)%nat)
  && negb ((l =? 240)%nat && (n <? 144)%nat)
  && negb ((l =? 244)%nat && (144 <=? n)%nat).


(** U+FFFD in UTF-8. *)
Definition replacement_character : string :=
  String (ascii_of_nat 239) (String (ascii_of_nat 191) (String (ascii_of_nat 189) "")).

(** [b.decode('utf-8', errors='replace')]: a well-formed sequence is
    kept; otherwise the longest run of bytes from here that begins a
    well-formed sequence, or else one byte, is replaced by U+FFFD, and
    decoding goes on after it. *)
Fixpoint decode_utf8 (s : string) : string :=
  match s with
  | EmptyString => EmptyString
  | String b0 rest =>
    let n := nat_of_ascii b0 in
    if (n <? 128)%nat then String b0 (decode_utf8 rest)
    else if (194 <=? n)%nat && (n <? 224)%nat then
      match rest with
      | EmptyString => replacement_character
      | String b1 rest1 =>
        if is_continuation b1 then String b0 (String b1 (decode_utf8 rest1))
        else replacement_character +:+ decode_utf8 rest
      end
    else if (224 <=? n)%nat && (n <? 240)%nat then
      match rest with
      | EmptyString => replacement_character
      | String b1 rest1 =>
        if second_ok b0 b1 then
          match rest1 with
          | EmptyString => replacement_character
          | String b2 rest2 =>
            if is_continuation b2
            then String b0 (String b1 (String b2 (decode_utf8 rest2)))
            else replacement_character +:+ decode_utf8 rest1
          end
        else replacement_character +:+ decode_utf8 rest
      end
    else if (240 <=? n)%nat && (n <? 245)%nat then
      match rest with
      | EmptyString => replacement_character
      | String b1 rest1 =>
        if second_ok b0 b1 then
          match rest1 with
          | EmptyString => replacement_character
          | String b2 rest2 =>
            if is_continuation b2 then
              match rest2 with
              | EmptyString => replacement_character
              | String b3 rest3 =>
                if is_continuation b3
                then String b0 (String b1 (String b2 (String b3 (decode_utf8 rest3))))
                else replacement_character +:+ decode_utf8 rest2
              end
            else replacement_character +:+ decode_utf8 rest1
          end
        else replacement_character +:+ decode_utf8 rest
      end
    else replacement_character +:+ decode_utf8 rest
  end.

(** [np.clip(x, lo, hi)], that is [minimum(maximum(x, lo), hi)]. *)
Definition np_clip (x lo hi : Q) : Q := py_min (py_max x lo) hi.

(** Library functions the repository calls and does not define. *)
Class Externals : Type := {
  (** [str.lower] *)
  str_lower : string -> string;
  (** [re.findall(r'\b\w+\b', s)] *)
  re_findall_words : string -> list string;
  (** [util.pytorch_cos_sim(a, b).item()] on two embeddings *)
  pytorch_cos_sim : list Q -> list Q -> Exc Q;
  (** [_tokenizer.encode(text, add_special_tokens=False)] *)
  tokenizer_encode : value -> Exc (list Z);
  (** [json.loads] *)
  json_loads : string -> Exc value;
  (** [json.dumps] *)
  json_dumps : value -> Exc string
}.

End Py.
Export Py.

(** ** audit_core/detection/drift.py *)

Module Drift.

(** One entry of [current_window]: the dict [current_metrics], whose key
    ["token_count"] is set only when a token count was passed. *)
Record Sample : Type := mkSample {
  hallucination_score : Q;
  response_time_ms : Z;
  token_count : option Z
}.

Record DriftDetector : Type := mkDriftDetector {
  window_size : Z;
  reference_stats : gmap string Q;
  current_window : list Sample
}.

Definition set_current_window (self : DriftDetector) (w : list Sample) : DriftDetector :=
  {| window_size := window_size self;
     reference_stats := reference_stats self;
     current_window := w |}.

(** [_load_reference_data]: [loaded] is what
    [pd.read_json(path).to_dict(orient="records")[0]] evaluates to; on an
    exception the reference statistics are the empty dict. *)
Definition _load_reference_data (loaded : Exc (gmap string Q)) : gmap string Q :=
  try_except loaded (fun _ => ∅).

Definition default_window_size : Z := 10.

(** [__init__(reference_data_path=None, window_size=10)]; [reference_data]
    is [None] when no path is given, [window_size] is [None] when the
    default is taken. *)
Definition __init__ (reference_data : option (Exc (gmap string Q)))
    (window_size : option Z) : DriftDetector :=
  {| window_size := default default_window_size window_size;
     reference_stats :=
       match reference_data with
       | Some loaded => _load_reference_data loaded
       | None => ∅
       end;
     current_window := [] |}.

(** [_is_metric_drifting(current_value, reference_value, threshold, is_time)]. *)
Definition _is_metric_drifting (current_value reference_value threshold : Q)
    (is_time : bool) : bool :=
  if Qeq_bool reference_value 0 then false
  else if is_time then
    let relative_change := ((current_value - reference_value) / reference_value)%Q in
    Qlt_bool threshold relative_change
  else
    let relative_change := (Qabs (current_value - reference_value) / reference_value)%Q in
    Qlt_bool threshold relative_change.

(** [self.current_window.append(m)] followed by
    [if len(self.current_window) > self.window_size: self.current_window.pop(0)]. *)
Definition push_window (window_size : Z) (window : list Sample) (m : Sample) : list Sample :=
  let appended := window ++ [m] in
  if (Z.of_nat (length appended) >? window_size)%Z then tail appended else appended.

(** The columns of [pd.DataFrame(self.current_window)]. *)
Definition col_hallucination_score (w : list Sample) : list Q :=
  map hallucination_score w.
Definition col_response_time_ms (w : list Sample) : list Q :=
  map (fun s => inject_Z (response_time_ms s)) w.
(** ["token_count" in window_df.columns]: some row has the key. *)
Definition has_token_count (w : list Sample) : bool :=
  existsb (fun s => match token_count s with Some _ => true | None => false end) w.
(** [window_df["token_count"].mean()]: rows without the key are NaN and skipped. *)
Definition token_count_mean (w : list Sample) : Q :=
  mean (omap (fun s => inject_Z <$> token_count s) w).

(** The dict [current_stats]. *)
Definition current_stats (w : list Sample) : gmap string Q :=
  let stats : gmap string Q :=
    {[ "hallucination_score_mean" := mean (col_hallucination_score w);
       "response_time_ms_mean" := mean (col_response_time_ms w) ]} in
  if has_token_count w
  then <["token_count_mean" := token_count_mean w]> stats
  else stats.

(** [d.get(key, 0)]. *)
Definition get0 (d : gmap string Q) (key : string) : Q := default 0%Q (d !! key).

(** [detect_drift(hallucination_score, response_time_ms, token_count)].
    The window is updated before anything can raise; indexing the frame of
    an empty window ([window_df["hallucination_score"]]) is a [KeyError]. *)
Definition detect_drift (self : DriftDetector)
    (hallucination_score : Q) (response_time_ms : Z) (token_count : option Z)
  : Exc bool * DriftDetector :=
  let current_metrics := mkSample hallucination_score response_time_ms token_count in
  let window := push_window (window_size self) (current_window self) current_metrics in
  let self := set_current_window self window in
  if (Z.of_nat (length window) <? window_size self)%Z
     || (size (reference_stats self) =? 0)%nat
  then (Ok false, self)
  else
    match window with
    | [] => (Raise (KeyError "hallucination_score"), self)
    | _ :: _ =>
      let current_stats := current_stats window in
      let hallucination_drift :=
        _is_metric_drifting
          (get0 current_stats "hallucination_score_mean")
          (get0 (reference_stats self) "hallucination_score_mean")
          0.2 false in
      let response_time_drift :=
        _is_metric_drifting
          (get0 current_stats "response_time_ms_mean")
          (get0 (reference_stats self) "response_time_ms_mean")
          0.5 true in
      (Ok (hallucination_drift || response_time_drift), self)
    end.

(** [detect_drift] applied to a sample record. *)
Definition observe (self : DriftDetector) (s : Sample) : Exc bool * DriftDetector :=
  detect_drift self (hallucination_score s) (response_time_ms s) (token_count s).

(** The detector after a sequence of [detect_drift] calls, oldest first. *)
Definition observe_all (self : DriftDetector) (obs : list Sample) : DriftDetector :=
  fold_left (fun d s => snd (observe d s)) obs self.

(** Example data: a sample numbered [n], a reference baseline, and the
    detector of capacity 2 that has seen one on-baseline sample. *)
Definition fifo_sample (n : Z) : Sample := mkSample (inject_Z n / 10) (100 + n) (Some n).

Definition example_reference : gmap string Q :=
  {[ "hallucination_score_mean" := 0.1%Q;
     "response_time_ms_mean" := 100%Q;
     "token_count_mean" := 10%Q ]}.

Definition example_detector : DriftDetector :=
  observe_all (__init__ (Some (Ok example_reference)) (Some 2%Z))
    [mkSample 0.1 100 (Some 10%Z)].

End Drift.

(** ** audit_core/detection/hallucination.py *)

Module Hallucination.
Section WithExternals.
Context `{Externals}.

(** The detector holds its embedder; [encode] is
    [self.embedder.encode(text, convert_to_tensor=True)]. *)
Record HallucinationDetector : Type := mkHallucinationDetector {
  encode : value -> Exc (list Q)
}.

(** [text.lower()]: only a [str] has the method. *)
Definition lower (text : value) : Exc string :=
  match text with
  | VStr s => Ok (str_lower s)
  | _ => Raise (AttributeError "lower")
  end.

Definition hallucination_indicators : list string :=
  [ "i'm not sure";
    "i don't know";
    "i think";
    "perhaps";
    "probably";
    "it's possible";
    "might be";
    "it's likely";
    "it's probable" ].

(** The loop over the indicators, from a running [hesitation_score]. *)
Definition hesitation_loop (completion_lower : string) (indicators : list string)
    (hesitation_score : Q) : Q :=
  fold_left
    (fun score indicator =>
       if str_contains indicator completion_lower then (score + 0.1)%Q else score)
    indicators hesitation_score.

Definition hesitation_score (completion_lower : string) : Q :=
  py_min (hesitation_loop completion_lower hallucination_indicators 0) 0.5.

Definition overlap_score (prompt_lower completion_lower : string) : Q :=
  let prompt_words : gset string := list_to_set (re_findall_words prompt_lower) in
  let completion_words : gset string := list_to_set (re_findall_words completion_lower) in
  if (size prompt_words =? 0)%nat || (size completion_words =? 0)%nat then 0.5%Q
  else
    let common_words := prompt_words ∩ completion_words in
    let overlap_ratio :=
      (inject_Z (Z.of_nat (size common_words))
       / inject_Z (Z.of_nat (Nat.max 1 (size completion_words))))%Q in
    py_max 0 (0.7 - overlap_ratio).

(** The inner [try] around the embedder: any exception gives 0.5. *)
Definition semantic_divergence (self : HallucinationDetector)
    (prompt completion : value) : Q :=
  try_except
    (exc_bind (encode self prompt) (fun prompt_emb =>
     exc_bind (encode self completion) (fun completion_emb =>
     exc_bind (pytorch_cos_sim prompt_emb completion_emb) (fun sim =>
     Ok (1 - sim)%Q))))
    (fun _ => 0.5%Q).

(** [_heuristic_score(prompt, completion)]. *)
Definition _heuristic_score (self : HallucinationDetector)
    (prompt completion : value) : Exc Q :=
  exc_bind (lower prompt) (fun prompt_lower =>
  exc_bind (lower completion) (fun completion_lower =>
  let hesitation_score := hesitation_score completion_lower in
  let overlap_score := overlap_score prompt_lower completion_lower in
  let semantic_divergence := semantic_divergence self prompt completion in
  let weighted_sum :=
    (semantic_divergence * 0.6 + hesitation_score * 0.2 + overlap_score * 0.2)%Q in
  let hallucination_score := weighted_sum in
  Ok (np_clip hallucination_score 0 1))).

(** [score_hallucination(prompt, completion)]: the outer [try]. *)
Definition score_hallucination (self : HallucinationDetector)
    (prompt completion : value) : Q :=
  try_except (_heuristic_score self prompt completion) (fun _ => 0.5%Q).

(** [get_fact_consistency(prompt, completion)]. *)
Definition get_fact_consistency (self : HallucinationDetector)
    (prompt completion : value) : Q :=
  (1 - score_hallucination self prompt completion)%Q.

(** The hesitation score as the specification words it: 0.1 for every
    occurrence of a lexicon phrase, capped at 0.5. *)
Definition spec_hesitation_score (completion_lower : string) : Q :=
  py_min
    (0.1 * inject_Z (Z.of_nat
       (list_sum (map (fun indicator => str_occurrences indicator completion_lower)
                    hallucination_indicators))))
    0.5.

(** How many of [indicators] occur in the completion. *)
Definition count_present (completion_lower : string) (indicators : list string) : Q :=
  inject_Z (Z.of_nat (length
    (List.filter (fun indicator => str_contains indicator completion_lower) indicators))).

(** The lexicon phrases that occur in the completion, each listed once. *)
Definition present_indicators (completion_lower : string) : list string :=
  List.filter (fun indicator => str_contains indicator completion_lower)
    hallucination_indicators.

End WithExternals.
End Hallucination.

(** ** audit_core/metrics/base.py and standard.py *)

Module Metrics.
Import Hallucination.

(** *** The disk

    A file is the list of its lines. The operating system may refuse an
    operation (permissions, full disk): [io_fails] says which. *)

Inductive open_mode : Type := ModeR | ModeW | ModeA.

Inductive io_op : Type :=
| IoCopy (src dst : string)
| IoOpen (path : string) (mode : open_mode)
| IoWrite (path : string).

Record Disk : Type := mkDisk {
  files : gmap string (list string);
  io_fails : io_op -> bool
}.

(** The tracker object: [BaseMetricsTracker] fields, then those of
    [StandardMetricsTracker]. Logger, lock and process handle carry no
    data. *)
Record Tracker : Type := mkTracker {
  storage_path : string;
  metrics : list value;
  hallucination_detector : HallucinationDetector;
  drift_detector : Drift.DriftDetector
}.

(** The process-wide state: the singleton tracker and the disk.
    [log_inference_calls] is a ghost counter of the calls of
    [log_inference]; no code reads it. *)
Record State : Type := mkState {
  tracker : Tracker;
  disk : Disk;
  log_inference_calls : nat
}.

Definition set_files (st : State) (fs : gmap string (list string)) : State :=
  mkState (tracker st) (mkDisk fs (io_fails (disk st))) (log_inference_calls st).

Definition set_metrics (st : State) (ms : list value) : State :=
  let t := tracker st in
  mkState (mkTracker (storage_path t) ms (hallucination_detector t) (drift_detector t))
    (disk st) (log_inference_calls st).

Definition set_drift_detector (st : State) (d : Drift.DriftDetector) : State :=
  let t := tracker st in
  mkState (mkTracker (storage_path t) (metrics t) (hallucination_detector t) d)
    (disk st) (log_inference_calls st).

Definition count_log_inference (st : State) : State :=
  mkState (tracker st) (disk st) (S (log_inference_calls st)).

(** *** State and exceptions *)

Definition M (A : Type) : Type := State -> Exc A * State.

Definition ret {A} (a : A) : M A := fun st => (Ok a, st).
Definition raise {A} (e : exn) : M A := fun st => (Raise e, st).
Definition bind {A B} (m : M A) (k : A -> M B) : M B :=
  fun st =>
    match m st with
    | (Ok a, st') => k a st'
    | (Raise e, st') => (Raise e, st')
    end.
(** [try: body  except Exception as e: handler]: what [body] did to the
    state before raising stays done. *)
Definition try_catch {A} (body : M A) (handler : exn -> M A) : M A :=
  fun st =>
    match body st with
    | (Ok a, st') => (Ok a, st')
    | (Raise e, st') => handler e st'
    end.
Definition lift {A} (r : Exc A) : M A := fun st => (r, st).
Definition gets {A} (f : State -> A) : M A := fun st => (Ok (f st), st).
Definition modify (f : State -> State) : M unit := fun st => (Ok tt, f st).

Declare Scope m_scope.
Delimit Scope m_scope with M.
Notation "x <- c1 ;; c2" := (bind c1 (fun x => c2))
  (at level 100, c1 at next level, right associativity) : m_scope.
Notation "c1 ;; c2" := (bind c1 (fun _ => c2))
  (at level 100, right associativity) : m_scope.
Local Open Scope m_scope.

(** *** File operations *)

(** [os.path.join(a, b)] for a relative [b]. *)
Definition os_path_join (a b : string) : string :=
  if String.eqb a "" then b
  else if String.eqb (String.substring (String.length a - 1) 1 a) "/" then a +:+ b
  else a +:+ "/" +:+ b.

Definition os_path_exists (path : string) : M bool :=
  gets (fun st => bool_decide (is_Some (files (disk st) !! path))).

(** [shutil.copy2(src, dst)]. *)
Definition shutil_copy2 (src dst : string) : M unit :=
  fun st =>
    if io_fails (disk st) (IoCopy src dst) then (Raise OSError, st)
    else match files (disk st) !! src with
         | None => (Raise FileNotFoundError, st)
         | Some content => (Ok tt, set_files st (<[dst := content]> (files (disk st))))
         end.

(** [open(path, 'w')]: the file is created or cut to nothing. *)
Definition open_w (path : string) : M unit :=
  fun st =>
    if io_fails (disk st) (IoOpen path ModeW) then (Raise OSError, st)
    else (Ok tt, set_files st (<[path := []]> (files (disk st)))).

(** [open(path, 'a')]: the file is created when it is not there. *)
Definition open_a (path : string) : M unit :=
  fun st =>
    if io_fails (disk st) (IoOpen path ModeA) then (Raise OSError, st)
    else (Ok tt, set_files st
                   (<[path := default [] (files (disk st) !! path)]> (files (disk st)))).

(** [f.write(line + '\n')] on a file open for appending. *)
Definition write_line (path line : string) : M unit :=
  fun st =>
    if io_fails (disk st) (IoWrite path) then (Raise OSError, st)
    else (Ok tt, set_files st
                   (<[path := default [] (files (disk st) !! path) ++ [line]]>
                      (files (disk st)))).

(** [open(path, 'r')] and the lines read from it. *)
Definition open_r (path : string) : M (list string) :=
  fun st =>
    if io_fails (disk st) (IoOpen path ModeR) then (Raise OSError, st)
    else match files (disk st) !! path with
         | None => (Raise FileNotFoundError, st)
         | Some content => (Ok content, st)
         end.

Definition metrics_file (st : State) : string :=
  os_path_join (storage_path (tracker st)) "metrics.jsonl".

Section WithExternals.
Context `{Externals}.

(** *** BaseMetricsTracker *)

(** The body of [for line in f:] in [_load_metrics]. *)
Fixpoint load_lines (lines : list string) : M unit :=
  match lines with
  | [] => ret tt
  | line :: rest =>
    (if strip_is_empty line then ret tt
     else
       record <- lift (json_loads line) ;;
       modify (fun st => set_metrics st (metrics (tracker st) ++ [record]))) ;;
    load_lines rest
  end.

Definition _load_metrics : M unit :=
  modify (fun st => set_metrics st []) ;;
  metrics_file <- gets metrics_file ;;
  found <- os_path_exists metrics_file ;;
  if found then
    try_catch
      (lines <- open_r metrics_file ;;
       load_lines lines)
      (fun e => ret tt)
  else ret tt.

(** [pd.DataFrame(data)] on a list of parsed JSON values. A frame is
    the list of its rows; its columns with a string name are the keys of
    the rows that are dicts.
    - When the first value is a dict the columns are the keys of the
      values, read with [x.keys()]: a value that is not a dict is an
      [AttributeError].
    - When the first value is a list the values are rows of cells, read
      with [len(x)]: a value without a length is a [TypeError].
    - Otherwise the values are the cells of one column.
    In the last two cases the columns are numbered, none has a string
    name: the model boxes each value in a list, as a row no key is
    looked up in. *)
Definition is_object (x : value) : bool :=
  match x with VDict _ => true | _ => false end.

Definition has_len (x : value) : bool :=
  match x with VList _ | VDict _ | VStr _ => true | _ => false end.

Definition pd_DataFrame (data : list value) : Exc (list value) :=
  match data with
  | [] => Ok []
  | VDict _ :: _ =>
    if forallb is_object data then Ok data else Raise (AttributeError "keys")
  | VList _ :: _ =>
    if forallb has_len data then Ok (map (fun x => VList [x]) data) else Raise TypeError
  | _ :: _ => Ok (map (fun x => VList [x]) data)
  end.

(** [get_metrics_dataframe()]: the frame is built outside every [try]. *)
Definition get_metrics_dataframe : M (list value) :=
  _load_metrics ;;
  metrics <- gets (fun st => metrics (tracker st)) ;;
  lift (pd_DataFrame metrics).

(** [_write_to_disk(record)]. The values of the model are plain Python
    values already, the numpy conversion leaves them as they are. *)
Definition _write_to_disk (record : dict value) : M unit :=
  metrics_file <- gets metrics_file ;;
  try_catch
    (let serializable_record := record in
     open_a metrics_file ;;
     line <- lift (json_dumps (VDict serializable_record)) ;;
     write_line metrics_file line)
    (fun e => ret tt).

(** [reset_metrics()]; [timestamp] is
    [datetime.now().strftime("%Y%m%d_%H%M%S")]. *)
Definition reset_metrics (timestamp : string) : M bool :=
  metrics_file <- gets metrics_file ;;
  try_catch
    (found <- os_path_exists metrics_file ;;
     (if found then
        let backup_file := metrics_file +:+ ".bak." +:+ timestamp in
        shutil_copy2 metrics_file backup_file
      else ret tt) ;;
     open_w metrics_file ;;
     modify (fun st => set_metrics st []) ;;
     ret true)
    (fun e => ret false).

(** *** StandardMetricsTracker *)

(** What the process and the clock answer during one [log_inference]:
    [cpu_times()] (user, system) and [memory_info().rss] before and after,
    [psutil.disk_usage("/").percent], [datetime.now().isoformat()] and
    [time.time()]. *)
Record Probe : Type := mkProbe {
  start_cpu : Q * Q;
  start_mem : Z;
  end_cpu : Q * Q;
  end_mem : Z;
  disk_usage_percent : Exc Q;
  now_isoformat : string;
  time_time : Q
}.

(** [self.drift_detector.detect_drift(...)] on the tracker's detector. *)
Definition tracker_detect_drift (hallucination_score : Q) (response_time_ms : Z)
    (token_count : option Z) : M bool :=
  fun st =>
    let '(r, d) := Drift.detect_drift (drift_detector (tracker st))
                     hallucination_score response_time_ms token_count in
    (r, set_drift_detector st d).

(** [tokens if tokens is not None else len(_tokenizer.encode(text, ...))]. *)
Definition token_length (tokens : option Z) (text : value) : M Z :=
  match tokens with
  | Some n => ret n
  | None => encoded <- lift (tokenizer_encode text) ;; ret (Z.of_nat (length encoded))
  end.

(** [log_inference(prompt, completion, model, response_time_ms, tokens_in,
    tokens_out, status)]; [status] is ["success"] by default. *)
Definition log_inference (probe : Probe) (prompt completion model : value)
    (response_time_ms : Z) (tokens_in tokens_out : option Z) (status : value)
  : M (dict value) :=
  modify count_log_inference ;;
  self <- gets tracker ;;
  let hallucination_score :=
    score_hallucination (hallucination_detector self) prompt completion in
  drift_detected <- tracker_detect_drift hallucination_score response_time_ms tokens_out ;;
  let timestamp := now_isoformat probe in
  in_tokens <- token_length tokens_in prompt ;;
  out_tokens <- token_length tokens_out completion ;;
  let record : dict value :=
    [ ("request_id", VStr ("req_" +:+ pretty (py_int (time_time probe * 1000))));
      ("timestamp", VStr timestamp);
      ("model", model);
      ("tokens_in", VInt in_tokens);
      ("tokens_out", VInt out_tokens);
      ("hallucination_score", VFloat hallucination_score);
      ("drift_detected", VBool drift_detected);
      ("response_time_ms", VInt response_time_ms);
      ("status", status) ] in
  let record :=
    if Qlt_bool hallucination_score 0.8 then
      let fact_consistency :=
        get_fact_consistency (hallucination_detector self) prompt completion in
      dict_set record "fact_consistency" (VFloat fact_consistency)
    else record in
  let record :=
    dict_set record "cpu_time_sec"
      (VFloat ((fst (end_cpu probe) + snd (end_cpu probe))
               - (fst (start_cpu probe) + snd (start_cpu probe)))) in
  let record :=
    dict_set record "memory_delta_bytes" (VInt (end_mem probe - start_mem probe)) in
  let record :=
    dict_set record "disk_percent"
      (try_except (exc_bind (disk_usage_percent probe) (fun p => Ok (VFloat p)))
         (fun _ => VNone)) in
  _write_to_disk record ;;
  ret record.

(** *** Aggregates over the frame

    A frame is the list of its rows. A column exists when some row has the
    key; a row without the key holds NaN there ([None] below). *)

Definition cell (row : value) (key : string) : option value :=
  match row with
  | VDict d => dict_get d key
  | _ => None
  end.

(** [key in df.columns]. *)
Definition has_column (df : list value) (key : string) : bool :=
  existsb (fun row => bool_decide (is_Some (cell row key))) df.

(** [df[key]]. *)
Definition column (df : list value) (key : string) : Exc (list (option value)) :=
  if has_column df key then Ok (map (fun row => cell row key) df)
  else Raise (KeyError key).

(** [if key not in df.columns: df[key] = 0.0]. *)
Definition fill_missing_column (df : list value) (key : string) : list value :=
  if has_column df key then df
  else map (fun row =>
              match row with
              | VDict d => VDict (dict_set d key (VFloat 0))
              | _ => VDict [(key, VFloat 0)]
              end) df.

(** A cell as a number: [None] and missing cells are NaN, text is not a
    number. *)
Definition number (c : option value) : Exc (option Q) :=
  match c with
  | None | Some VNone => Ok None
  | Some (VInt z) => Ok (Some (inject_Z z))
  | Some (VFloat q) => Ok (Some q)
  | Some (VBool b) => Ok (Some (if b then 1%Q else 0%Q))
  | Some _ => Raise TypeError
  end.

Fixpoint numbers (cells : list (option value)) : Exc (list (option Q)) :=
  match cells with
  | [] => Ok []
  | c :: rest =>
    exc_bind (number c) (fun x =>
    exc_bind (numbers rest) (fun xs => Ok (x :: xs)))
  end.

(** [selected[key].mean()] for a selection [selected] of the rows of [df]:
    the selection has the columns of [df], also when it has no rows. *)
Definition column_mean (df selected : list value) (key : string) : Exc pyfloat :=
  if has_column df key then
    exc_bind (numbers (map (fun row => cell row key) selected)) (fun xs =>
    Ok (series_mean xs))
  else Raise (KeyError key).

(** [df[df['model'] == name]]: a missing or [None] cell equals nothing;
    other cells are compared structurally. *)
Definition model_is (name : value) (row : value) : bool :=
  match cell row "model" with
  | Some VNone | None => false
  | Some v => bool_decide (v = name)
  end.

Definition select_model (df : list value) (name : value) : list value :=
  List.filter (model_is name) df.

(** [df['model'].unique()]: the values in order of first appearance; lists
    and dicts cannot be hashed. *)
Fixpoint unique_from (seen : list (option value)) (cells : list (option value))
  : Exc (list (option value)) :=
  match cells with
  | [] => Ok []
  | c :: rest =>
    match c with
    | Some (VList _) | Some (VDict _) => Raise TypeError
    | _ =>
      if bool_decide (c ∈ seen) then unique_from seen rest
      else exc_bind (unique_from (c :: seen) rest) (fun u => Ok (c :: u))
    end
  end.

Definition unique (cells : list (option value)) : Exc (list (option value)) :=
  unique_from [] cells.

Record ModelStats : Type := mkModelStats {
  m_count : nat;
  m_avg_cpu_time_sec : pyfloat;
  m_avg_memory_delta_mb : pyfloat;
  m_avg_response_time_ms : pyfloat;
  m_avg_hallucination_score : pyfloat
}.

Record UsageStats : Type := mkUsageStats {
  count : nat;
  avg_cpu_time_sec : pyfloat;
  avg_memory_delta_mb : pyfloat;
  avg_response_time_ms : pyfloat;
  models : list (option value * ModelStats)
}.

(** The rows of one model of the breakdown; the key NaN selects nothing. *)
Definition model_rows (df : list value) (model_name : option value) : list value :=
  match model_name with
  | Some name => select_model df name
  | None => []
  end.

(** One turn of [for model_name in models:]. *)
Definition model_stats (df : list value) (model_name : option value) : Exc ModelStats :=
  let model_df := model_rows df model_name in
  exc_bind (column_mean df model_df "cpu_time_sec") (fun cpu =>
  exc_bind (column_mean df model_df "memory_delta_bytes") (fun mem =>
  exc_bind (column_mean df model_df "response_time_ms") (fun rt =>
  exc_bind (column_mean df model_df "hallucination_score") (fun hs =>
  Ok (mkModelStats (length model_df) cpu (pyfloat_div (pyfloat_div mem 1024) 1024) rt hs))))).

Fixpoint breakdown (df : list value) (names : list (option value))
  : Exc (list (option value * ModelStats)) :=
  match names with
  | [] => Ok []
  | model_name :: rest =>
    exc_bind (model_stats df model_name) (fun ms =>
    exc_bind (breakdown df rest) (fun tail => Ok ((model_name, ms) :: tail)))
  end.

(** The frame after the two legacy columns are filled in. *)
Definition filled (df : list value) : list value :=
  let df := fill_missing_column df "cpu_time_sec" in
  fill_missing_column df "memory_delta_bytes".

(** [get_resource_usage_stats(model)] on the frame [df]. *)
Definition resource_usage_stats (df : list value) (model : option string)
  : Exc UsageStats :=
  let df := filled df in
  if (length df =? 0)%nat then Ok (mkUsageStats 0 (Fin 0) (Fin 0) (Fin 0) [])
  else
    exc_bind
      (match model with
       | Some name =>
         if negb (String.eqb name "")
         then exc_bind (column df "model") (fun _ => Ok (select_model df (VStr name)))
         else Ok df
       | None => Ok df
       end) (fun df_filtered =>
    exc_bind (column_mean df df_filtered "cpu_time_sec") (fun cpu =>
    exc_bind (column_mean df df_filtered "memory_delta_bytes") (fun mem =>
    exc_bind (column_mean df df_filtered "response_time_ms") (fun rt =>
    exc_bind (column df "model") (fun model_cells =>
    exc_bind (unique model_cells) (fun models =>
    exc_bind (breakdown df models) (fun per_model =>
    Ok (mkUsageStats (length df_filtered) cpu (pyfloat_div (pyfloat_div mem 1024) 1024)
          rt per_model)))))))).

Definition get_resource_usage_stats (model : option string) : M UsageStats :=
  df <- get_metrics_dataframe ;;
  lift (resource_usage_stats df model).

End WithExternals.
End Metrics.

(** ** audit_core/integrations/middleware.py *)

Module Middleware.
Import Hallucination Metrics.
Local Open Scope m_scope.

(** The request as the middleware reads it: [json] is what
    [await request.json()] evaluates to. *)
Record Request : Type := mkRequest {
  method : string;
  url_path : string;
  json : Exc value
}.

Record Response : Type := mkResponse {
  status_code : Z;
  body_iterator : list string;
  headers : dict string;
  media_type : option string
}.

Record AuditMiddleware : Type := mkAuditMiddleware {
  audit_path_filter : option string;
  extract_model_name : value -> Exc value;
  extract_prompt : value -> Exc value;
  extract_completion : value -> value -> Exc value;
  hallucination_detector : HallucinationDetector
}.

(** The default extractors of [__init__]. *)
Definition default_extract_model_name (x : value) : Exc value :=
  py_get x "model" (VStr "default_model").
Definition default_extract_prompt (x : value) : Exc value :=
  py_get x "prompt" (VStr "").
Definition default_extract_completion (req resp : value) : Exc value :=
  exc_bind (py_get resp "completion" (VStr "")) (fun fallback =>
  py_get resp "response" fallback).

(** [__init__(app, metrics_tracker, audit_path_filter, extract_model_name,
    extract_prompt, extract_completion)]; the tracker is the singleton of
    the state. [embedder] is the detector [HallucinationDetector()] builds. *)
Definition __init__ (embedder : HallucinationDetector)
    (audit_path_filter : option string)
    (extract_model_name : option (value -> Exc value))
    (extract_prompt : option (value -> Exc value))
    (extract_completion : option (value -> value -> Exc value)) : AuditMiddleware :=
  {| audit_path_filter := audit_path_filter;
     extract_model_name := default default_extract_model_name extract_model_name;
     extract_prompt := default default_extract_prompt extract_prompt;
     extract_completion := default default_extract_completion extract_completion;
     hallucination_detector := embedder |}.

Definition _should_audit_path (self : AuditMiddleware) (path : string) : bool :=
  match audit_path_filter self with
  | None => true
  | Some filter => if String.eqb filter "" then true else str_contains filter path
  end.

(** The clock and process readings of one dispatch: [time.time()] when the
    request arrives and when it is audited, and the readings of
    [log_inference]. *)
Record Env : Type := mkEnv {
  request_time : Q;
  audit_time : Q;
  probe : Probe
}.

(** [await request.json() if request.method != "GET" else {}]. *)
Definition read_request_body (request : Request) : Exc value :=
  if String.eqb (method request) "GET" then Ok (VDict []) else json request.

(** [b"".join] of the chunks read from [response.body_iterator]. *)
Definition read_body (chunks : list string) : string :=
  fold_left String.append chunks "".

Section WithExternals.
Context `{Externals}.

(** [_log_audit_info(request_body, response_body, response_status,
    request_time)]. *)
Definition _log_audit_info (self : AuditMiddleware) (env : Env)
    (request_body : value) (response_body : string) (response_status : Z) : M unit :=
  if String.eqb response_body "" || (response_status >=? 400)%Z then ret tt
  else
    try_catch
      (model_name <- lift (extract_model_name self request_body) ;;
       prompt <- lift (extract_prompt self request_body) ;;
       let response_json :=
         try_except (json_loads response_body)
           (fun e => VDict [("response", VStr (decode_utf8 response_body))]) in
       completion <- lift (extract_completion self request_body response_json) ;;
       let response_time := ((audit_time env - request_time env) * 1000)%Q in
       let hallucination_score :=
         if truthy prompt && truthy completion
         then score_hallucination (hallucination_detector self) prompt completion
         else 0%Q in
       log_inference (probe env) prompt completion model_name
         (py_int response_time) None None (VInt response_status) ;;
       ret tt)
      (fun e => ret tt).

(** [dict(response.headers)]: one entry for each header name, in the
    order of first appearance, holding what [headers[name]] gives, the
    first value. The names are in lower case, as Starlette keeps them. *)
Definition dict_of_headers (headers : dict string) : dict string :=
  fold_left
    (fun d kv =>
       match dict_get d (fst kv) with
       | Some _ => d
       | None => d ++ [kv]
       end)
    headers [].

(** [Response.init_headers(headers)] for a response with a body: the
    names are put in lower case; [content-length] is added when it is
    not given, unless the status is below 200 or is 204 or 304;
    [content-type] is added when a media type is given and the header is
    not, with the charset for a text type that names none. *)
Definition init_headers (status_code : Z) (body : string) (headers : dict string)
    (media_type : option string) : dict string :=
  let raw_headers := map (fun kv => (str_lower (fst kv), snd kv)) headers in
  let keys := map fst raw_headers in
  let raw_headers :=
    if negb (bool_decide ("content-length" ∈ keys))
       && negb ((status_code <? 200)%Z || (status_code =? 204)%Z || (status_code =? 304)%Z)
    then raw_headers ++ [("content-length", pretty (String.length body))]
    else raw_headers in
  match media_type with
  | Some content_type =>
    if negb (bool_decide ("content-type" ∈ keys)) then
      let content_type :=
        if String.prefix "text/" content_type
           && negb (str_contains "charset=" (str_lower content_type))
        then content_type +:+ "; charset=utf-8"
        else content_type in
      raw_headers ++ [("content-type", content_type)]
    else raw_headers
  | None => raw_headers
  end.

(** [Response(content=response_body, status_code=response.status_code,
    headers=dict(response.headers), media_type=response.media_type)]. *)
Definition rebuilt (response : Response) (response_body : string) : Response :=
  {| status_code := status_code response;
     body_iterator := [response_body];
     headers := init_headers (status_code response) response_body
                  (dict_of_headers (headers response)) (media_type response);
     media_type := media_type response |}.

(** [dispatch(request, call_next)]. [call_next n request] is the outcome
    of the downstream application on its [n]-th invocation for this
    request, counted from 0. Reading the chunks of the body and building
    the new response are taken not to raise, so that inside the [try] only
    [request.json()] and [call_next] can raise, both before [response] is
    bound; [_log_audit_info] catches what is raised below it. *)
Definition dispatch (self : AuditMiddleware) (env : Env)
    (call_next : nat -> Request -> Exc Response) (request : Request) : M Response :=
  if negb (_should_audit_path self (url_path request)) then lift (call_next 0%nat request)
  else
    match read_request_body request with
    | Raise e =>
      (* except: [response] is still None *)
      lift (call_next 0%nat request)
    | Ok request_body =>
      match call_next 0%nat request with
      | Raise e =>
        (* except: [response] is still None *)
        lift (call_next 1%nat request)
      | Ok response =>
        let '(response_body, response) :=
          if (200 <=? status_code response)%Z && (status_code response <? 300)%Z
          then let response_body := read_body (body_iterator response) in
               (response_body, rebuilt response response_body)
          else ("", response) in
        try_catch
          (_log_audit_info self env request_body response_body (status_code response) ;;
           ret response)
          (fun e => ret response)
      end
    end.

(** The body the middleware holds when it audits. *)
Definition captured_body (response : Response) : string :=
  if (200 <=? status_code response)%Z && (status_code response <? 300)%Z
  then read_body (body_iterator response)
  else "".

End WithExternals.
End Middleware.

(** ** Lines of the log *)

Module LogLines.

(** The lines [_load_metrics] parses: those [line.strip()] leaves
    non-empty. *)
Definition nonblank (line : string) : bool := negb (strip_is_empty line).

End LogLines.

Module Frames.

(** The cell of the column ["model"] holds a value other than [None] or
    NaN: the record belongs to a model. *)
Definition named (c : option value) : bool :=
  match c with
  | Some VNone | None => false
  | Some _ => true
  end.

Definition has_model (row : value) : bool := named (Metrics.cell row "model").

(** [Metrics.model_is] and [Metrics.model_rows] on the cell alone. *)
Definition cell_is (name : value) (c : option value) : bool :=
  match c with
  | Some VNone | None => false
  | Some v => bool_decide (v = name)
  end.

Definition selects (model_name : option value) (c : option value) : bool :=
  match model_name with
  | Some name => cell_is name c
  | None => false
  end.

End Frames.
Export LogLines.

(** ** dashboard/main.py: the reset button *)

Module Dashboard.
Import Metrics.
Local Open Scope m_scope.

(** [os.remove(path)]; [refused] says whether the operating system
    refuses the removal. *)
Definition os_remove (refused : bool) (path : string) : M unit :=
  fun st =>
    if refused then (Raise OSError, st)
    else match files (disk st) !! path with
         | None => (Raise FileNotFoundError, st)
         | Some _ => (Ok tt, set_files st (delete path (files (disk st))))
         end.

Section WithExternals.
Context `{Externals}.

(** [AuditAIDashboard.reset_metrics_data()]; [self.metrics] is the
    singleton tracker of the state, [str_of_exn] is [str(e)]. *)
Definition reset_metrics_data (timestamp : string) (remove_refused : bool)
    (str_of_exn : exn -> string) : M (bool * string) :=
  try_catch
    (success <- reset_metrics timestamp ;;
     if success then ret (true, "Metrics reset successfully!")
     else
       storage_path <- gets (fun st => storage_path (tracker st)) ;;
       let metrics_file := os_path_join storage_path "metrics.jsonl" in
       found <- os_path_exists metrics_file ;;
       if found then
         os_remove remove_refused metrics_file ;;
         _load_metrics ;;
         ret (true, "Metrics reset by cleaning storage file!")
       else ret (false, "No metrics data to reset."))
    (fun e => ret (false, "Error resetting metrics: " +:+ str_of_exn e)).

End WithExternals.
End Dashboard.

(** ** The API application ([api/main.py], [api/routers/inference.py]) *)

Module Api.
Import Metrics Middleware.

(** [app.add_middleware(AuditMiddleware, audit_path_filter="/v1/infer",
    extract_prompt=lambda x: x.get("prompt", ""),
    extract_model_name=lambda x: x.get("model", settings.DEFAULT_MODEL),
    extract_completion=lambda req, resp: resp.get("completion", ""))];
    [DEFAULT_MODEL] is [settings.DEFAULT_MODEL]. *)
Definition audit_middleware (embedder : Hallucination.HallucinationDetector)
    (DEFAULT_MODEL : string) : AuditMiddleware :=
  Middleware.__init__ embedder (Some "/v1/infer")
    (Some (fun x => py_get x "model" (VStr DEFAULT_MODEL)))
    (Some (fun x => py_get x "prompt" (VStr "")))
    (Some (fun req resp => py_get resp "completion" (VStr ""))).

(** The parameters of [StandardMetricsTracker.log_inference] after
    [self]; the function takes no [**kwargs]. *)
Definition log_inference_parameters : list string :=
  ["prompt"; "completion"; "model"; "response_time_ms"; "tokens_in"; "tokens_out";
   "status"].

(** Binding keyword arguments: the first keyword that names no parameter
    makes the call a [TypeError], before the body runs. *)
Definition unexpected_keyword (parameters keywords : list string) : option string :=
  head (List.filter (fun keyword => negb (bool_decide (keyword ∈ parameters))) keywords).

Section WithExternals.
Context `{Externals}.

(** [record_metrics()], the background task of [infer]: the call
    [metrics.log_inference(prompt=..., completion=..., model=...,
    hallucination_score=..., drift_detected=..., response_time_ms=...,
    tokens_in=..., tokens_out=...)] on the singleton tracker. *)
Definition record_metrics (probe : Probe) (prompt completion model : value)
    (hallucination_score : Q) (drift_detected : bool) (response_time_ms : Z)
    (tokens_in tokens_out : Z) : M (dict value) :=
  match unexpected_keyword log_inference_parameters
          ["prompt"; "completion"; "model"; "hallucination_score"; "drift_detected";
           "response_time_ms"; "tokens_in"; "tokens_out"] with
  | Some keyword => raise TypeError
  | None =>
    log_inference probe prompt completion model response_time_ms
      (Some tokens_in) (Some tokens_out) (VStr "success")
  end.

End WithExternals.
End Api.

(** ** Runs of the tracker *)

Module Runs.
Import Metrics.

(** The arguments of one call of [log_inference], with the readings of
    the clock and of the process during that call. *)
Record Call : Type := mkCall {
  call_probe : Probe;
  call_prompt : value;
  call_completion : value;
  call_model : value;
  call_response_time_ms : Z;
  call_tokens_in : option Z;
  call_tokens_out : option Z;
  call_status : value
}.

Section WithExternals.
Context `{Externals}.

Definition log_call (c : Call) : M (dict value) :=
  log_inference (call_probe c) (call_prompt c) (call_completion c) (call_model c)
    (call_response_time_ms c) (call_tokens_in c) (call_tokens_out c) (call_status c).

(** A sequence of calls, each made whether the one before returned or
    raised: the records returned, in order, and the process afterwards. *)
Fixpoint log_calls (calls : list Call) (st : State) : list (dict value) * State :=
  match calls with
  | [] => ([], st)
  | c :: rest =>
    let '(r, st1) := log_call c st in
    let '(records, st2) := log_calls rest st1 in
    (match r with
     | Ok record => record :: records
     | Raise _ => records
     end, st2)
  end.

End WithExternals.
End Runs.

(** ** Stand-ins for the external libraries

    The properties below hold for every [Externals]. To run the embedding
    on concrete inputs the examples use these stand-ins: ASCII lower-casing,
    ASCII word runs, a fixed similarity, a tokenizer that counts word runs,
    and a reader and writer for flat JSON objects with string values. *)

Module Examples.

Definition ascii_lower_char (c : ascii) : ascii :=
  let n := nat_of_ascii c in
  if (65 <=? n)%nat && (n <=? 90)%nat then ascii_of_nat (n + 32) else c.

Fixpoint ascii_lower (s : string) : string :=
  match s with
  | EmptyString => EmptyString
  | String c s' => String (ascii_lower_char c) (ascii_lower s')
  end.

Definition is_word_char (c : ascii) : bool :=
  let n := nat_of_ascii c in
  ((48 <=? n)%nat && (n <=? 57)%nat)
  || ((65 <=? n)%nat && (n <=? 90)%nat)
  || (n =? 95)%nat
  || ((97 <=? n)%nat && (n <=? 122)%nat).

Definition flush (current : string) : list string :=
  if String.eqb current "" then [] else [current].

Fixpoint ascii_words (current : string) (s : string) : list string :=
  match s with
  | EmptyString => flush current
  | String c s' =>
    if is_word_char c then ascii_words (current +:+ String c EmptyString) s'
    else flush current ++ ascii_words "" s'
  end.

Definition quote : ascii := ascii_of_nat 34.
Definition quoted (s : string) : string :=
  String quote s +:+ String quote EmptyString.

(** The pieces of [s] between the occurrences of [sep]. *)
Fixpoint split_on (sep : ascii) (current : string) (s : string) : list string :=
  match s with
  | EmptyString => [current]
  | String c s' =>
    if Ascii.eqb c sep then current :: split_on sep "" s'
    else split_on sep (current +:+ String c EmptyString) s'
  end.

(** [strip_prefix p s] is the rest of [s] after its prefix [p]. *)
Fixpoint strip_prefix (p s : string) : option string :=
  match p, s with
  | EmptyString, _ => Some s
  | String a p', String b s' => if Ascii.eqb a b then strip_prefix p' s' else None
  | String _ _, EmptyString => None
  end.

(** The text before the first [sep1] or [sep2], and the rest from there. *)
Fixpoint break_at (sep1 sep2 : ascii) (s : string) : string * string :=
  match s with
  | EmptyString => (EmptyString, EmptyString)
  | String c s' =>
    if Ascii.eqb c sep1 || Ascii.eqb c sep2 then (EmptyString, s)
    else let '(before, rest) := break_at sep1 sep2 s' in (String c before, rest)
  end.

(** A run of decimal digits, read from the left onto [acc]. *)
Fixpoint read_digits (acc : Z) (s : string) : option Z :=
  match s with
  | EmptyString => Some acc
  | String c s' =>
    let n := nat_of_ascii c in
    if (48 <=? n)%nat && (n <=? 57)%nat
    then read_digits (10 * acc + Z.of_nat (n - 48)) s'
    else None
  end.

Definition read_int (s : string) : option Z :=
  match s with
  | EmptyString => None
  | String c s' =>
    if Ascii.eqb c (ascii_of_nat 45)
    then match s' with
         | EmptyString => None
         | _ => Z.opp <$> read_digits 0 s'
         end
    else read_digits 0 s
  end.

(** A scalar that is not a string: [null], [true], [false], an integer,
    or a fraction [n/d], the form in which the writer below prints a float. *)
Definition read_scalar (s : string) : Exc value :=
  if String.eqb s "null" then Ok VNone
  else if String.eqb s "true" then Ok (VBool true)
  else if String.eqb s "false" then Ok (VBool false)
  else
    let '(num, rest) := break_at (ascii_of_nat 47) (ascii_of_nat 47) s in
    match read_int num, rest with
    | Some n, EmptyString => Ok (VInt n)
    | Some n, String _ den =>
      match read_int den with
      | Some (Zpos d) => Ok (VFloat (n # d))
      | _ => Raise JSONDecodeError
      end
    | None, _ => Raise JSONDecodeError
    end.

(** After a member: the closing brace ends the object, a comma announces
    the members [more]. *)
Definition close_member (key : string) (v : value) (after : string)
    (rest : list string) (more : Exc (dict value)) : Exc (dict value) :=
  if String.eqb after "}" then
    match rest with
    | [] => Ok [(key, v)]
    | _ => Raise JSONDecodeError
    end
  else if String.eqb after ", " then exc_bind more (fun d => Ok ((key, v) :: d))
  else Raise JSONDecodeError.

(** Members of a flat object, from the pieces between the quotes: a key,
    then either [": "], a string and what follows it, or one piece holding
    [": "], a scalar and what follows it. *)
Fixpoint members (pieces : list string) : Exc (dict value) :=
  match pieces with
  | key :: sep :: rest =>
    match strip_prefix ": " sep with
    | None => Raise JSONDecodeError
    | Some EmptyString =>
      match rest with
      | val :: after :: rest' => close_member key (VStr val) after rest' (members rest')
      | _ => Raise JSONDecodeError
      end
    | Some bare =>
      let '(text, after) := break_at (ascii_of_nat 44) (ascii_of_nat 125) bare in
      exc_bind (read_scalar text) (fun v =>
      close_member key v after rest (members rest))
    end
  | _ => Raise JSONDecodeError
  end.

Definition flat_json_loads (s : string) : Exc value :=
  match split_on quote "" s with
  | [whole] => if String.eqb whole "{}" then Ok (VDict []) else Raise JSONDecodeError
  | open :: pieces =>
    if String.eqb open "{"
    then exc_bind (members pieces) (fun d => Ok (VDict d))
    else Raise JSONDecodeError
  | [] => Raise JSONDecodeError
  end.

Definition scalar_json (v : value) : Exc string :=
  match v with
  | VNone => Ok "null"
  | VBool true => Ok "true"
  | VBool false => Ok "false"
  | VInt z => Ok (pretty z)
  | VFloat q => Ok (pretty (Qnum q) +:+ "/" +:+ pretty (Zpos (Qden q)))
  | VStr s => Ok (quoted s)
  | _ => Raise TypeError
  end.

Fixpoint members_json (d : dict value) : Exc string :=
  match d with
  | [] => Ok ""
  | (k, v) :: d' =>
    exc_bind (scalar_json v) (fun sv =>
    exc_bind (members_json d') (fun rest =>
    Ok (quoted k +:+ ": " +:+ sv
        +:+ (match d' with [] => "" | _ => ", " end) +:+ rest)))
  end.

Definition flat_json_dumps (v : value) : Exc string :=
  match v with
  | VDict d => exc_bind (members_json d) (fun body => Ok ("{" +:+ body +:+ "}"))
  | _ => scalar_json v
  end.

#[global] Instance example_externals : Externals := {|
  str_lower := ascii_lower;
  re_findall_words := ascii_words "";
  pytorch_cos_sim := fun a b =>
    match a, b with
    | [x], [y] => Ok (if Qeq_bool x y then 1%Q else 0.5%Q)
    | _, _ => Raise ValueError
    end;
  tokenizer_encode := fun text =>
    match text with
    | VStr s => Ok (map (fun _ => 0%Z) (ascii_words "" s))
    | _ => Raise TypeError
    end;
  json_loads := flat_json_loads;
  json_dumps := flat_json_dumps
|}.

(** An embedder stand-in: a text is embedded as its length. *)
Definition example_embedder : Hallucination.HallucinationDetector :=
  Hallucination.mkHallucinationDetector
    (fun text =>
       match text with
       | VStr s => Ok [inject_Z (Z.of_nat (String.length s))]
       | _ => Raise TypeError
       end).

(** A fresh process: an empty disk that refuses nothing, a tracker with
    the default drift detector. *)
Definition example_probe : Metrics.Probe :=
  Metrics.mkProbe (1%Q, 0.5%Q) 1000%Z (1.25%Q, 0.5%Q) 1500%Z (Ok 40%Q)
    "2024-01-01T00:00:00" 1700000000%Q.

Definition example_env : Middleware.Env :=
  Middleware.mkEnv 100%Q 100.25%Q example_probe.

Definition example_state : Metrics.State :=
  Metrics.mkState
    (Metrics.mkTracker "data/metrics" [] example_embedder (Drift.__init__ None None))
    (Metrics.mkDisk ∅ (fun _ => false))
    0.

Definition example_prompt : value := VStr "What is the capital of France?".
Definition example_completion : value := VStr "The capital of France is Paris.".

(** One [log_inference] on the fresh process. *)
Definition example_log_inference : Exc (dict value) * Metrics.State :=
  Metrics.log_inference example_probe example_prompt example_completion (VStr "alpha")
    250%Z None None (VStr "success") example_state.

Definition example_record : dict value :=
  match fst example_log_inference with
  | Ok record => record
  | Raise _ => []
  end.

(** The process after three inferences were logged, for two models. *)
Definition example_logged : Metrics.State :=
  fold_left
    (fun st model =>
       snd (Metrics.log_inference example_probe example_prompt example_completion
              (VStr model) 250%Z None None (VStr "success") st))
    ["alpha"; "beta"; "alpha"] example_state.

(** The aggregates for the model ["alpha"] read back from that log. *)
Definition example_stats_run : Exc Metrics.UsageStats * Metrics.State :=
  Metrics.get_resource_usage_stats (Some "alpha") example_logged.

Definition example_stats : Metrics.UsageStats :=
  match fst example_stats_run with
  | Ok r => r
  | Raise _ => Metrics.mkUsageStats 0 NaN NaN NaN []
  end.

(** The middleware with its default extractors, and a downstream
    application that answers every request with [response]. *)
Definition example_middleware : Middleware.AuditMiddleware :=
  Middleware.__init__ example_embedder (Some "/v1/infer") None None None.

Definition always (response : Middleware.Response)
  : nat -> Middleware.Request -> Exc Middleware.Response :=
  fun _ _ => Ok response.

Definition text_response (status : Z) (chunks : list string) : Middleware.Response :=
  Middleware.mkResponse status chunks [] (Some "text/plain").

Definition empty_request : Middleware.Request :=
  Middleware.mkRequest "POST" "/v1/infer" (Ok (VDict [])).

(** Downstream answers: a server error, and a success whose body is not
    JSON. *)
Definition error_response : Middleware.Response := text_response 500 ["boom"].
Definition raw_response : Middleware.Response := text_response 200 ["not "; "json"].

(** The dispatches of the examples. *)
Definition example_dispatch (response : Middleware.Response)
    (request : Middleware.Request) : Exc Middleware.Response * Metrics.State :=
  Middleware.dispatch example_middleware example_env (always response) request
    example_state.

(** One reset of the log that holds three records. *)
Definition example_reset : Exc bool * Metrics.State :=
  Metrics.reset_metrics "20240101_000000" example_logged.

(** A log of three records, two models. *)
Definition example_row (model : string) (cpu : Q) (mem rt : Z) (hs : Q) : value :=
  VDict [ ("model", VStr model);
          ("hallucination_score", VFloat hs);
          ("response_time_ms", VInt rt);
          ("cpu_time_sec", VFloat cpu);
          ("memory_delta_bytes", VInt mem) ].

Definition example_frame : list value :=
  [ example_row "alpha" 0.5 1048576 100 0.2;
    example_row "beta" 1.5 2097152 300 0.4;
    example_row "alpha" 1.5 3145728 200 0.6 ].

End Examples.

(** ** Further examples *)

Module MoreExamples.

(** A detector of capacity 0 with the example baseline loaded. *)
Definition zero_capacity_detector : Drift.DriftDetector :=
  Drift.__init__ (Some (Ok Drift.example_reference)) (Some 0%Z).

(** An embedder whose model is not available. *)
Definition failing_embedder : Hallucination.HallucinationDetector :=
  Hallucination.mkHallucinationDetector
    (fun _ => Raise (RuntimeError "model unavailable")).

(** The process of [Examples.example_logged] on a disk that refuses
    every copy, and on one that refuses to open a file for appending. *)
Definition refusing (refuse : Metrics.io_op -> bool) (st : Metrics.State)
  : Metrics.State :=
  Metrics.mkState (Metrics.tracker st)
    (Metrics.mkDisk (Metrics.files (Metrics.disk st)) refuse)
    (Metrics.log_inference_calls st).

Definition copy_refused : Metrics.State :=
  refusing (fun op => match op with Metrics.IoCopy _ _ => true | _ => false end)
    Examples.example_logged.

Definition append_refused : Metrics.State :=
  refusing (fun op =>
              match op with
              | Metrics.IoOpen _ Metrics.ModeA => true
              | _ => false
              end)
    Examples.example_state.

(** A log whose second line is not JSON. *)
Definition example_line : string :=
  try_except (json_dumps (VDict Examples.example_record)) (fun _ => "").


(** The example process after writing the example record twice. *)
Definition written_twice : Metrics.State :=
  fold_left (fun st record => snd (Metrics._write_to_disk record st))
    [Examples.example_record; Examples.example_record] Examples.example_state.

(** A POST whose body is a JSON list. *)
Definition list_request : Middleware.Request :=
  Middleware.mkRequest "POST" "/v1/infer" (Ok (VList [])).

(** The fresh process with the detector of capacity 0. *)
Definition no_capacity_state : Metrics.State :=
  Metrics.mkState
    (Metrics.mkTracker "data/metrics" [] Examples.example_embedder zero_capacity_detector)
    (Metrics.mkDisk ∅ (fun _ => false))
    0.

(** Three calls of [log_inference], for two models. *)
Definition example_calls : list Runs.Call :=
  map (fun model =>
         Runs.mkCall Examples.example_probe Examples.example_prompt
           Examples.example_completion (VStr model) 250 None None (VStr "success"))
    ["alpha"; "beta"; "alpha"].

(** The middleware as the API application configures it. *)
Definition api_middleware : Middleware.AuditMiddleware :=
  Api.audit_middleware Examples.example_embedder "smollm2:360m".

End MoreExamples.

(** * Properties *)

(** ** Arithmetic helpers *)


Lemma Qlt_bool_iff (x y : Q) : Qlt_bool x y = true <-> (x < y)%Q.
Proof.
  unfold Qlt_bool. rewrite negb_true_iff, <- not_true_iff_false, Qle_bool_iff.
  split; [apply Qnot_le_lt | apply Qlt_not_le].
Qed.

Lemma Qeq_bool_false_iff (x y : Q) : Qeq_bool x y = false <-> ~ (x == y)%Q.
Proof. rewrite <- not_true_iff_false, Qeq_bool_iff. tauto. Qed.

(** ** Drift detection *)

Section DriftFacts.
Import Drift.

Lemma push_window_length (W : Z) (w : list Sample) (m : Sample) :
  (0 <= W)%Z -> (Z.of_nat (length w) <= W)%Z ->
  (Z.of_nat (length (push_window W w m)) <= W)%Z.
Proof.
  intros HW Hw. unfold push_window.
  destruct (Z.gtb_spec (Z.of_nat (length (w ++ [m]))) W) as [Hgt | Hle]; [| exact Hle].
  rewrite length_app in Hgt. simpl in Hgt.
  destruct w as [| x w]; simpl in *; [lia |].
  rewrite length_app. simpl. lia.
Qed.

Lemma tail_drop {A} (k : nat) (l : list A) : tail (drop k l) = drop (S k) l.
Proof.
  revert l. induction k as [| k IH]; intros [| x l]; simpl; try reflexivity.
  now destruct l.
Qed.

(** Pushing onto the last [W] of [obs] gives the last [W] of [obs ++ [o]]. *)
Lemma push_window_drop (W : Z) (obs : list Sample) (o : Sample) :
  (0 <= W)%Z ->
  push_window W (drop (length obs - Z.to_nat W) obs) o
  = drop (length (obs ++ [o]) - Z.to_nat W) (obs ++ [o]).
Proof.
  intros HW. unfold push_window.
  rewrite !length_app, length_drop. simpl.
  destruct (Z.gtb_spec (Z.of_nat (length obs - (length obs - Z.to_nat W) + 1)) W)
    as [Hgt | Hle].
  - assert (Hn : (Z.to_nat W <= length obs)%nat) by lia.
    rewrite <- drop_app_le by lia.
    rewrite tail_drop. f_equal. lia.
  - assert (Hn : (length obs + 1 <= Z.to_nat W)%nat) by lia.
    replace (length obs - Z.to_nat W)%nat with 0%nat by lia.
    replace (length obs + 1 - Z.to_nat W)%nat with 0%nat by lia.
    now rewrite !drop_0.
Qed.

Lemma observe_window (self : DriftDetector) (s : Sample) :
  current_window (snd (observe self s))
  = push_window (window_size self) (current_window self) s
  /\ window_size (snd (observe self s)) = window_size self
  /\ reference_stats (snd (observe self s)) = reference_stats self.
Proof.
  unfold observe, detect_drift. destruct s as [h rt tc]. simpl.
  destruct (_ || _); [now simpl |].
  destruct (push_window _ _ _); now simpl.
Qed.

Lemma observe_all_snoc (self : DriftDetector) (obs : list Sample) (o : Sample) :
  observe_all self (obs ++ [o]) = snd (observe (observe_all self obs) o).
Proof. unfold observe_all. now rewrite fold_left_app. Qed.

Lemma observe_all_config (self : DriftDetector) (obs : list Sample) :
  window_size (observe_all self obs) = window_size self
  /\ reference_stats (observe_all self obs) = reference_stats self.
Proof.
  induction obs as [| o obs IH] using rev_ind; [now split |].
  rewrite observe_all_snoc.
  destruct (observe_window (observe_all self obs) o) as (_ & HW & HR).
  rewrite HW, HR. exact IH.
Qed.

(** After any run from a fresh detector the window is the last [W]
    observations, in order. *)
Lemma observe_all_window (refdata : option (Exc (gmap string Q))) (ws : option Z)
    (obs : list Sample) :
  let W := default default_window_size ws in
  (0 <= W)%Z ->
  current_window (observe_all (__init__ refdata ws) obs)
  = drop (length obs - Z.to_nat W) obs.
Proof.
  intros W HW.
  induction obs as [| o obs IH] using rev_ind; [reflexivity |].
  rewrite observe_all_snoc.
  destruct (observe_window (observe_all (__init__ refdata ws) obs) o) as (Hw & _ & _).
  rewrite Hw, IH.
  destruct (observe_all_config (__init__ refdata ws) obs) as (-> & _).
  now apply push_window_drop.
Qed.

(** One call never lets a window that fits grow beyond its capacity. *)
Lemma observe_bounded (self : DriftDetector) (s : Sample) :
  (0 <= window_size self)%Z ->
  (Z.of_nat (length (current_window self)) <= window_size self)%Z ->
  (Z.of_nat (length (current_window (snd (observe self s)))) <= window_size self)%Z.
Proof.
  intros HW Hw. destruct (observe_window self s) as (-> & _ & _).
  now apply push_window_length.
Qed.

(** C6. A detector built by [__init__] with capacity [W] (10 when none is
    given) and fed any sequence of [detect_drift] calls holds at most [W]
    samples after every call; its window is exactly the last [W]
    observations in arrival order, so eviction is first-in-first-out, and
    after [W+1] observations the first one is gone: the window is the
    remaining [W]. *)
Theorem drift_window_bounded_fifo
    (refdata : option (Exc (gmap string Q))) (ws : option Z) (obs : list Sample) :
  let W := default 10%Z ws in
  let d := observe_all (__init__ refdata ws) obs in
  (0 <= W)%Z ->
  window_size d = W
  /\ (Z.of_nat (length (current_window d)) <= W)%Z
  /\ current_window d = drop (length obs - Z.to_nat W) obs
  /\ (forall first rest, obs = first :: rest -> Z.of_nat (length rest) = W ->
        current_window d = rest).
Proof.
  intros W d HW.
  assert (Hwin : current_window d = drop (length obs - Z.to_nat W) obs)
    by (apply observe_all_window; exact HW).
  repeat split.
  - apply observe_all_config.
  - rewrite Hwin, length_drop. lia.
  - exact Hwin.
  - intros first rest -> Hlen. rewrite Hwin. simpl length.
    replace (S (length rest) - Z.to_nat W)%nat with 1%nat by lia.
    reflexivity.
Qed.

Lemma drift_window_bounded_fifo_witness :
  let d := observe_all (__init__ None (Some 2%Z))
             [fifo_sample 1; fifo_sample 2; fifo_sample 3] in
  window_size d = 2%Z
  /\ (Z.of_nat (length (current_window d)) <= 2)%Z
  /\ current_window d = [fifo_sample 2; fifo_sample 3]
  /\ (forall first rest,
        [fifo_sample 1; fifo_sample 2; fifo_sample 3] = first :: rest ->
        Z.of_nat (length rest) = 2%Z -> current_window d = rest).
Proof.
  apply (drift_window_bounded_fifo None (Some 2%Z)
           [fifo_sample 1; fifo_sample 2; fifo_sample 3]).
  simpl. lia.
Defined.

(** State-based form of the early return: when the updated window is still
    short of [W] samples, or no reference statistics are loaded, the call
    answers [False] and keeps the pushed sample. *)
Lemma detect_drift_early_return (self : DriftDetector) (h : Q) (rt : Z) (tc : option Z) :
  let w := push_window (window_size self) (current_window self) (mkSample h rt tc) in
  (Z.of_nat (length w) < window_size self)%Z \/ reference_stats self = ∅ ->
  detect_drift self h rt tc = (Ok false, set_current_window self w).
Proof.
  intros w H. unfold detect_drift. fold w. simpl.
  assert (Hc : (Z.of_nat (length w) <? window_size self)%Z
               || (size (reference_stats self) =? 0)%nat = true).
  { apply orb_true_iff. destruct H as [H | H].
    - left. now apply Z.ltb_lt.
    - right. apply Nat.eqb_eq. rewrite H. apply map_size_empty. }
  now rewrite Hc.
Qed.

(** C7. From a fresh detector, a call that brings the number of observed
    samples to fewer than [W], or any call while no reference statistics
    are loaded, returns [False] whatever the observed values; the sample is
    still pushed on the window, the oldest entry being dropped when the
    window was at capacity. While fewer than [W] samples have been
    observed nothing is dropped: the window is all the observations. *)
Theorem detect_drift_false_until_full
    (refdata : option (Exc (gmap string Q))) (ws : option Z)
    (obs : list Sample) (h : Q) (rt : Z) (tc : option Z) :
  let W := default 10%Z ws in
  let d := observe_all (__init__ refdata ws) obs in
  let pushed := push_window W (current_window d) (mkSample h rt tc) in
  (Z.of_nat (length obs) + 1 < W)%Z \/ reference_stats d = ∅ ->
  detect_drift d h rt tc = (Ok false, set_current_window d pushed)
  /\ ((Z.of_nat (length obs) + 1 < W)%Z -> pushed = obs ++ [mkSample h rt tc])
  /\ ((0 <= W)%Z ->
      pushed = drop (length (obs ++ [mkSample h rt tc]) - Z.to_nat W)
                 (obs ++ [mkSample h rt tc])).
Proof.
  intros W d pushed H.
  assert (HW : window_size d = W) by apply observe_all_config.
  assert (Hpush : (0 <= W)%Z ->
            pushed = drop (length (obs ++ [mkSample h rt tc]) - Z.to_nat W)
                       (obs ++ [mkSample h rt tc])).
  { intros HW0. unfold pushed, d. rewrite (observe_all_window refdata ws obs HW0).
    now apply push_window_drop. }
  assert (Hshort : (Z.of_nat (length obs) + 1 < W)%Z ->
            pushed = obs ++ [mkSample h rt tc]).
  { intros Hlt. rewrite Hpush by lia. rewrite length_app. simpl.
    replace (length obs + 1 - Z.to_nat W)%nat with 0%nat by lia. apply drop_0. }
  split; [| split; [exact Hshort | exact Hpush]].
  unfold pushed. rewrite <- HW. apply detect_drift_early_return.
  destruct H as [H | H]; [left | now right].
  rewrite HW. fold pushed. rewrite (Hshort H), length_app. simpl. lia.
Qed.

Lemma detect_drift_false_until_full_witness :
  let d := observe_all (__init__ None None) [fifo_sample 9] in
  let pushed := push_window 10 (current_window d) (mkSample 0.9 5000 None) in
  detect_drift d 0.9 5000 None = (Ok false, set_current_window d pushed)
  /\ pushed = [fifo_sample 9; mkSample 0.9 5000 None].
Proof.
  destruct (detect_drift_false_until_full None None [fifo_sample 9] 0.9 5000 None)
    as (Hrun & Hshort & _).
  - left. simpl. lia.
  - split; [exact Hrun |]. apply Hshort. simpl. lia.
Defined.

Lemma _is_metric_drifting_two_sided (c r thr : Q) :
  _is_metric_drifting c r thr false = true
  <-> ~ (r == 0)%Q /\ (thr < Qabs (c - r) / r)%Q.
Proof.
  unfold _is_metric_drifting.
  destruct (Qeq_bool r 0) eqn:E.
  - apply Qeq_bool_iff in E. split; [discriminate | tauto].
  - apply Qeq_bool_false_iff in E. rewrite Qlt_bool_iff. tauto.
Qed.

Lemma _is_metric_drifting_increase (c r thr : Q) :
  _is_metric_drifting c r thr true = true
  <-> ~ (r == 0)%Q /\ (thr < (c - r) / r)%Q.
Proof.
  unfold _is_metric_drifting.
  destruct (Qeq_bool r 0) eqn:E.
  - apply Qeq_bool_iff in E. split; [discriminate | tauto].
  - apply Qeq_bool_false_iff in E. rewrite Qlt_bool_iff. tauto.
Qed.

Lemma current_stats_means (w : list Sample) :
  get0 (current_stats w) "hallucination_score_mean" = mean (col_hallucination_score w)
  /\ get0 (current_stats w) "response_time_ms_mean" = mean (col_response_time_ms w).
Proof.
  unfold get0, current_stats.
  destruct (has_token_count w); split; now simplify_map_eq.
Qed.

Lemma push_window_nonempty (W : Z) (w : list Sample) (m : Sample) :
  (0 < W)%Z -> push_window W w m <> [].
Proof.
  intros HW. unfold push_window.
  destruct (Z.gtb_spec (Z.of_nat (length (w ++ [m]))) W) as [Hgt | Hle].
  - rewrite length_app in Hgt. simpl in Hgt.
    destruct w as [| x [| y w]]; simpl in *; try discriminate. lia.
  - destruct w; discriminate.
Qed.

(** The window means do not look at the token counts. *)
Lemma push_window_means (W : Z) (w : list Sample) (h : Q) (rt : Z) (tc tc' : option Z) :
  col_hallucination_score (push_window W w (mkSample h rt tc))
  = col_hallucination_score (push_window W w (mkSample h rt tc'))
  /\ col_response_time_ms (push_window W w (mkSample h rt tc))
     = col_response_time_ms (push_window W w (mkSample h rt tc'))
  /\ length (push_window W w (mkSample h rt tc))
     = length (push_window W w (mkSample h rt tc')).
Proof.
  unfold push_window, col_hallucination_score, col_response_time_ms.
  rewrite !length_app. simpl.
  destruct (_ >? _)%Z; destruct w; simpl; rewrite ?map_app, ?length_app; now simpl.
Qed.

(** C1 (as the code has it). With a capacity [W >= 1], once the updated
    window holds [W] samples and the reference statistics are not empty,
    [detect_drift] returns the OR of exactly two relative-change tests:
    hallucination_score drifts iff |window mean - reference mean| /
    reference mean > 0.2, response_time_ms drifts iff (window mean -
    reference mean) / reference mean > 0.5; a metric whose reference mean
    is 0 (or is absent from the reference statistics) never drifts. The
    token counts take no part in the answer: any other token count gives
    the same result. *)
Theorem detect_drift_full_window
    (self : DriftDetector) (h : Q) (rt : Z) (tc : option Z) :
  let w := push_window (window_size self) (current_window self) (mkSample h rt tc) in
  let m_h := mean (col_hallucination_score w) in
  let r_h := get0 (reference_stats self) "hallucination_score_mean" in
  let m_t := mean (col_response_time_ms w) in
  let r_t := get0 (reference_stats self) "response_time_ms_mean" in
  (0 < window_size self)%Z ->
  (window_size self <= Z.of_nat (length w))%Z ->
  reference_stats self <> ∅ ->
  exists b : bool,
    detect_drift self h rt tc = (Ok b, set_current_window self w)
    /\ (b = true <->
          (~ (r_h == 0)%Q /\ (0.2 < Qabs (m_h - r_h) / r_h)%Q)
          \/ (~ (r_t == 0)%Q /\ (0.5 < (m_t - r_t) / r_t)%Q))
    /\ (forall tc', fst (detect_drift self h rt tc') = Ok b).
Proof.
  intros w m_h r_h m_t r_t HW Hfull Href.
  assert (Hgo : forall tc0,
    (Z.of_nat (length (push_window (window_size self) (current_window self)
                         (mkSample h rt tc0))) <? window_size self)%Z
    || (size (reference_stats self) =? 0)%nat = false).
  { intros tc0. apply orb_false_iff. split.
    - apply Z.ltb_ge.
      destruct (push_window_means (window_size self) (current_window self) h rt tc0 tc)
        as (_ & _ & ->). exact Hfull.
    - apply Nat.eqb_neq. now rewrite map_size_empty_iff. }
  set (b := _is_metric_drifting m_h r_h 0.2 false || _is_metric_drifting m_t r_t 0.5 true).
  assert (Hres : forall tc0, detect_drift self h rt tc0
    = (Ok b, set_current_window self
               (push_window (window_size self) (current_window self) (mkSample h rt tc0)))).
  { intros tc0. unfold detect_drift. simpl. rewrite (Hgo tc0).
    pose proof (push_window_nonempty (window_size self) (current_window self)
                  (mkSample h rt tc0) HW) as Hne.
    destruct (push_window_means (window_size self) (current_window self) h rt tc0 tc)
      as (Hh & Ht & _).
    destruct (push_window (window_size self) (current_window self) (mkSample h rt tc0))
      as [| x w0] eqn:Ew; [congruence |].
    destruct (current_stats_means (x :: w0)) as (-> & ->).
    rewrite Hh, Ht. reflexivity. }
  exists b. split; [apply Hres | split].
  - unfold b. rewrite orb_true_iff.
    now rewrite _is_metric_drifting_two_sided, _is_metric_drifting_increase.
  - intros tc'. now rewrite Hres.
Qed.

Lemma example_reference_nonempty : example_reference <> ∅.
Proof.
  intros H. apply (f_equal (fun m => m !! "token_count_mean")) in H.
  vm_compute in H. discriminate.
Qed.

Lemma detect_drift_full_window_witness :
  exists b : bool,
    detect_drift example_detector 0.9 100 (Some 10%Z)
    = (Ok b, set_current_window example_detector
               (push_window 2 (current_window example_detector)
                  (mkSample 0.9 100 (Some 10%Z))))
    /\ (b = true <->
          (~ (0.1 == 0)%Q
           /\ (0.2 < Qabs (mean [0.1; 0.9] - 0.1) / 0.1)%Q)
          \/ (~ (100 == 0)%Q
              /\ (0.5 < (mean [inject_Z 100; inject_Z 100] - 100) / 100)%Q))
    /\ (forall tc', fst (detect_drift example_detector 0.9 100 tc') = Ok b).
Proof.
  apply (detect_drift_full_window example_detector 0.9 100 (Some 10%Z)).
  - reflexivity.
  - vm_compute. discriminate.
  - exact example_reference_nonempty.
Defined.

(** C1 as stated fails on the token counts: with a full window whose mean
    token count (505) is far above the reference mean (10), far enough for
    either relative-change test, and the two other metrics on their
    baselines, [detect_drift] answers [False]. *)
Lemma detect_drift_token_count_not_tested :
  let r := detect_drift example_detector 0.1 100 (Some 1000%Z) in
  let w := current_window (snd r) in
  fst r = Ok false
  /\ Z.of_nat (length w) = window_size example_detector
  /\ reference_stats example_detector <> ∅
  /\ has_token_count w = true
  /\ current_stats w !! "token_count_mean" = Some (mean [inject_Z 10; inject_Z 1000])
  /\ _is_metric_drifting (token_count_mean w)
       (get0 (reference_stats example_detector) "token_count_mean") 0.2 false = true
  /\ _is_metric_drifting (token_count_mean w)
       (get0 (reference_stats example_detector) "token_count_mean") 0.5 true = true.
Proof.
  repeat split; try reflexivity.
  exact example_reference_nonempty.
Qed.

End DriftFacts.

(** ** Hallucination scoring *)

Section HallucinationFacts.
Import Hallucination.
Context `{Externals}.

Lemma py_min_compat (a a' b : Q) : (a == a')%Q -> (py_min a b == py_min a' b)%Q.
Proof.
  intros Ha. unfold py_min.
  destruct (Qlt_bool b a) eqn:E, (Qlt_bool b a') eqn:E'; try lra.
  - apply Qlt_bool_iff in E. apply not_true_iff_false in E'.
    rewrite Qlt_bool_iff in E'. lra.
  - apply Qlt_bool_iff in E'. apply not_true_iff_false in E.
    rewrite Qlt_bool_iff in E. lra.
Qed.

Lemma py_min_bounds (a b : Q) : (0 <= a)%Q -> (0 <= b)%Q ->
  (0 <= py_min a b <= b)%Q.
Proof.
  intros Ha Hb. unfold py_min. destruct (Qlt_bool b a) eqn:E; [lra |].
  apply not_true_iff_false in E. rewrite Qlt_bool_iff in E. lra.
Qed.

Lemma np_clip_unit (x : Q) : (0 <= np_clip x 0 1 <= 1)%Q.
Proof.
  unfold np_clip. apply py_min_bounds; [| lra].
  unfold py_max. destruct (Qlt_bool x 0) eqn:E; [lra |].
  apply not_true_iff_false in E. rewrite Qlt_bool_iff in E. lra.
Qed.

Lemma hesitation_loop_spec (completion_lower : string) (indicators : list string) (acc : Q) :
  (hesitation_loop completion_lower indicators acc
   == acc + 0.1 * count_present completion_lower indicators)%Q.
Proof.
  revert acc. unfold count_present.
  induction indicators as [| i l IH]; intros acc; simpl.
  - unfold hesitation_loop. simpl. ring.
  - unfold hesitation_loop in *. simpl. rewrite IH.
    destruct (str_contains i completion_lower); simpl length; [| reflexivity].
    rewrite Nat2Z.inj_succ, <- Z.add_1_r, inject_Z_plus. simpl inject_Z. ring.
Qed.

Lemma hesitation_score_spec (completion_lower : string) :
  (hesitation_score completion_lower
   == py_min (0.1 * inject_Z (Z.of_nat (length (present_indicators completion_lower)))) 0.5)%Q.
Proof.
  unfold hesitation_score. apply py_min_compat.
  rewrite hesitation_loop_spec. unfold count_present, present_indicators. ring.
Qed.

(** C2 (as the code has it). For every completion, the hesitation score
    of its case-folded text is 0.1 times the number of lexicon phrases that
    occur in it, each phrase counted once however often it occurs, capped
    at 0.5; it lies in [0, 0.5]. *)
Theorem hesitation_score_counts_phrases (completion : string) :
  let completion_lower := str_lower completion in
  (hesitation_score completion_lower
   == py_min (0.1 * inject_Z (Z.of_nat (length (present_indicators completion_lower)))) 0.5)%Q
  /\ (0 <= hesitation_score completion_lower <= 0.5)%Q.
Proof.
  intros completion_lower.
  split; [apply hesitation_score_spec |].
  rewrite hesitation_score_spec. apply py_min_bounds; [| lra].
  apply Qmult_le_0_compat; [lra |].
  change 0%Q with (inject_Z 0). rewrite <- Zle_Qle. lia.
Qed.

Lemma score_hallucination_unfold (self : HallucinationDetector) (prompt completion : value) :
  score_hallucination self prompt completion
  = match _heuristic_score self prompt completion with
    | Ok score => score
    | Raise _ => 0.5%Q
    end.
Proof. reflexivity. Qed.

Lemma _heuristic_score_unit (self : HallucinationDetector) (prompt completion : value)
    (score : Q) :
  _heuristic_score self prompt completion = Ok score -> (0 <= score <= 1)%Q.
Proof.
  unfold _heuristic_score, exc_bind.
  destruct (lower prompt); [| discriminate].
  destruct (lower completion); [| discriminate].
  intros [= <-]. apply np_clip_unit.
Qed.

End HallucinationFacts.

Section HallucinationExamples.
Import Hallucination.

(** C2 as stated fails on a repeated phrase: in "Perhaps, perhaps" the
    phrase "perhaps" occurs twice, the specification's count gives 0.2,
    the code gives 0.1. *)
Lemma hesitation_score_repeated_phrase :
  let completion_lower := str_lower "Perhaps, perhaps" in
  completion_lower = "perhaps, perhaps"
  /\ str_occurrences "perhaps" completion_lower = 2%nat
  /\ (hesitation_score completion_lower == 0.1)%Q
  /\ (spec_hesitation_score completion_lower == 0.2)%Q
  /\ ~ (hesitation_score completion_lower == spec_hesitation_score completion_lower)%Q.
Proof. repeat split. intros E. vm_compute in E. discriminate. Qed.

End HallucinationExamples.

(** ** The metrics store *)

Section MetricsFacts.
Import Hallucination Metrics.
Context `{Externals}.
Local Open Scope m_scope.

Lemma string_length_append (a b : string) :
  String.length (a +:+ b) = (String.length a + String.length b)%nat.
Proof. induction a as [| c a IH]; simpl; [reflexivity | now rewrite IH]. Qed.

(** A backup never has the name of the log itself. *)
Lemma backup_file_fresh (file timestamp : string) :
  file +:+ ".bak." +:+ timestamp <> file.
Proof.
  intros E. apply (f_equal String.length) in E.
  rewrite !string_length_append in E. simpl in E. lia.
Qed.

(** Reading a log that is absent or empty gives no row, whatever the
    operating system refuses. *)
Lemma get_metrics_dataframe_empty_log (st : State) :
  files (disk st) !! metrics_file st = None
  \/ files (disk st) !! metrics_file st = Some [] ->
  fst (get_metrics_dataframe st) = Ok [].
Proof.
  intros Hlog. destruct st as [[sp ms hd dd] [fs fails] n].
  unfold get_metrics_dataframe, _load_metrics, bind, modify, gets, os_path_exists,
    try_catch, open_r, metrics_file in *.
  simpl in *.
  destruct Hlog as [Hlog | Hlog]; rewrite Hlog; simpl.
  - reflexivity.
  - destruct (fails (IoOpen (os_path_join sp "metrics.jsonl") ModeR)); simpl;
      rewrite ?Hlog; reflexivity.
Qed.

(** C9. [reset_metrics] never raises: it returns a boolean in every state
    and under every refusal of the operating system. It returns [True]
    exactly when neither the backup copy (made only if the log exists) nor
    the opening for writing is refused; then the backup holds the old
    content of the log, the log is empty and the cache is cleared. When it
    returns [False] the log is as it was: it is never cut before its backup
    is made. On an absent or empty log, and after every successful reset,
    [get_metrics_dataframe()] is empty. *)
Theorem reset_metrics_never_raises (timestamp : string) (st : State) :
  let file := metrics_file st in
  let backup := file +:+ ".bak." +:+ timestamp in
  let found := bool_decide (is_Some (files (disk st) !! file)) in
  let refused :=
    (found && io_fails (disk st) (IoCopy file backup))
    || io_fails (disk st) (IoOpen file ModeW) in
  exists (b : bool) (st' : State),
    reset_metrics timestamp st = (Ok b, st')
    /\ b = negb refused
    /\ (b = true ->
          files (disk st')
          = <[file := []]>
              (match files (disk st) !! file with
               | Some old => <[backup := old]> (files (disk st))
               | None => files (disk st)
               end)
          /\ metrics (tracker st') = [])
    /\ (b = false -> files (disk st') !! file = files (disk st) !! file)
    /\ (b = true \/ files (disk st) !! file = None \/ files (disk st) !! file = Some [] ->
          fst (get_metrics_dataframe st') = Ok []).
Proof.
  intros file backup found refused.
  destruct st as [[sp ms hd dd] [fs fails] n].
  unfold refused, found, backup, file, metrics_file in *. clear refused found backup file.
  simpl in *.
  set (file := os_path_join sp "metrics.jsonl") in *.
  set (backup := file +:+ ".bak." +:+ timestamp) in *.
  assert (Hfresh : backup <> file) by apply backup_file_fresh.
  unfold reset_metrics, bind, try_catch, gets, modify, os_path_exists, shutil_copy2,
    open_w, ret, metrics_file. simpl. fold file. fold backup.
  assert (Hafter : forall (ms' : list value) (fs' : gmap string (list string)) (n' : nat),
            fs' !! file = None \/ fs' !! file = Some [] ->
            fst (get_metrics_dataframe
                   (mkState (mkTracker sp ms' hd dd) (mkDisk fs' fails) n')) = Ok []).
  { intros ms' fs' n' Hlog. now apply get_metrics_dataframe_empty_log. }
  destruct (fs !! file) as [old |] eqn:Hold; simpl.
  - destruct (fails (IoCopy file backup)) eqn:Hcopy; simpl.
    + rewrite ?Hold; simpl; rewrite ?Hopen; simpl.
      eexists _, _. split; [reflexivity |]. split; [reflexivity |].
      split; [| split]; simpl.
      * discriminate.
      * intros _. exact Hold.
      * intros [Hb | [Hn | He]]; try discriminate.
        apply Hafter. right. congruence.
    + destruct (fails (IoOpen file ModeW)) eqn:Hopen; simpl.
      * rewrite ?Hold; simpl; rewrite ?Hopen; simpl.
      eexists _, _. split; [reflexivity |]. split; [reflexivity |].
        split; [| split]; simpl.
        -- discriminate.
        -- intros _. now rewrite lookup_insert_ne.
        -- intros [Hb | [Hn | He]]; try discriminate.
           apply Hafter. right. rewrite lookup_insert_ne by exact Hfresh. congruence.
      * rewrite ?Hold; simpl; rewrite ?Hopen; simpl.
      eexists _, _. split; [reflexivity |]. split; [reflexivity |].
        split; [| split]; simpl.
        -- intros _. now split.
        -- discriminate.
        -- intros _. apply Hafter. right. apply lookup_insert_eq.
  - destruct (fails (IoOpen file ModeW)) eqn:Hopen; simpl.
    + rewrite ?Hold; simpl; rewrite ?Hopen; simpl.
      eexists _, _. split; [reflexivity |]. split; [reflexivity |].
      split; [| split]; simpl.
      * discriminate.
      * intros _. exact Hold.
      * intros _. apply Hafter. now left.
    + rewrite ?Hold; simpl; rewrite ?Hopen; simpl.
      eexists _, _. split; [reflexivity |]. split; [reflexivity |].
      split; [| split]; simpl.
      * intros _. now split.
      * discriminate.
      * intros _. apply Hafter. right. apply lookup_insert_eq.
Qed.

Lemma _write_to_disk_returns (record : dict value) (st : State) :
  exists st', _write_to_disk record st = (Ok tt, st').
Proof.
  unfold _write_to_disk, bind, try_catch, gets, open_a, lift, write_line, ret.
  simpl.
  destruct (io_fails (disk st) (IoOpen (metrics_file st) ModeA)); [eauto |].
  destruct (json_dumps (VDict record)); [| eauto].
  simpl. destruct (io_fails (disk st) (IoWrite (metrics_file st))); eauto.
Qed.

Lemma token_length_inv (tokens : option Z) (text : value) (st st' : State) (n : Z) :
  token_length tokens text st = (Ok n, st') -> st' = st.
Proof.
  unfold token_length, bind, lift, ret. destruct tokens; [now intros [= _ <-] |].
  destruct (tokenizer_encode text); now intros [= _ <-].
Qed.

(** The record [log_inference] assembles, from the values it computed. *)
Lemma log_inference_record (probe : Probe) (prompt completion model : value)
    (response_time_ms : Z) (tokens_in tokens_out : option Z) (status : value)
    (st st' : State) (record : dict value) :
  log_inference probe prompt completion model response_time_ms tokens_in tokens_out
    status st = (Ok record, st') ->
  let detector := hallucination_detector (tracker st) in
  let score := score_hallucination detector prompt completion in
  exists (base : dict value),
    dict_get base "hallucination_score" = Some (VFloat score)
    /\ dict_get base "fact_consistency" = None
    /\ record
       = dict_set (dict_set (dict_set
           (if Qlt_bool score 0.8
            then dict_set base "fact_consistency"
                   (VFloat (get_fact_consistency detector prompt completion))
            else base)
           "cpu_time_sec"
           (VFloat ((fst (end_cpu probe) + snd (end_cpu probe))
                    - (fst (start_cpu probe) + snd (start_cpu probe)))))
           "memory_delta_bytes" (VInt (end_mem probe - start_mem probe)))
           "disk_percent"
           (try_except (exc_bind (disk_usage_percent probe) (fun p => Ok (VFloat p)))
              (fun _ => VNone)).
Proof.
  intros Hrun detector score.
  unfold log_inference, bind, modify, gets in Hrun. simpl in Hrun.
  fold detector in Hrun. fold score in Hrun.
  destruct (tracker_detect_drift score response_time_ms tokens_out (count_log_inference st))
    as [[drift_detected | e] st1]; [| discriminate].
  destruct (token_length tokens_in prompt st1) as [[in_tokens | e] st2]; [| discriminate].
  destruct (token_length tokens_out completion st2) as [[out_tokens | e] st3];
    [| discriminate].
  match type of Hrun with
  | context [_write_to_disk ?r ?s] =>
    destruct (_write_to_disk_returns r s) as [st4 Hw]; rewrite Hw in Hrun
  end.
  unfold ret in Hrun. injection Hrun as <- _.
  exists [ ("request_id", VStr ("req_" +:+ pretty (py_int (time_time probe * 1000))));
           ("timestamp", VStr (now_isoformat probe));
           ("model", model);
           ("tokens_in", VInt in_tokens);
           ("tokens_out", VInt out_tokens);
           ("hallucination_score", VFloat score);
           ("drift_detected", VBool drift_detected);
           ("response_time_ms", VInt response_time_ms);
           ("status", status) ].
  repeat split.
Qed.

(** [detect_drift] returns when the capacity is positive or no reference
    statistics are loaded. *)
Lemma detect_drift_returns (d : Drift.DriftDetector) (h : Q) (rt : Z) (tc : option Z) :
  (0 < Drift.window_size d)%Z \/ Drift.reference_stats d = ∅ ->
  exists b, fst (Drift.detect_drift d h rt tc) = Ok b.
Proof.
  intros [HW | Href].
  - unfold Drift.detect_drift. simpl.
    destruct (_ || _); [now exists false |].
    pose proof (push_window_nonempty (Drift.window_size d) (Drift.current_window d)
                  (Drift.mkSample h rt tc) HW) as Hne.
    destruct (Drift.push_window _ _ _); [congruence | eauto].
  - rewrite detect_drift_early_return by now right. now exists false.
Qed.

(** [log_inference] returns a record whenever the drift detector does not
    raise and the texts can be tokenized (or the token counts are given);
    a failure to write the log does not prevent it. *)
Lemma log_inference_returns (probe : Probe) (prompt completion model : value)
    (response_time_ms : Z) (tokens_in tokens_out : option Z) (status : value)
    (st : State) :
  (0 < Drift.window_size (drift_detector (tracker st)))%Z
  \/ Drift.reference_stats (drift_detector (tracker st)) = ∅ ->
  is_Some tokens_in \/ is_ok (tokenizer_encode prompt) = true ->
  is_Some tokens_out \/ is_ok (tokenizer_encode completion) = true ->
  exists record st',
    log_inference probe prompt completion model response_time_ms tokens_in tokens_out
      status st = (Ok record, st').
Proof.
  intros Hdrift Hin Hout.
  assert (Htok : forall tokens text s,
            is_Some tokens \/ is_ok (tokenizer_encode text) = true ->
            exists n, token_length tokens text s = (Ok n, s)).
  { intros tokens text s [[n ->] | Hok]; [now exists n |].
    unfold token_length, bind, lift, ret. destruct tokens as [n |]; [now exists n |].
    destruct (tokenizer_encode text); [eauto | discriminate]. }
  unfold log_inference, bind, modify, gets. simpl.
  set (score := score_hallucination (hallucination_detector (tracker st)) prompt completion).
  unfold tracker_detect_drift. simpl.
  destruct (detect_drift_returns (drift_detector (tracker st)) score response_time_ms
              tokens_out Hdrift) as (b & Hb).
  destruct (Drift.detect_drift (drift_detector (tracker st)) score response_time_ms
              tokens_out) as [r d'].
  simpl in Hb. subst r.
  destruct (Htok tokens_in prompt (set_drift_detector (count_log_inference st) d') Hin)
    as (n_in & ->).
  destruct (Htok tokens_out completion (set_drift_detector (count_log_inference st) d') Hout)
    as (n_out & ->).
  match goal with
  | |- context [_write_to_disk ?r ?s] =>
    destruct (_write_to_disk_returns r s) as [st4 ->]
  end.
  unfold ret. eauto.
Qed.

(** C8. A record returned by [log_inference] has the key
    ["fact_consistency"] if and only if its hallucination score is strictly
    below 0.8, and the value stored there is 1 minus the hallucination
    score of the same prompt and completion, the score the record holds. *)
Theorem log_inference_fact_consistency (probe : Probe) (prompt completion model : value)
    (response_time_ms : Z) (tokens_in tokens_out : option Z) (status : value)
    (st st' : State) (record : dict value) :
  log_inference probe prompt completion model response_time_ms tokens_in tokens_out
    status st = (Ok record, st') ->
  let score :=
    score_hallucination (hallucination_detector (tracker st)) prompt completion in
  dict_get record "hallucination_score" = Some (VFloat score)
  /\ (is_Some (dict_get record "fact_consistency") <-> (score < 0.8)%Q)
  /\ (forall v, dict_get record "fact_consistency" = Some v -> v = VFloat (1 - score)).
Proof.
  intros Hrun score.
  destruct (log_inference_record _ _ _ _ _ _ _ _ _ _ _ Hrun) as (base & Hs & Hf & ->).
  fold score. unfold get_fact_consistency. fold score.
  assert (Hget : forall (d : dict value) k k' v,
            dict_get (dict_set d k v) k'
            = if String.eqb k k' then Some v else dict_get d k').
  { intros d k k' v. induction d as [| [k0 x] d IH]; simpl.
    - destruct (String.eqb_spec k k'); [reflexivity |]. reflexivity.
    - destruct (String.eqb_spec k0 k) as [-> | Hne]; simpl.
      + destruct (String.eqb_spec k k'); [reflexivity | reflexivity].
      + rewrite IH. destruct (String.eqb_spec k0 k') as [-> | Hne'].
        * destruct (String.eqb_spec k k'); [congruence | reflexivity].
        * reflexivity. }
  rewrite !Hget. simpl.
  destruct (Qlt_bool score 0.8) eqn:E.
  - apply Qlt_bool_iff in E. rewrite !Hget. simpl. rewrite Hs.
    repeat split; eauto. now intros v [= <-].
  - apply not_true_iff_false in E. rewrite Qlt_bool_iff in E. rewrite Hs, Hf.
    repeat split; try tauto.
    + intros [? ?]. discriminate.
    + discriminate.
Qed.

(** *** Aggregates *)

Ltac exc_inv H :=
  unfold exc_bind in H;
  repeat match type of H with
         | match ?x with Ok _ => _ | Raise _ => _ end = Ok _ =>
           let E := fresh "E" in destruct x eqn:E; [| discriminate H]
         end.

Lemma dict_get_set_ne {V} (d : dict V) (k k' : string) (v : V) :
  k <> k' -> dict_get (dict_set d k v) k' = dict_get d k'.
Proof.
  intros Hne. induction d as [| [k0 x] d IH]; simpl.
  - destruct (String.eqb_spec k k'); [contradiction | reflexivity].
  - destruct (String.eqb_spec k0 k) as [-> | Hk]; simpl.
    + destruct (String.eqb_spec k k'); [contradiction | reflexivity].
    + now rewrite IH.
Qed.

Lemma fill_missing_column_cell (df : list value) (key key' : string) (row : value) :
  key <> key' -> row ∈ df ->
  exists row', row' ∈ fill_missing_column df key /\ cell row' key' = cell row key'.
Proof.
  intros Hne Hin. unfold fill_missing_column.
  destruct (has_column df key); [now exists row |].
  eexists. split; [apply list_elem_of_fmap; eexists; split; [reflexivity | exact Hin] |].
  destruct row; simpl; try (destruct (String.eqb_spec key key'); [contradiction | reflexivity]).
  now apply dict_get_set_ne.
Qed.

Lemma fill_missing_column_select (df : list value) (key : string) (name : value) :
  key <> "model" ->
  length (select_model (fill_missing_column df key) name) = length (select_model df name).
Proof.
  intros Hne. unfold fill_missing_column, select_model.
  destruct (has_column df key); [reflexivity |].
  induction df as [| row df IH]; [reflexivity |]. simpl.
  assert (E : model_is name
                (match row with
                 | VDict d => VDict (dict_set d key (VFloat 0))
                 | _ => VDict [(key, VFloat 0)]
                 end) = model_is name row).
  { unfold model_is.
    destruct row; simpl;
      try (destruct (String.eqb_spec key "model"); [contradiction | reflexivity]).
    now rewrite dict_get_set_ne. }
  rewrite E. destruct (model_is name row); simpl; now rewrite IH.
Qed.

Lemma filled_select (df : list value) (name : value) :
  length (select_model (filled df) name) = length (select_model df name).
Proof.
  unfold filled. now rewrite !fill_missing_column_select by discriminate.
Qed.

Lemma filled_cell_model (df : list value) (row : value) :
  row ∈ df -> exists row', row' ∈ filled df /\ cell row' "model" = cell row "model".
Proof.
  intros Hin. unfold filled.
  destruct (fill_missing_column_cell df "cpu_time_sec" "model" row) as (r1 & H1 & E1);
    [discriminate | exact Hin |].
  destruct (fill_missing_column_cell _ "memory_delta_bytes" "model" r1 ltac:(discriminate) H1)
    as (r2 & H2 & E2).
  exists r2. split; [exact H2 | congruence].
Qed.

Lemma unique_from_covers (cells seen u : list (option value)) (c : option value) :
  unique_from seen cells = Ok u -> c ∈ cells -> c ∈ seen \/ c ∈ u.
Proof.
  revert seen u. induction cells as [| c0 cells IH]; intros seen u Hu Hin.
  - now apply elem_of_nil in Hin.
  - simpl in Hu.
    assert (Hstep : (if bool_decide (c0 ∈ seen) then unique_from seen cells
                     else exc_bind (unique_from (c0 :: seen) cells)
                            (fun u => Ok (c0 :: u))) = Ok u).
    { destruct c0 as [[] |]; try discriminate; exact Hu. }
    clear Hu. apply elem_of_cons in Hin.
    destruct (bool_decide (c0 ∈ seen)) eqn:Eseen.
    + apply bool_decide_eq_true in Eseen.
      destruct Hin as [-> | Hin]; [now left | now apply (IH seen u)].
    + exc_inv Hstep. injection Hstep as <-.
      destruct Hin as [-> | Hin]; [right; apply elem_of_cons; now left |].
      destruct (IH _ _ E Hin) as [Hs | Hu'].
      * apply elem_of_cons in Hs. destruct Hs as [-> | Hs]; [| now left].
        right. apply elem_of_cons. now left.
      * right. apply elem_of_cons. now right.
Qed.

Lemma breakdown_covers (df : list value) (names : list (option value))
    (l : list (option value * ModelStats)) (k : option value) :
  breakdown df names = Ok l -> k ∈ names ->
  exists stats, (k, stats) ∈ l /\ model_stats df k = Ok stats.
Proof.
  revert l. induction names as [| n names IH]; intros l Hb Hin.
  - now apply elem_of_nil in Hin.
  - simpl in Hb. exc_inv Hb. injection Hb as <-.
    apply elem_of_cons in Hin. destruct Hin as [-> | Hin].
    + eexists. split; [apply elem_of_cons; left; reflexivity | exact E].
    + destruct (IH _ eq_refl Hin) as (stats & Hl & Hs).
      exists stats. split; [apply elem_of_cons; now right | exact Hs].
Qed.

Lemma column_mean_no_rows (df : list value) (key : string) (x : pyfloat) :
  column_mean df [] key = Ok x -> x = NaN.
Proof.
  unfold column_mean. destruct (has_column df key); [| discriminate].
  simpl. now intros [= <-].
Qed.

(** The aggregates of a non-empty frame under a non-empty filter. *)
Lemma frame_usage_stats_filtered (df : list value) (model : string) (r : UsageStats) :
  df <> [] -> model <> "" ->
  resource_usage_stats df (Some model) = Ok r ->
  let selected := select_model (filled df) (VStr model) in
  count r = length (select_model df (VStr model))
  /\ column_mean (filled df) selected "cpu_time_sec" = Ok (avg_cpu_time_sec r)
  /\ (exists mem, column_mean (filled df) selected "memory_delta_bytes" = Ok mem
                  /\ avg_memory_delta_mb r = pyfloat_div (pyfloat_div mem 1024) 1024)
  /\ column_mean (filled df) selected "response_time_ms" = Ok (avg_response_time_ms r)
  /\ (forall row, row ∈ df ->
        exists stats, (cell row "model", stats) ∈ models r
                      /\ model_stats (filled df) (cell row "model") = Ok stats
                      /\ m_count stats = length (model_rows (filled df) (cell row "model")))
  /\ (select_model df (VStr model) = [] ->
        count r = 0%nat /\ avg_cpu_time_sec r = NaN /\ avg_memory_delta_mb r = NaN
        /\ avg_response_time_ms r = NaN).
Proof.
  intros Hdf Hmodel Hrun selected.
  unfold resource_usage_stats in Hrun.
  destruct (length (filled df) =? 0)%nat eqn:Elen.
  { apply Nat.eqb_eq in Elen. exfalso. apply Hdf.
    unfold filled, fill_missing_column in Elen.
    destruct (has_column df "cpu_time_sec") in Elen;
      destruct (has_column _ "memory_delta_bytes") in Elen;
      rewrite ?length_map in Elen; now apply length_zero_iff_nil. }
  assert (Hne : negb (String.eqb model "") = true).
  { apply negb_true_iff. now apply String.eqb_neq. }
  rewrite Hne in Hrun. exc_inv Hrun.
  match goal with
  | Esel : Ok (select_model _ _) = Ok _ |- _ => injection Esel as <-
  end.
  injection Hrun as <-. simpl.
  match goal with
  | Ecpu : column_mean _ _ "cpu_time_sec" = Ok ?cpu,
    Emem : column_mean _ _ "memory_delta_bytes" = Ok ?mem,
    Ert : column_mean _ _ "response_time_ms" = Ok ?rt,
    Ecol : column _ "model" = Ok ?cells,
    Euniq : unique ?cells = Ok ?names,
    Ebr : breakdown _ ?names = Ok ?per |- _ =>
    rename Ecpu into Hcpu; rename Emem into Hmem; rename Ert into Hrt;
    rename Ecol into Hcol; rename Euniq into Huniq; rename Ebr into Hbr;
    rename mem into mem0; rename cells into cells0
  end.
  fold selected in Hcpu, Hmem, Hrt |- *.
  assert (Hcount : length selected = length (select_model df (VStr model)))
    by apply filled_select.
  split; [exact Hcount |]. split; [exact Hcpu |].
  split; [now exists mem0 |]. split; [exact Hrt |]. split.
  - intros row Hin.
    destruct (filled_cell_model df row Hin) as (row' & Hin' & Ecell).
    assert (Hcells : cell row "model" ∈ cells0).
    { unfold column in Hcol. destruct (has_column (filled df) "model"); [| discriminate].
      injection Hcol as <-. rewrite <- Ecell.
      apply list_elem_of_fmap. now exists row'. }
    destruct (unique_from_covers _ _ _ _ Huniq Hcells) as [Hnil | Hu];
      [now apply elem_of_nil in Hnil |].
    destruct (breakdown_covers _ _ _ _ Hbr Hu) as (stats & Hl & Hs).
    exists stats. split; [exact Hl | split; [exact Hs |]].
    unfold model_stats in Hs. exc_inv Hs. now injection Hs as <-.
  - intros Hnone. rewrite Hnone in Hcount. simpl in Hcount.
    apply length_zero_iff_nil in Hcount. rewrite Hcount in *.
    apply column_mean_no_rows in Hcpu, Hmem, Hrt. subst. now simpl.
Qed.

Lemma fill_missing_column_cells (df : list value) (key key' : string) :
  key <> key' ->
  map (fun row => cell row key') (fill_missing_column df key)
  = map (fun row => cell row key') df.
Proof.
  intros Hne. unfold fill_missing_column.
  destruct (has_column df key); [reflexivity |].
  rewrite map_map. apply map_ext. intros row.
  destruct row; simpl;
    try (destruct (String.eqb_spec key key'); [contradiction | reflexivity]).
  now apply dict_get_set_ne.
Qed.

Lemma has_column_cells (df : list value) (key : string) :
  has_column df key
  = existsb (fun c => bool_decide (is_Some c)) (map (fun row => cell row key) df).
Proof.
  unfold has_column. induction df as [| row df IH]; simpl; [reflexivity | now rewrite IH].
Qed.

Lemma has_column_filled (df : list value) (key : string) :
  "cpu_time_sec" <> key -> "memory_delta_bytes" <> key ->
  has_column (filled df) key = has_column df key.
Proof.
  intros Hcpu Hmem. rewrite !has_column_cells. unfold filled.
  now rewrite !fill_missing_column_cells.
Qed.

Lemma filled_length (df : list value) : length (filled df) = length df.
Proof.
  unfold filled, fill_missing_column.
  destruct (has_column df "cpu_time_sec"); destruct (has_column _ "memory_delta_bytes");
    now rewrite ?length_map.
Qed.

(** A frame of boxed values has no column with a string name. *)
Lemma has_column_boxed (data : list value) (key : string) :
  has_column (map (fun x => VList [x]) data) key = false.
Proof. unfold has_column. induction data as [| x data IH]; [reflexivity | exact IH]. Qed.

(** No statistics come out of a frame without named columns that has
    rows: [df['response_time_ms']] is a [KeyError] at the latest. *)
Lemma boxed_frame_no_stats (data : list value) (model : option string) (r : UsageStats) :
  data <> [] -> resource_usage_stats (map (fun x => VList [x]) data) model <> Ok r.
Proof.
  intros Hdata Hstats. unfold resource_usage_stats in Hstats.
  destruct (length (filled (map (fun x => VList [x]) data)) =? 0)%nat eqn:Elen.
  { apply Nat.eqb_eq in Elen. rewrite filled_length, length_map in Elen.
    now apply length_zero_iff_nil in Elen. }
  exc_inv Hstats.
  match goal with
  | Ert : column_mean _ _ "response_time_ms" = Ok _ |- _ =>
    unfold column_mean in Ert;
      rewrite has_column_filled, has_column_boxed in Ert by discriminate;
      discriminate Ert
  end.
Qed.

(** When statistics are returned, the frame they were computed on is the
    list of the rows loaded. *)
Lemma frame_of_stats (data df : list value) (model : option string) (r : UsageStats) :
  pd_DataFrame data = Ok df -> resource_usage_stats df model = Ok r -> df = data.
Proof.
  intros Hframe Hstats. destruct data as [| x data]; [now injection Hframe as <- |].
  assert (Hboxed : df = map (fun x => VList [x]) (x :: data) -> df = x :: data).
  { intros ->. now destruct (boxed_frame_no_stats (x :: data) model r). }
  unfold pd_DataFrame in Hframe.
  destruct x;
    try (injection Hframe as <-; now apply Hboxed);
    match type of Hframe with
    | (if ?c then _ else _) = _ => destruct c; [| discriminate]
    end;
    injection Hframe as <-; [now apply Hboxed | reflexivity].
Qed.

Lemma get_resource_usage_stats_inv (model : option string) (st st' : State)
    (r : UsageStats) :
  get_resource_usage_stats model st = (Ok r, st') ->
  get_metrics_dataframe st = (Ok (metrics (tracker st')), st')
  /\ resource_usage_stats (metrics (tracker st')) model = Ok r.
Proof.
  unfold get_resource_usage_stats, get_metrics_dataframe, bind, lift, gets.
  destruct (_load_metrics st) as [[[] | e] st1]; [| discriminate].
  destruct (pd_DataFrame (metrics (tracker st1))) as [df | e] eqn:Eframe;
    [| discriminate].
  intros [= Hr <-].
  rewrite (frame_of_stats _ _ _ _ Eframe Hr) in Hr |- *. now split.
Qed.


End MetricsFacts.

Section MetricsExamples.
Import Hallucination Metrics.



Lemma log_inference_fact_consistency_witness :
  let score :=
    Hallucination.score_hallucination Examples.example_embedder
      Examples.example_prompt Examples.example_completion in
  dict_get Examples.example_record "hallucination_score" = Some (VFloat score)
  /\ (is_Some (dict_get Examples.example_record "fact_consistency") <-> (score < 0.8)%Q)
  /\ (forall v, dict_get Examples.example_record "fact_consistency" = Some v ->
        v = VFloat (1 - score)).
Proof.
  assert (Hrun : log_inference Examples.example_probe Examples.example_prompt
                   Examples.example_completion (VStr "alpha") 250 None None
                   (VStr "success") Examples.example_state
                 = (Ok Examples.example_record, snd Examples.example_log_inference))
    by (vm_compute; reflexivity).
  exact (@log_inference_fact_consistency Examples.example_externals
           Examples.example_probe Examples.example_prompt Examples.example_completion
           (VStr "alpha") 250 None None (VStr "success") Examples.example_state
           (snd Examples.example_log_inference) Examples.example_record Hrun).
Defined.

Lemma reset_metrics_never_raises_witness :
  exists (b : bool) (st' : State),
    Examples.example_reset = (Ok b, st')
    /\ b = true
    /\ files (disk st') !! "data/metrics/metrics.jsonl" = Some []
    /\ files (disk st') !! "data/metrics/metrics.jsonl.bak.20240101_000000"
       = files (disk Examples.example_logged) !! "data/metrics/metrics.jsonl"
    /\ fst (get_metrics_dataframe st') = Ok [].
Proof.
  destruct (@reset_metrics_never_raises Examples.example_externals "20240101_000000"
              Examples.example_logged)
    as (b & st' & Hrun & Hb & Hfiles & _ & Hframe).
  exists b, st'.
  assert (Hb' : b = true) by (rewrite Hb; vm_compute; reflexivity).
  destruct (Hfiles Hb') as (Hf & _).
  split; [exact Hrun |]. split; [exact Hb' |].
  split; [rewrite Hf; vm_compute; reflexivity |].
  split; [rewrite Hf; vm_compute; reflexivity |].
  apply Hframe. now left.
Defined.

End MetricsExamples.

(** ** The request interceptor *)

Section MiddlewareFacts.
Import Hallucination Metrics Middleware.
Context `{Externals}.
Local Open Scope m_scope.

Lemma _log_audit_info_skips (self : AuditMiddleware) (env : Env) (request_body : value)
    (response_body : string) (response_status : Z) (st : State) :
  response_body = "" \/ (400 <= response_status)%Z ->
  _log_audit_info self env request_body response_body response_status st = (Ok tt, st).
Proof.
  intros Hskip. unfold _log_audit_info.
  assert (E : String.eqb response_body "" || (response_status >=? 400)%Z = true).
  { apply orb_true_iff. destruct Hskip as [-> | Hs]; [now left | right].
    now apply Z.geb_le. }
  now rewrite E.
Qed.

Lemma captured_body_error (response : Response) :
  (400 <= status_code response)%Z -> captured_body response = "".
Proof.
  intros Hs. unfold captured_body.
  destruct (Z.ltb_spec (status_code response) 300); [lia |].
  now rewrite andb_false_r.
Qed.

(** C3. Whenever the response the downstream application gives has a
    status of 400 or more, or the body the middleware captured from it is
    empty, [dispatch] leaves the whole state as it was: no line is added to
    the log, the drift window is not touched and [log_inference] is not
    called; the response is handed on with its status. *)
Theorem dispatch_skips_errors (self : AuditMiddleware) (env : Env)
    (call_next : nat -> Request -> Exc Response) (request : Request) (st : State) :
  (forall response, call_next 0%nat request = Ok response ->
     (400 <= status_code response)%Z \/ captured_body response = "") ->
  snd (dispatch self env call_next request st) = st
  /\ files (disk (snd (dispatch self env call_next request st))) = files (disk st)
  /\ log_inference_calls (snd (dispatch self env call_next request st))
     = log_inference_calls st
  /\ (forall response, call_next 0%nat request = Ok response ->
        exists response',
          fst (dispatch self env call_next request st) = Ok response'
          /\ status_code response' = status_code response).
Proof.
  intros Hskip.
  assert (Hgoal : snd (dispatch self env call_next request st) = st
            /\ (forall response, call_next 0%nat request = Ok response ->
                  exists response',
                    fst (dispatch self env call_next request st) = Ok response'
                    /\ status_code response' = status_code response)).
  { unfold dispatch.
    destruct (_should_audit_path self (url_path request)); simpl;
      [| unfold lift; split; [reflexivity | intros response ->; eauto]].
    destruct (read_request_body request) as [request_body | e];
      [| unfold lift; split; [reflexivity | intros response ->; eauto]].
    destruct (call_next 0%nat request) as [response | e] eqn:Hnext;
      [| unfold lift; split; [reflexivity | discriminate]].
    assert (Hbody : captured_body response = "").
    { destruct (Hskip response eq_refl) as [Hs | Hb];
        [now apply captured_body_error | exact Hb]. }
    unfold captured_body in Hbody.
    destruct ((200 <=? status_code response)%Z && (status_code response <? 300)%Z);
      unfold try_catch, bind, ret.
    - rewrite Hbody. rewrite _log_audit_info_skips by now left.
      split; [reflexivity | intros ? [= <-]; eauto].
    - rewrite _log_audit_info_skips by now left.
      split; [reflexivity | intros ? [= <-]; eauto]. }
  destruct Hgoal as (Hst & Hresp). rewrite Hst. now repeat split.
Qed.


Lemma read_body_singleton (body : string) : read_body [body] = body.
Proof. reflexivity. Qed.






End MiddlewareFacts.

Section MiddlewareExamples.
Import Hallucination Metrics Middleware.

Lemma dispatch_skips_errors_witness :
  let run := Examples.example_dispatch Examples.error_response Examples.empty_request in
  snd run = Examples.example_state
  /\ files (disk (snd run)) = files (disk Examples.example_state)
  /\ log_inference_calls (snd run) = log_inference_calls Examples.example_state
  /\ (forall response,
        Examples.always Examples.error_response 0%nat Examples.empty_request = Ok response ->
        exists response',
          fst run = Ok response' /\ status_code response' = status_code response).
Proof.
  apply (@dispatch_skips_errors Examples.example_externals Examples.example_middleware
           Examples.example_env (Examples.always Examples.error_response)
           Examples.empty_request Examples.example_state).
  intros response [= <-]. left. simpl. lia.
Defined.



End MiddlewareExamples.

(** * Further properties *)

(** ** Drift detection, continued *)

Section DriftMore.
Import Drift.

Lemma detect_drift_result_ext (d1 d2 : DriftDetector) (h : Q) (rt : Z) (tc : option Z) :
  window_size d1 = window_size d2 ->
  reference_stats d1 = reference_stats d2 ->
  push_window (window_size d1) (current_window d1) (mkSample h rt tc)
  = push_window (window_size d2) (current_window d2) (mkSample h rt tc) ->
  fst (detect_drift d1 h rt tc) = fst (detect_drift d2 h rt tc).
Proof.
  intros HW Href Hpush.
  pose (answer := fun (W : Z) (ref : gmap string Q) (w : list Sample) =>
    if (Z.of_nat (length w) <? W)%Z || (size ref =? 0)%nat then Ok false
    else match w with
         | [] => Raise (KeyError "hallucination_score")
         | _ :: _ =>
           Ok (_is_metric_drifting (get0 (current_stats w) "hallucination_score_mean")
                 (get0 ref "hallucination_score_mean") 0.2 false
               || _is_metric_drifting (get0 (current_stats w) "response_time_ms_mean")
                    (get0 ref "response_time_ms_mean") 0.5 true)
         end).
  assert (Hanswer : forall d,
            fst (detect_drift d h rt tc)
            = answer (window_size d) (reference_stats d)
                (push_window (window_size d) (current_window d) (mkSample h rt tc))).
  { clear. intros d. unfold detect_drift. subst answer. simpl.
    destruct (_ || _); [reflexivity |].
    destruct (push_window (window_size d) (current_window d) (mkSample h rt tc));
      reflexivity. }
  now rewrite !Hanswer, Hpush, HW, Href.
Qed.

(** X1. A detector built without reference data, or whose reference file
    could not be loaded, never reports drift: every call of every run
    returns [False], whatever the window size and the values observed. *)
Theorem drift_disabled_without_reference (ws : option Z) (obs : list Sample)
    (h : Q) (rt : Z) (tc : option Z) :
  fst (detect_drift (observe_all (__init__ None ws) obs) h rt tc) = Ok false
  /\ forall e,
       fst (detect_drift (observe_all (__init__ (Some (Raise e)) ws) obs) h rt tc)
       = Ok false.
Proof.
  split; [| intros e]; rewrite detect_drift_early_return; try reflexivity;
    right; now rewrite (proj2 (observe_all_config _ obs)).
Qed.

Lemma Qlt_abs_cases (x t : Q) : (t < Qabs x <-> t < x \/ t < - x)%Q.
Proof.
  apply (Qabs_case x (fun a => (t < a <-> t < x \/ t < - x)%Q)); intros Hx; lra.
Qed.

Lemma Qdiv_cancel (x r : Q) : ~ (r == 0)%Q -> (x / r * r == x)%Q.
Proof. intros Hr. field. exact Hr. Qed.

(** X2. Against a positive reference mean [r] a time metric drifts exactly
    when the current value exceeds [r * (1 + threshold)], so a speed-up is
    never flagged; any other metric drifts exactly when the current value
    leaves the band from [r * (1 - threshold)] to [r * (1 + threshold)]. *)
Theorem _is_metric_drifting_positive_reference (c r thr : Q) :
  (0 < r)%Q ->
  (_is_metric_drifting c r thr true = true <-> (r * (1 + thr) < c)%Q)
  /\ (_is_metric_drifting c r thr false = true
      <-> (r * (1 + thr) < c)%Q \/ (c < r * (1 - thr))%Q).
Proof.
  intros Hr.
  assert (Hne : ~ (r == 0)%Q) by lra.
  assert (Hscale : forall x, (thr < x / r <-> thr * r < x)%Q).
  { intros x. pose proof (Qdiv_cancel x r Hne) as E. split; intros H.
    - rewrite <- E. now apply Qmult_lt_r.
    - apply Qlt_shift_div_l; assumption. }
  split.
  - rewrite _is_metric_drifting_increase, Hscale. split; [intros [_ H] | intros H; split]; lra.
  - rewrite _is_metric_drifting_two_sided, Hscale, Qlt_abs_cases.
    split; [intros [_ [H | H]] | intros [H | H]; split]; lra.
Qed.

Lemma _is_metric_drifting_positive_reference_witness :
  (_is_metric_drifting 140 100 0.5 true = true <-> (100 * (1 + 0.5) < 140)%Q)
  /\ (_is_metric_drifting 140 100 0.5 false = true
      <-> (100 * (1 + 0.5) < 140)%Q \/ (140 < 100 * (1 - 0.5))%Q).
Proof. apply (_is_metric_drifting_positive_reference 140 100 0.5). reflexivity. Defined.

(** X3. Against a negative reference mean the two-sided test never
    reports drift for a threshold that is not negative, and the time test
    reports drift exactly when the current value is below
    [r * (1 + threshold)]. *)
Theorem _is_metric_drifting_negative_reference (c r thr : Q) :
  (r < 0)%Q -> (0 <= thr)%Q ->
  _is_metric_drifting c r thr false = false
  /\ (_is_metric_drifting c r thr true = true <-> (c < r * (1 + thr))%Q).
Proof.
  intros Hr Hthr.
  assert (Hne : ~ (r == 0)%Q) by lra.
  assert (Hscale : forall x, (thr < x / r <-> x < thr * r)%Q).
  { intros x. pose proof (Qdiv_cancel x r Hne) as E. split; intros H.
    - assert (H' : (thr * - r < x / r * - r)%Q) by (apply Qmult_lt_r; lra).
      assert (E' : (x / r * - r == - x)%Q) by (rewrite <- E at 2; ring).
      rewrite E' in H'. lra.
    - assert (H' : (thr < - x / - r)%Q) by (apply Qlt_shift_div_l; lra).
      assert (E' : (- x / - r == x / r)%Q) by (field; exact Hne).
      now rewrite E' in H'. }
  split.
  - apply not_true_iff_false. rewrite _is_metric_drifting_two_sided, Hscale.
    intros [_ H]. pose proof (Qabs_nonneg (c - r)) as Habs.
    assert (Hprod : (thr * r <= 0)%Q).
    { assert (H0 : (0 <= thr * - r)%Q) by (apply Qmult_le_0_compat; lra).
      assert (E0 : (thr * - r == - (thr * r))%Q) by ring.
      rewrite E0 in H0. lra. }
    lra.
  - rewrite _is_metric_drifting_increase, Hscale.
    split; [intros [_ H] | intros H; split]; lra.
Qed.

Lemma _is_metric_drifting_negative_reference_witness :
  _is_metric_drifting 5 (-1) 0.2 false = false
  /\ (_is_metric_drifting 5 (-1) 0.2 true = true <-> (5 < -1 * (1 + 0.2))%Q).
Proof.
  apply (_is_metric_drifting_negative_reference 5 (-1) 0.2); [reflexivity | discriminate].
Defined.

(** X4. With a window size of 0 or less and reference statistics loaded,
    a call on an empty window raises [KeyError]: the sample is appended and
    evicted at once, and the frame of the empty window has no column. The
    window stays empty, so every later call raises too. *)
Theorem detect_drift_no_capacity_raises
    (self : DriftDetector) (h : Q) (rt : Z) (tc : option Z) :
  (window_size self <= 0)%Z ->
  current_window self = [] ->
  reference_stats self <> ∅ ->
  detect_drift self h rt tc = (Raise (KeyError "hallucination_score"), self).
Proof.
  intros HW Hw Href. destruct self as [W ref w]. simpl in HW, Hw, Href. subst w.
  assert (E1 : (1 >? W)%Z = true) by (apply Z.gtb_lt; lia).
  assert (E2 : (0 <? W)%Z = false) by (apply Z.ltb_ge; lia).
  assert (E3 : (size ref =? 0)%nat = false).
  { apply Nat.eqb_neq. now rewrite map_size_empty_iff. }
  unfold detect_drift, push_window. simpl.
  change (Z.of_nat 1) with 1%Z. rewrite E1. simpl.
  change (Z.of_nat 0) with 0%Z. now rewrite E2, E3.
Qed.

Lemma detect_drift_no_capacity_raises_witness :
  detect_drift MoreExamples.zero_capacity_detector 0.1 100 None
  = (Raise (KeyError "hallucination_score"), MoreExamples.zero_capacity_detector).
Proof.
  apply (detect_drift_no_capacity_raises MoreExamples.zero_capacity_detector 0.1 100 None).
  - simpl. lia.
  - reflexivity.
  - exact example_reference_nonempty.
Defined.

(** X5. The answer of [detect_drift] depends on the most recent
    observations only: two runs from fresh detectors of the same
    configuration that end with the same [W - 1] or more observations give
    the same answer to the same new sample, whatever came before. *)
Theorem detect_drift_depends_on_recent
    (refdata : option (Exc (gmap string Q))) (ws : option Z)
    (older1 older2 recent : list Sample) (h : Q) (rt : Z) (tc : option Z) :
  let W := default 10%Z ws in
  (0 <= W)%Z ->
  (W <= Z.of_nat (length recent) + 1)%Z ->
  fst (detect_drift (observe_all (__init__ refdata ws) (older1 ++ recent)) h rt tc)
  = fst (detect_drift (observe_all (__init__ refdata ws) (older2 ++ recent)) h rt tc).
Proof.
  intros W HW Hrecent.
  assert (Hpush : forall older,
    push_window W (current_window (observe_all (__init__ refdata ws) (older ++ recent)))
      (mkSample h rt tc)
    = drop (length (recent ++ [mkSample h rt tc]) - Z.to_nat W)
        (recent ++ [mkSample h rt tc])).
  { intros older. rewrite (observe_all_window refdata ws (older ++ recent) HW).
    change (default default_window_size ws) with W.
    rewrite (push_window_drop W (older ++ recent) (mkSample h rt tc) HW).
    rewrite <- app_assoc, !length_app. simpl.
    replace (length older + (length recent + 1) - Z.to_nat W)%nat
      with (length older + (length recent + 1 - Z.to_nat W))%nat by lia.
    now rewrite drop_app_add'. }
  apply detect_drift_result_ext.
  - now rewrite !(proj1 (observe_all_config _ _)).
  - now rewrite !(proj2 (observe_all_config _ _)).
  - rewrite !(proj1 (observe_all_config _ _)). simpl window_size.
    change (default default_window_size ws) with W. now rewrite !Hpush.
Qed.

Lemma detect_drift_depends_on_recent_witness :
  fst (detect_drift
         (observe_all (__init__ (Some (Ok example_reference)) (Some 2%Z))
            ([fifo_sample 9; fifo_sample 8] ++ [fifo_sample 1])) 0.1 100 None)
  = fst (detect_drift
           (observe_all (__init__ (Some (Ok example_reference)) (Some 2%Z))
              ([] ++ [fifo_sample 1])) 0.1 100 None).
Proof.
  apply (detect_drift_depends_on_recent (Some (Ok example_reference)) (Some 2%Z)
           [fifo_sample 9; fifo_sample 8] [] [fifo_sample 1] 0.1 100 None);
    simpl; lia.
Defined.

End DriftMore.

(** ** Hallucination scoring, continued *)

Section HallucinationMore.
Import Hallucination.
Context `{Externals}.

Lemma hesitation_score_bounds (completion_lower : string) :
  (0 <= hesitation_score completion_lower <= 0.5)%Q.
Proof.
  rewrite hesitation_score_spec. apply py_min_bounds; [| lra].
  apply Qmult_le_0_compat; [lra |].
  change 0%Q with (inject_Z 0). rewrite <- Zle_Qle. lia.
Qed.

Lemma overlap_ratio_unit (a b : nat) :
  (a <= b)%nat ->
  (0 <= inject_Z (Z.of_nat a) / inject_Z (Z.of_nat (Nat.max 1 b)) <= 1)%Q.
Proof.
  intros Hab.
  assert (Hb : (0 < inject_Z (Z.of_nat (Nat.max 1 b)))%Q).
  { change 0%Q with (inject_Z 0). rewrite <- Zlt_Qlt. lia. }
  assert (Ha : (0 <= inject_Z (Z.of_nat a))%Q).
  { change 0%Q with (inject_Z 0). rewrite <- Zle_Qle. lia. }
  split.
  - apply Qle_shift_div_l; [exact Hb | lra].
  - apply Qle_shift_div_r; [exact Hb |]. rewrite Qmult_1_l, <- Zle_Qle. lia.
Qed.

Lemma py_max_zero (x : Q) :
  ((x <= 0)%Q -> py_max 0 x = 0%Q) /\ ((0 < x)%Q -> py_max 0 x = x).
Proof.
  unfold py_max. destruct (Qlt_bool 0 x) eqn:E.
  - apply Qlt_bool_iff in E. split; [lra | reflexivity].
  - apply not_true_iff_false in E. rewrite Qlt_bool_iff in E. split; [reflexivity | lra].
Qed.

Lemma gset_size_zero (X : gset string) : (size X =? 0)%nat = true <-> X = ∅.
Proof.
  rewrite Nat.eqb_eq, size_empty_iff.
  split; [intros HX; now apply leibniz_equiv | now intros ->].
Qed.

Lemma overlap_score_bounds (prompt_lower completion_lower : string) :
  (0 <= overlap_score prompt_lower completion_lower <= 0.7)%Q.
Proof.
  unfold overlap_score.
  set (pw := list_to_set (re_findall_words prompt_lower) : gset string).
  set (cw := list_to_set (re_findall_words completion_lower) : gset string).
  destruct ((size pw =? 0)%nat || (size cw =? 0)%nat); [lra |].
  assert (Hcommon : (size (pw ∩ cw) <= size cw)%nat)
    by apply subseteq_size, intersection_subseteq_r.
  pose proof (overlap_ratio_unit _ _ Hcommon) as Hratio.
  set (ratio := (inject_Z (Z.of_nat (size (pw ∩ cw)))
                 / inject_Z (Z.of_nat (Nat.max 1 (size cw))))%Q) in *.
  destruct (py_max_zero (0.7 - ratio)) as [Hneg Hpos].
  destruct (Qlt_le_dec 0 (0.7 - ratio)) as [Hlt | Hle].
  - rewrite (Hpos Hlt). lra.
  - rewrite (Hneg Hle). lra.
Qed.

(** X6. The overlap score lies between 0 and 0.7. It is 0.5 when the
    prompt or the completion has no word, 0 when every word of the
    completion occurs in the prompt, and 0.7 when they share no word. *)
Theorem overlap_score_range (prompt_lower completion_lower : string) :
  let prompt_words : gset string := list_to_set (re_findall_words prompt_lower) in
  let completion_words : gset string := list_to_set (re_findall_words completion_lower) in
  (0 <= overlap_score prompt_lower completion_lower <= 0.7)%Q
  /\ (prompt_words = ∅ \/ completion_words = ∅ ->
      overlap_score prompt_lower completion_lower = 0.5%Q)
  /\ (prompt_words <> ∅ -> completion_words <> ∅ ->
      completion_words ⊆ prompt_words ->
      (overlap_score prompt_lower completion_lower == 0)%Q)
  /\ (prompt_words <> ∅ -> completion_words <> ∅ ->
      prompt_words ∩ completion_words = ∅ ->
      (overlap_score prompt_lower completion_lower == 0.7)%Q).
Proof.
  intros pw cw. split; [apply overlap_score_bounds |].
  unfold overlap_score. fold pw. fold cw.
  set (ratio := (inject_Z (Z.of_nat (size (pw ∩ cw)))
                 / inject_Z (Z.of_nat (Nat.max 1 (size cw))))%Q) in *.
  destruct (py_max_zero (0.7 - ratio)) as [Hneg Hpos].
  destruct ((size pw =? 0)%nat || (size cw =? 0)%nat) eqn:E.
  - apply orb_true_iff in E. rewrite !gset_size_zero in E.
    split; [reflexivity |]. split; intros Hp Hc; destruct E; contradiction.
  - apply orb_false_iff in E. destruct E as [Ep Ec].
    apply not_true_iff_false in Ep, Ec. rewrite gset_size_zero in Ep, Ec.
    split; [intros [Hp | Hc]; contradiction |]. split.
    + intros _ _ Hsub.
      assert (Ecap : pw ∩ cw = cw).
      { rewrite (comm_L (∩) pw cw). now apply subseteq_intersection_1_L. }
      assert (Hone : (ratio == 1)%Q).
      { unfold ratio. rewrite Ecap.
        assert (Hpos1 : (1 <= size cw)%nat).
        { destruct (size cw) eqn:Es; [| lia].
          exfalso. apply Ec, gset_size_zero. now rewrite Es. }
        rewrite Nat.max_r by lia. field.
        change 0%Q with (inject_Z 0). rewrite inject_Z_injective. lia. }
      rewrite Hneg by lra. reflexivity.
    + intros _ _ Hdisj.
      assert (Hzero : (ratio == 0)%Q).
      { unfold ratio. rewrite Hdisj, size_empty. simpl. unfold Qdiv. ring. }
      rewrite Hpos by lra. lra.
Qed.

Lemma np_clip_inside (x : Q) : (0 <= x <= 1)%Q -> np_clip x 0 1 = x.
Proof.
  intros Hx. unfold np_clip, py_min, py_max.
  assert (E1 : Qlt_bool x 0 = false).
  { apply not_true_iff_false. rewrite Qlt_bool_iff. lra. }
  rewrite E1.
  assert (E2 : Qlt_bool 1 x = false).
  { apply not_true_iff_false. rewrite Qlt_bool_iff. lra. }
  now rewrite E2.
Qed.

Lemma score_hallucination_weighted (self : HallucinationDetector)
    (prompt completion : string) :
  score_hallucination self (VStr prompt) (VStr completion)
  = np_clip (semantic_divergence self (VStr prompt) (VStr completion) * 0.6
             + hesitation_score (str_lower completion) * 0.2
             + overlap_score (str_lower prompt) (str_lower completion) * 0.2) 0 1.
Proof. reflexivity. Qed.

(** C5 (as the code has it). For all prompt and completion strings,
    [score_hallucination] returns a value in [0,1], and
    [get_fact_consistency], which is 1 minus it, returns a value in
    [0,1]; nothing propagates. On strings [_heuristic_score] does not
    raise, so the default 0.5 of the outer [except] is never what is
    returned: the one internal exception, a failure of the embedder or of
    the similarity, is caught inside [_heuristic_score], which takes 0.5
    for the semantic divergence only and returns
    0.3 + 0.2 * hesitation + 0.2 * overlap, a value between 0.3 and 0.54.
    The default 0.5 is what a prompt or a completion that is not a string
    gives. *)
Theorem score_hallucination_unit_interval (self : HallucinationDetector)
    (prompt completion : string) :
  let score := score_hallucination self (VStr prompt) (VStr completion) in
  (0 <= score <= 1)%Q
  /\ (0 <= get_fact_consistency self (VStr prompt) (VStr completion) <= 1)%Q
  /\ get_fact_consistency self (VStr prompt) (VStr completion) = (1 - score)%Q
  /\ _heuristic_score self (VStr prompt) (VStr completion) = Ok score
  /\ (forall e,
        exc_bind (encode self (VStr prompt)) (fun prompt_emb =>
        exc_bind (encode self (VStr completion)) (fun completion_emb =>
        pytorch_cos_sim prompt_emb completion_emb)) = Raise e ->
        score = (0.5 * 0.6 + hesitation_score (str_lower completion) * 0.2
                 + overlap_score (str_lower prompt) (str_lower completion) * 0.2)%Q
        /\ (0.3 <= score <= 0.54)%Q)
  /\ (forall v, (forall s, v <> VStr s) ->
        score_hallucination self v (VStr completion) = 0.5%Q
        /\ score_hallucination self (VStr prompt) v = 0.5%Q).
Proof.
  intros score.
  assert (Hunit : (0 <= score <= 1)%Q).
  { unfold score. rewrite score_hallucination_weighted. apply np_clip_unit. }
  split; [exact Hunit |].
  split; [unfold get_fact_consistency; fold score; lra |].
  split; [reflexivity |]. split; [reflexivity |]. split.
  - intros e Hfail.
    assert (Hdiv : semantic_divergence self (VStr prompt) (VStr completion) = 0.5%Q).
    { unfold semantic_divergence, exc_bind in *.
      destruct (encode self (VStr prompt)); [| reflexivity].
      destruct (encode self (VStr completion)); [| reflexivity].
      destruct (pytorch_cos_sim a a0); [discriminate | reflexivity]. }
    pose proof (hesitation_score_bounds (str_lower completion)) as Hh.
    pose proof (overlap_score_bounds (str_lower prompt) (str_lower completion)) as Ho.
    unfold score. rewrite score_hallucination_weighted, Hdiv.
    rewrite np_clip_inside by lra.
    split; [reflexivity | lra].
  - intros v Hv. destruct v; try (split; reflexivity). now destruct (Hv s).
Qed.

(** X7. When embedding the prompt or the completion, or computing their
    similarity, raises, the score of two strings is 0.3 plus 0.2 times the
    hesitation score plus 0.2 times the overlap score: it lies between 0.3
    and 0.54, so it is below the 0.8 above which no fact consistency is
    recorded. *)
Theorem score_when_embedding_fails (self : HallucinationDetector)
    (prompt completion : string) (e : exn) :
  exc_bind (encode self (VStr prompt)) (fun prompt_emb =>
  exc_bind (encode self (VStr completion)) (fun completion_emb =>
  pytorch_cos_sim prompt_emb completion_emb)) = Raise e ->
  let score := score_hallucination self (VStr prompt) (VStr completion) in
  score = (0.5 * 0.6 + hesitation_score (str_lower completion) * 0.2
           + overlap_score (str_lower prompt) (str_lower completion) * 0.2)%Q
  /\ (0.3 <= score <= 0.54)%Q
  /\ (score < 0.8)%Q.
Proof.
  intros Hfail score.
  assert (Hdiv : semantic_divergence self (VStr prompt) (VStr completion) = 0.5%Q).
  { unfold semantic_divergence, exc_bind in *.
    destruct (encode self (VStr prompt)); [| reflexivity].
    destruct (encode self (VStr completion)); [| reflexivity].
    destruct (pytorch_cos_sim a a0); [discriminate | reflexivity]. }
  pose proof (hesitation_score_bounds (str_lower completion)) as Hh.
  pose proof (overlap_score_bounds (str_lower prompt) (str_lower completion)) as Ho.
  unfold score. rewrite score_hallucination_weighted, Hdiv.
  rewrite np_clip_inside by lra.
  split; [reflexivity | split; lra].
Qed.

(** X8. When the embedder returns a cosine similarity [sim] between 0
    and 1, the clamp changes nothing: the score of two strings is
    0.6 * (1 - sim) + 0.2 * hesitation + 0.2 * overlap, which lies between
    0.6 * (1 - sim) and 0.6 * (1 - sim) + 0.24. *)
Theorem score_with_similarity (self : HallucinationDetector)
    (prompt completion : string) (prompt_emb completion_emb : list Q) (sim : Q) :
  encode self (VStr prompt) = Ok prompt_emb ->
  encode self (VStr completion) = Ok completion_emb ->
  pytorch_cos_sim prompt_emb completion_emb = Ok sim ->
  (0 <= sim <= 1)%Q ->
  let score := score_hallucination self (VStr prompt) (VStr completion) in
  score = ((1 - sim) * 0.6 + hesitation_score (str_lower completion) * 0.2
           + overlap_score (str_lower prompt) (str_lower completion) * 0.2)%Q
  /\ (0.6 * (1 - sim) <= score <= 0.6 * (1 - sim) + 0.24)%Q.
Proof.
  intros Hp Hc Hsim Hrange score.
  assert (Hdiv : semantic_divergence self (VStr prompt) (VStr completion) = (1 - sim)%Q).
  { unfold semantic_divergence, exc_bind. now rewrite Hp, Hc, Hsim. }
  pose proof (hesitation_score_bounds (str_lower completion)) as Hh.
  pose proof (overlap_score_bounds (str_lower prompt) (str_lower completion)) as Ho.
  unfold score. rewrite score_hallucination_weighted, Hdiv.
  rewrite np_clip_inside by lra.
  split; [reflexivity | lra].
Qed.

End HallucinationMore.

Section HallucinationMoreExamples.
Import Hallucination.

(** C5 as stated fails when the embedder fails: the exception is an
    internal one, and the score of these two strings is 0.46, not the
    default 0.5. *)
Lemma score_hallucination_embedder_failure :
  let prompt := VStr "What is the capital of France?" in
  let completion := VStr "Perhaps Paris." in
  let score := score_hallucination MoreExamples.failing_embedder prompt completion in
  encode MoreExamples.failing_embedder prompt = Raise (RuntimeError "model unavailable")
  /\ (score == 0.46)%Q
  /\ ~ (score == 0.5)%Q.
Proof.
  cbv zeta. split; [reflexivity |]. split; [vm_compute; reflexivity |].
  intros E. vm_compute in E. discriminate.
Qed.

Lemma score_when_embedding_fails_witness :
  let score :=
    score_hallucination MoreExamples.failing_embedder
      (VStr "What is the capital of France?") (VStr "Perhaps Paris.") in
  score = (0.5 * 0.6 + hesitation_score (str_lower "Perhaps Paris.") * 0.2
           + overlap_score (str_lower "What is the capital of France?")
               (str_lower "Perhaps Paris.") * 0.2)%Q
  /\ (0.3 <= score <= 0.54)%Q
  /\ (score < 0.8)%Q.
Proof.
  apply (@score_when_embedding_fails Examples.example_externals
           MoreExamples.failing_embedder "What is the capital of France?"
           "Perhaps Paris." (RuntimeError "model unavailable")).
  reflexivity.
Defined.

Lemma score_with_similarity_witness :
  let score :=
    score_hallucination Examples.example_embedder
      (VStr "capital of France") (VStr "Paris is the capital") in
  score = ((1 - 0.5) * 0.6 + hesitation_score (str_lower "Paris is the capital") * 0.2
           + overlap_score (str_lower "capital of France")
               (str_lower "Paris is the capital") * 0.2)%Q
  /\ (0.6 * (1 - 0.5) <= score <= 0.6 * (1 - 0.5) + 0.24)%Q.
Proof.
  apply (@score_with_similarity Examples.example_externals Examples.example_embedder
           "capital of France" "Paris is the capital" [17%Q] [20%Q] 0.5);
    try reflexivity.
  split; discriminate.
Defined.

End HallucinationMoreExamples.

(** ** The metrics store, continued *)

Section MetricsMore.
Import Hallucination Metrics.
Context `{Externals}.
Local Open Scope m_scope.

(** What [_write_to_disk] does, case by case. *)
Lemma _write_to_disk_spec (record : dict value) (st : State) :
  let file := metrics_file st in
  let old := default [] (files (disk st) !! file) in
  exists st',
    _write_to_disk record st = (Ok tt, st')
    /\ tracker st' = tracker st
    /\ log_inference_calls st' = log_inference_calls st
    /\ io_fails (disk st') = io_fails (disk st)
    /\ files (disk st')
       = if io_fails (disk st) (IoOpen file ModeA) then files (disk st)
         else match json_dumps (VDict record) with
              | Ok line =>
                if io_fails (disk st) (IoWrite file)
                then <[file := old]> (files (disk st))
                else <[file := old ++ [line]]> (files (disk st))
              | Raise _ => <[file := old]> (files (disk st))
              end.
Proof.
  intros file old. destruct st as [t [fs fails] n].
  unfold _write_to_disk, bind, try_catch, gets, open_a, lift, write_line, ret.
  unfold file, old, metrics_file in *. simpl.
  set (f := os_path_join (storage_path t) "metrics.jsonl").
  destruct (fails (IoOpen f ModeA)); [eexists; repeat split |].
  destruct (json_dumps (VDict record)) as [line | e]; [| eexists; repeat split].
  simpl. destruct (fails (IoWrite f)); [eexists; repeat split |].
  eexists. repeat split. simpl.
  now rewrite lookup_insert_eq, insert_insert_eq.
Qed.

(** X9. [_write_to_disk] never raises and only ever appends: the tracker
    is untouched, every other file is untouched, the lines the log held
    are still there in order, and at most one line follows them. When
    nothing is refused and the record can be serialized, exactly its
    serialization is appended. *)
Theorem _write_to_disk_append_only (record : dict value) (st : State) :
  let file := metrics_file st in
  let old := default [] (files (disk st) !! file) in
  exists (st' : State) (added : list string),
    _write_to_disk record st = (Ok tt, st')
    /\ tracker st' = tracker st
    /\ (forall path, path <> file ->
          files (disk st') !! path = files (disk st) !! path)
    /\ default [] (files (disk st') !! file) = old ++ added
    /\ (added = [] \/ json_dumps (VDict record) = Ok (default "" (head added))
                      /\ length added = 1%nat)
    /\ (forall line,
          io_fails (disk st) (IoOpen file ModeA) = false ->
          io_fails (disk st) (IoWrite file) = false ->
          json_dumps (VDict record) = Ok line ->
          added = [line]).
Proof.
  intros file old.
  destruct (_write_to_disk_spec record st) as (st' & Hrun & Ht & _ & _ & Hfiles).
  fold file in Hfiles. fold old in Hfiles.
  assert (Hold : forall fs : gmap string (list string),
            fs = files (disk st) \/ fs = <[file := old]> (files (disk st)) ->
            (forall path, path <> file -> fs !! path = files (disk st) !! path)
            /\ default [] (fs !! file) = old ++ []).
  { intros fs [-> | ->]; split; try reflexivity.
    - now rewrite app_nil_r.
    - intros path Hne. now rewrite lookup_insert_ne.
    - now rewrite lookup_insert_eq, app_nil_r. }
  destruct (io_fails (disk st) (IoOpen file ModeA)) eqn:Eopen.
  { exists st', []. destruct (Hold (files (disk st')) ltac:(left; exact Hfiles)) as [H1 H2].
    repeat split; try assumption; [now left | discriminate]. }
  destruct (json_dumps (VDict record)) as [line | e] eqn:Edumps.
  - destruct (io_fails (disk st) (IoWrite file)) eqn:Ewrite.
    + exists st', [].
      destruct (Hold (files (disk st')) ltac:(right; exact Hfiles)) as [H1 H2].
      repeat split; try assumption; [now left | discriminate].
    + exists st', [line]. rewrite Hfiles.
      repeat split; try assumption.
      * intros path Hne. now rewrite lookup_insert_ne.
      * now rewrite lookup_insert_eq.
      * right. now split.
      * intros line' _ _ [= <-]. reflexivity.
  - exists st', [].
    destruct (Hold (files (disk st')) ltac:(right; exact Hfiles)) as [H1 H2].
    repeat split; try assumption; [now left | discriminate].
Qed.

Lemma set_metrics_same (st : State) (ms : list value) :
  metrics (tracker st) = ms -> set_metrics st ms = st.
Proof. destruct st as [[sp m hd dd] d n]. simpl. now intros ->. Qed.

Lemma load_lines_parsed (lines : list string) (rows : list value) (st : State) :
  Forall2 (fun line row => json_loads line = Ok row) (List.filter nonblank lines) rows ->
  load_lines lines st = (Ok tt, set_metrics st (metrics (tracker st) ++ rows)).
Proof.
  revert rows st. induction lines as [| line rest IH]; intros rows st Hrows; simpl in *.
  - apply Forall2_nil_inv_l in Hrows. subst rows. unfold ret.
    now rewrite set_metrics_same by (now rewrite app_nil_r).
  - unfold nonblank in Hrows at 1. unfold bind at 1.
    destruct (strip_is_empty line); simpl in Hrows.
    + unfold ret at 1. now apply IH.
    + apply Forall2_cons_inv_l in Hrows. destruct Hrows as (row & rows' & Hrow & Hrest & ->).
      unfold bind, lift, modify. rewrite Hrow.
      rewrite (IH rows' _ Hrest). simpl. now rewrite <- app_assoc.
Qed.



Lemma get_metrics_dataframe_run (st : State) :
  get_metrics_dataframe st
  = let st0 := set_metrics st [] in
    let loaded :=
      if bool_decide (is_Some (files (disk st) !! metrics_file st))
      then
        if io_fails (disk st) (IoOpen (metrics_file st) ModeR) then (Ok tt, st0)
        else match files (disk st) !! metrics_file st with
             | None => (Ok tt, st0)
             | Some lines =>
               match load_lines lines st0 with
               | (Ok _, st1) => (Ok tt, st1)
               | (Raise _, st1) => (Ok tt, st1)
               end
             end
      else (Ok tt, st0) in
    (pd_DataFrame (metrics (tracker (snd loaded))), snd loaded).
Proof.
  destruct st as [[sp ms hd dd] [fs fails] n].
  unfold get_metrics_dataframe, _load_metrics, bind, modify, gets, os_path_exists,
    try_catch, open_r, ret, lift, metrics_file, set_metrics.
  simpl.
  destruct (fs !! os_path_join sp "metrics.jsonl") as [lines |] eqn:Hfile; simpl;
    [| reflexivity].
  destruct (fails (IoOpen (os_path_join sp "metrics.jsonl") ModeR)); [reflexivity |].
  rewrite Hfile.
  destruct (load_lines lines _) as [[[] | e] st1]; reflexivity.
Qed.

(** Reading a log that can be opened: the frame is built from what
    [load_lines] leaves in the cache, whether it ended or raised. *)
Lemma get_metrics_dataframe_loaded (st : State) (lines : list string)
    (r : Exc unit) (ms : list value) :
  files (disk st) !! metrics_file st = Some lines ->
  io_fails (disk st) (IoOpen (metrics_file st) ModeR) = false ->
  load_lines lines (set_metrics st []) = (r, set_metrics st ms) ->
  get_metrics_dataframe st = (pd_DataFrame ms, set_metrics st ms).
Proof.
  intros Hfile Hread Hload. rewrite get_metrics_dataframe_run. cbv zeta.
  rewrite Hfile, Hread, Hload. rewrite bool_decide_eq_true_2 by eauto.
  destruct r as [[] | e]; reflexivity.
Qed.

(** A list of objects is a frame as it stands. *)
Lemma pd_DataFrame_objects (rows : list value) :
  forallb is_object rows = true -> pd_DataFrame rows = Ok rows.
Proof.
  destruct rows as [| row rows]; [reflexivity |]. intros Hrows.
  unfold pd_DataFrame. destruct row; try discriminate. now rewrite Hrows.
Qed.



Lemma get_metrics_dataframe_of_lines (st : State) (lines : list string)
    (rows : list value) :
  default [] (files (disk st) !! metrics_file st) = lines ->
  io_fails (disk st) (IoOpen (metrics_file st) ModeR) = false ->
  Forall2 (fun line row => json_loads line = Ok row) (List.filter nonblank lines) rows ->
  fst (get_metrics_dataframe st) = pd_DataFrame rows.
Proof.
  intros Hlines Hread Hrows.
  destruct (files (disk st) !! metrics_file st) as [content |] eqn:Hfile; simpl in Hlines.
  - subst content.
    rewrite (get_metrics_dataframe_loaded st lines (Ok tt) rows Hfile Hread);
      [reflexivity |].
    now rewrite (load_lines_parsed lines rows _ Hrows).
  - subst lines. apply Forall2_nil_inv_l in Hrows. subst rows.
    apply get_metrics_dataframe_empty_log. now left.
Qed.

Lemma write_all_lines (records : list (dict value)) (st : State)
    (lines : list string) (rows : list value) :
  default [] (files (disk st) !! metrics_file st) = lines ->
  (forall op, io_fails (disk st) op = false) ->
  Forall2 (fun line row => json_loads line = Ok row) (List.filter nonblank lines) rows ->
  Forall (fun record =>
            exists line, json_dumps (VDict record) = Ok line
                         /\ strip_is_empty line = false
                         /\ json_loads line = Ok (VDict record)) records ->
  let st' := fold_left (fun st record => snd (_write_to_disk record st)) records st in
  exists lines',
    metrics_file st' = metrics_file st
    /\ io_fails (disk st') = io_fails (disk st)
    /\ default [] (files (disk st') !! metrics_file st) = lines'
    /\ Forall2 (fun line row => json_loads line = Ok row) (List.filter nonblank lines')
         (rows ++ map VDict records).
Proof.
  revert st lines rows.
  induction records as [| record records IH]; intros st lines rows Hlines Hio Hrows Hall.
  - exists lines. simpl. rewrite app_nil_r. now repeat split.
  - apply Forall_cons in Hall. destruct Hall as ((line & Hdumps & Hblank & Hloads) & Hall).
    destruct (_write_to_disk_spec record st) as (st1 & Hrun & Ht & _ & Hfails & Hfiles).
    rewrite !Hio, Hdumps, Hlines in Hfiles.
    assert (Hfile1 : metrics_file st1 = metrics_file st)
      by (unfold metrics_file; now rewrite Ht).
    destruct (IH st1 (lines ++ [line]) (rows ++ [VDict record])) as (lines' & Hf & Hi & Hl & Hr).
    + now rewrite Hfile1, Hfiles, lookup_insert_eq.
    + intros op. now rewrite Hfails.
    + rewrite List.filter_app. apply Forall2_app; [exact Hrows |].
      simpl. unfold nonblank at 1. rewrite Hblank. simpl. now constructor.
    + exact Hall.
    + exists lines'. simpl. rewrite Hrun. simpl.
      rewrite Hfile1 in Hf, Hl. rewrite <- app_assoc in Hr.
      repeat split; try assumption. now rewrite Hi.
Qed.

(** X11. Round trip of the log. On a log that is absent or empty and a
    disk that refuses nothing, writing records one after the other and
    then reading the frame gives back exactly these records, in order,
    provided each record serializes to a non-blank line that parses back
    to it. *)
Theorem write_then_load_round_trip (records : list (dict value)) (st : State) :
  files (disk st) !! metrics_file st = None
  \/ files (disk st) !! metrics_file st = Some [] ->
  (forall op, io_fails (disk st) op = false) ->
  Forall (fun record =>
            exists line, json_dumps (VDict record) = Ok line
                         /\ strip_is_empty line = false
                         /\ json_loads line = Ok (VDict record)) records ->
  fst (get_metrics_dataframe
         (fold_left (fun st record => snd (_write_to_disk record st)) records st))
  = Ok (map VDict records).
Proof.
  intros Hempty Hio Hall.
  destruct (write_all_lines records st [] [] ) as (lines' & Hf & Hi & Hl & Hr);
    try assumption.
  - destruct Hempty as [-> | ->]; reflexivity.
  - constructor.
  - rewrite (get_metrics_dataframe_of_lines _ lines' (map VDict records)).
    + apply pd_DataFrame_objects. clear. now induction records.
    + now rewrite Hf.
    + now rewrite Hi, Hio.
    + exact Hr.
Qed.


Lemma reset_metrics_success (timestamp : string) (st : State) (old : list string) :
  let file := metrics_file st in
  let backup := file +:+ ".bak." +:+ timestamp in
  files (disk st) !! file = Some old ->
  io_fails (disk st) (IoCopy file backup) = false ->
  io_fails (disk st) (IoOpen file ModeW) = false ->
  reset_metrics timestamp st
  = (Ok true,
     set_metrics (set_files st (<[file := []]> (<[backup := old]> (files (disk st))))) []).
Proof.
  intros file backup. subst file backup. intros Hold Hcopy Hopen.
  destruct st as [[sp ms hd dd] [fs fails] n].
  unfold metrics_file in *. simpl in *.
  unfold reset_metrics, bind, try_catch, gets, modify, os_path_exists, shutil_copy2,
    open_w, ret, metrics_file. simpl.
  rewrite Hold. simpl. rewrite Hcopy. simpl. rewrite Hold. simpl. rewrite Hopen.
  reflexivity.
Qed.

Lemma string_append_inj (a b c : string) : a +:+ b = a +:+ c -> b = c.
Proof. induction a as [| x a IH]; simpl; [tauto |]. intros [= E]. now apply IH. Qed.

(** X13. Two resets in the same second lose the history. The first reset
    backs the log up under the timestamp; a second reset with the same
    timestamp copies the now empty log over that backup, so the old
    records are gone. With two different timestamps the first backup
    keeps them. *)
Theorem reset_metrics_same_timestamp (ts1 ts2 : string) (st : State) (old : list string) :
  let file := metrics_file st in
  let st1 := snd (reset_metrics ts1 st) in
  let st2 := snd (reset_metrics ts2 st1) in
  files (disk st) !! file = Some old ->
  (forall op, io_fails (disk st) op = false) ->
  fst (reset_metrics ts1 st) = Ok true
  /\ fst (reset_metrics ts2 st1) = Ok true
  /\ files (disk st1) !! (file +:+ ".bak." +:+ ts1) = Some old
  /\ files (disk st2) !! file = Some []
  /\ (ts1 = ts2 -> files (disk st2) !! (file +:+ ".bak." +:+ ts1) = Some [])
  /\ (ts1 <> ts2 -> files (disk st2) !! (file +:+ ".bak." +:+ ts1) = Some old).
Proof.
  intros file st1 st2 Hold Hio.
  pose proof (reset_metrics_success ts1 st old Hold (Hio _) (Hio _)) as Hrun1.
  fold file in Hrun1.
  assert (Hst1 : st1 = set_metrics
                         (set_files st (<[file := []]>
                            (<[file +:+ ".bak." +:+ ts1 := old]> (files (disk st))))) [])
    by (unfold st1; now rewrite Hrun1).
  assert (Hfile1 : metrics_file st1 = file) by (now rewrite Hst1).
  assert (Hfiles1 : files (disk st1)
                    = <[file := []]> (<[file +:+ ".bak." +:+ ts1 := old]> (files (disk st))))
    by (now rewrite Hst1).
  assert (Hio1 : forall op, io_fails (disk st1) op = false)
    by (intros op; rewrite Hst1; apply Hio).
  assert (Hold1 : files (disk st1) !! metrics_file st1 = Some []).
  { rewrite Hfile1, Hfiles1. apply lookup_insert_eq. }
  pose proof (reset_metrics_success ts2 st1 [] Hold1 (Hio1 _) (Hio1 _)) as Hrun2.
  rewrite Hfile1 in Hrun2.
  assert (Hfiles2 : files (disk st2)
                    = <[file := []]> (<[file +:+ ".bak." +:+ ts2 := []]> (files (disk st1))))
    by (unfold st2; now rewrite Hrun2).
  pose proof (backup_file_fresh file ts1) as Hfresh1.
  split; [now rewrite Hrun1 |]. split; [now rewrite Hrun2 |].
  split; [rewrite Hfiles1, lookup_insert_ne by congruence; apply lookup_insert_eq |].
  split; [rewrite Hfiles2; apply lookup_insert_eq |].
  split.
  - intros <-. rewrite Hfiles2, lookup_insert_ne by congruence. apply lookup_insert_eq.
  - intros Hne.
    assert (Hb : file +:+ ".bak." +:+ ts2 <> file +:+ ".bak." +:+ ts1).
    { intros E. apply string_append_inj in E. apply (string_append_inj ".bak.") in E.
      congruence. }
    rewrite Hfiles2, lookup_insert_ne by congruence.
    rewrite lookup_insert_ne by exact Hb.
    rewrite Hfiles1, lookup_insert_ne by congruence. apply lookup_insert_eq.
Qed.

(** X14. The reset button deletes without a backup. When the log exists
    and its backup copy is refused, [reset_metrics] fails and leaves the
    log alone; [reset_metrics_data] then removes the log file, clears the
    cache and reports success: the files are the old ones without the
    log, no backup among them. *)
Theorem reset_metrics_data_removes_log (timestamp : string)
    (str_of_exn : exn -> string) (st : State) (old : list string) :
  let file := metrics_file st in
  files (disk st) !! file = Some old ->
  io_fails (disk st) (IoCopy file (file +:+ ".bak." +:+ timestamp)) = true ->
  exists st',
    Dashboard.reset_metrics_data timestamp false str_of_exn st
    = (Ok (true, "Metrics reset by cleaning storage file!"), st')
    /\ files (disk st') = delete file (files (disk st))
    /\ files (disk st') !! file = None
    /\ metrics (tracker st') = [].
Proof.
  intros file. subst file. intros Hold Hcopy.
  destruct st as [[sp ms hd dd] [fs fails] n].
  unfold metrics_file in *. simpl in *.
  unfold Dashboard.reset_metrics_data, reset_metrics, _load_metrics, Dashboard.os_remove,
    bind, try_catch, gets, modify, os_path_exists, shutil_copy2, open_w, open_r, ret,
    metrics_file.
  simpl. rewrite Hold. simpl. rewrite Hcopy. simpl. rewrite Hold. simpl.
  rewrite Hold. simpl. rewrite lookup_delete_eq. simpl.
  eexists. split; [reflexivity |]. simpl. repeat split. apply lookup_delete_eq.
Qed.

End MetricsMore.

Section MetricsMoreExamples.
Import Hallucination Metrics.

Lemma example_line_round_trip :
  json_dumps (VDict Examples.example_record) = Ok MoreExamples.example_line
  /\ strip_is_empty MoreExamples.example_line = false
  /\ json_loads MoreExamples.example_line = Ok (VDict Examples.example_record).
Proof. repeat split; vm_compute; reflexivity. Qed.

Lemma write_then_load_round_trip_witness :
  fst (get_metrics_dataframe MoreExamples.written_twice)
  = Ok (map VDict [Examples.example_record; Examples.example_record]).
Proof.
  apply (@write_then_load_round_trip Examples.example_externals
           [Examples.example_record; Examples.example_record] Examples.example_state).
  - left. reflexivity.
  - reflexivity.
  - repeat constructor; exists MoreExamples.example_line; exact example_line_round_trip.
Defined.


Lemma reset_metrics_same_timestamp_witness :
  let file := "data/metrics/metrics.jsonl" in
  let st1 := snd (reset_metrics "20240101_000000" Examples.example_logged) in
  let st2 := snd (reset_metrics "20240101_000000" st1) in
  length (default [] (files (disk Examples.example_logged) !! file)) = 3%nat
  /\ files (disk st2) !! file = Some []
  /\ files (disk st2) !! (file +:+ ".bak." +:+ "20240101_000000") = Some [].
Proof.
  assert (Hold : files (disk Examples.example_logged)
                 !! metrics_file Examples.example_logged
                 = Some (default [] (files (disk Examples.example_logged)
                                     !! "data/metrics/metrics.jsonl")))
    by (vm_compute; reflexivity).
  destruct (reset_metrics_same_timestamp
              "20240101_000000" "20240101_000000" Examples.example_logged _ Hold
              ltac:(reflexivity))
    as (_ & _ & _ & Hlog & Hsame & _).
  split; [vm_compute; reflexivity |]. split; [exact Hlog | exact (Hsame eq_refl)].
Defined.

Lemma reset_metrics_data_removes_log_witness :
  exists st',
    Dashboard.reset_metrics_data "20240101_000000" false (fun _ => "refused")
      MoreExamples.copy_refused
    = (Ok (true, "Metrics reset by cleaning storage file!"), st')
    /\ files (disk st') = delete "data/metrics/metrics.jsonl"
                            (files (disk MoreExamples.copy_refused))
    /\ files (disk st') !! "data/metrics/metrics.jsonl" = None
    /\ metrics (tracker st') = [].
Proof.
  assert (Hold : files (disk MoreExamples.copy_refused)
                 !! metrics_file MoreExamples.copy_refused
                 = Some (default [] (files (disk MoreExamples.copy_refused)
                                     !! "data/metrics/metrics.jsonl")))
    by (vm_compute; reflexivity).
  exact (@reset_metrics_data_removes_log Examples.example_externals "20240101_000000"
           (fun _ => "refused") MoreExamples.copy_refused _ Hold eq_refl).
Defined.

End MetricsMoreExamples.

(** ** Logging an inference, continued *)

Section LogInferenceMore.
Import Hallucination Metrics.
Context `{Externals}.
Local Open Scope m_scope.

Lemma detect_drift_config (d : Drift.DriftDetector) (h : Q) (rt : Z) (tc : option Z) :
  let d' := snd (Drift.detect_drift d h rt tc) in
  Drift.window_size d' = Drift.window_size d
  /\ Drift.reference_stats d' = Drift.reference_stats d
  /\ Drift.current_window d'
     = Drift.push_window (Drift.window_size d) (Drift.current_window d)
         (Drift.mkSample h rt tc).
Proof.
  unfold Drift.detect_drift. simpl.
  destruct (_ || _); [now repeat split |].
  destruct (Drift.push_window _ _ _) eqn:E; now repeat split.
Qed.

(** The two ways a call of [log_inference] ends: it raises after the
    drift window was updated, or it returns the record it passed to
    [_write_to_disk]. *)
Lemma log_inference_cases (probe : Probe) (prompt completion model : value)
    (response_time_ms : Z) (tokens_in tokens_out : option Z) (status : value)
    (st : State) :
  let score :=
    score_hallucination (hallucination_detector (tracker st)) prompt completion in
  let st1 :=
    set_drift_detector (count_log_inference st)
      (snd (Drift.detect_drift (drift_detector (tracker st)) score response_time_ms
              tokens_out)) in
  (exists e,
     log_inference probe prompt completion model response_time_ms tokens_in tokens_out
       status st = (Raise e, st1))
  \/ (exists record,
        log_inference probe prompt completion model response_time_ms tokens_in
          tokens_out status st = (Ok record, snd (_write_to_disk record st1))).
Proof.
  intros score st1.
  unfold log_inference, bind, modify, gets. simpl. fold score.
  unfold tracker_detect_drift. simpl. subst st1.
  destruct (Drift.detect_drift (drift_detector (tracker st)) score response_time_ms
              tokens_out) as [[b | e] d']; simpl; [| left; eauto].
  assert (Htok : forall tokens text s,
            (exists n, token_length tokens text s = (Ok n, s))
            \/ (exists e, token_length tokens text s = (Raise e, s))).
  { intros tokens text s. unfold token_length, bind, lift, ret.
    destruct tokens as [n |]; [left; eauto |].
    destruct (tokenizer_encode text); [left | right]; eauto. }
  destruct (Htok tokens_in prompt (set_drift_detector (count_log_inference st) d'))
    as [(n_in & ->) | (e & ->)]; [| left; eauto].
  destruct (Htok tokens_out completion (set_drift_detector (count_log_inference st) d'))
    as [(n_out & ->) | (e & ->)]; [| left; eauto].
  right.
  match goal with
  | |- context [_write_to_disk ?r ?s] =>
    exists r; destruct (_write_to_disk_returns r s) as [st4 Hw]; rewrite Hw
  end.
  reflexivity.
Qed.

(** What one call of [log_inference] does to the state. *)
Lemma log_inference_effect (probe : Probe) (prompt completion model : value)
    (response_time_ms : Z) (tokens_in tokens_out : option Z) (status : value)
    (st : State) :
  let run :=
    log_inference probe prompt completion model response_time_ms tokens_in tokens_out
      status st in
  let st' := snd run in
  let file := metrics_file st in
  log_inference_calls st' = S (log_inference_calls st)
  /\ storage_path (tracker st') = storage_path (tracker st)
  /\ metrics (tracker st') = metrics (tracker st)
  /\ Drift.window_size (drift_detector (tracker st'))
     = Drift.window_size (drift_detector (tracker st))
  /\ Drift.reference_stats (drift_detector (tracker st'))
     = Drift.reference_stats (drift_detector (tracker st))
  /\ (forall path, path <> file -> files (disk st') !! path = files (disk st) !! path)
  /\ (exists added,
        (length added <= 1)%nat
        /\ default [] (files (disk st') !! file)
           = default [] (files (disk st) !! file) ++ added)
  /\ (forall e, fst run = Raise e -> disk st' = disk st).
Proof.
  intros run st' file.
  pose proof (detect_drift_config (drift_detector (tracker st))
                (score_hallucination (hallucination_detector (tracker st)) prompt
                   completion) response_time_ms tokens_out) as (HW & Href & _).
  destruct (log_inference_cases probe prompt completion model response_time_ms tokens_in
              tokens_out status st) as [(e & Hrun) | (record & Hrun)];
    fold run in Hrun; unfold st'; rewrite Hrun; simpl.
  - repeat split; try assumption.
    exists []. split; [simpl; lia | now rewrite app_nil_r].
  - match goal with
    | |- context [_write_to_disk record ?s] =>
      destruct (_write_to_disk_spec record s) as (st4 & Hw & Ht & Hn & _ & Hfiles);
        rewrite Hw; simpl
    end.
    rewrite Ht, Hn. simpl.
    change (metrics_file (set_drift_detector (count_log_inference st) _))
      with file in Hfiles.
    simpl in Hfiles.
    repeat split; try assumption; try discriminate.
    + intros path Hne. rewrite Hfiles.
      destruct (io_fails (disk st) (IoOpen file ModeA)); [reflexivity |].
      destruct (json_dumps (VDict record)); [destruct (io_fails (disk st) (IoWrite file)) |];
        now rewrite lookup_insert_ne.
    + rewrite Hfiles.
      destruct (io_fails (disk st) (IoOpen file ModeA));
        [exists []; split; [simpl; lia | now rewrite app_nil_r] |].
      destruct (json_dumps (VDict record)) as [line |];
        [destruct (io_fails (disk st) (IoWrite file)) |];
        rewrite lookup_insert_eq; simpl.
      * exists []. split; [simpl; lia | now rewrite app_nil_r].
      * exists [line]. split; [simpl; lia | reflexivity].
      * exists []. split; [simpl; lia | now rewrite app_nil_r].
Qed.

(** X15. [log_inference] touches nothing but the drift window and the log
    file. The storage path, the cached list [self.metrics] and the
    configuration of the drift detector are as before, every file other
    than the log is as before, and the log keeps its lines and gains at
    most one. When the call raises, the disk is as before. *)
Theorem log_inference_frame (probe : Probe) (prompt completion model : value)
    (response_time_ms : Z) (tokens_in tokens_out : option Z) (status : value)
    (st : State) :
  let run :=
    log_inference probe prompt completion model response_time_ms tokens_in tokens_out
      status st in
  let st' := snd run in
  let file := metrics_file st in
  log_inference_calls st' = S (log_inference_calls st)
  /\ storage_path (tracker st') = storage_path (tracker st)
  /\ metrics (tracker st') = metrics (tracker st)
  /\ Drift.window_size (drift_detector (tracker st'))
     = Drift.window_size (drift_detector (tracker st))
  /\ Drift.reference_stats (drift_detector (tracker st'))
     = Drift.reference_stats (drift_detector (tracker st))
  /\ (forall path, path <> file -> files (disk st') !! path = files (disk st) !! path)
  /\ (exists added,
        (length added <= 1)%nat
        /\ default [] (files (disk st') !! file)
           = default [] (files (disk st) !! file) ++ added)
  /\ (forall e, fst run = Raise e -> disk st' = disk st).
Proof.
  exact (log_inference_effect probe prompt completion model response_time_ms tokens_in
           tokens_out status st).
Qed.

(** X16. A record that cannot be written is lost without a sign. When
    the disk refuses to open the log for appending, or refuses the write,
    [log_inference] still returns the record; the log holds the lines it
    held and every other file is as before. *)
Theorem log_inference_write_refused (probe : Probe) (prompt completion model : value)
    (response_time_ms : Z) (tokens_in tokens_out : option Z) (status : value)
    (st : State) :
  let file := metrics_file st in
  (0 < Drift.window_size (drift_detector (tracker st)))%Z
  \/ Drift.reference_stats (drift_detector (tracker st)) = ∅ ->
  is_Some tokens_in \/ is_ok (tokenizer_encode prompt) = true ->
  is_Some tokens_out \/ is_ok (tokenizer_encode completion) = true ->
  io_fails (disk st) (IoOpen file ModeA) = true
  \/ io_fails (disk st) (IoWrite file) = true ->
  exists record st',
    log_inference probe prompt completion model response_time_ms tokens_in tokens_out
      status st = (Ok record, st')
    /\ default [] (files (disk st') !! file) = default [] (files (disk st) !! file)
    /\ (forall path, path <> file -> files (disk st') !! path = files (disk st) !! path).
Proof.
  intros file Hdrift Hin Hout Hrefused.
  destruct (log_inference_returns probe prompt completion model response_time_ms
              tokens_in tokens_out status st Hdrift Hin Hout) as (record & st' & Hrun).
  exists record, st'. split; [exact Hrun |].
  destruct (log_inference_cases probe prompt completion model response_time_ms tokens_in
              tokens_out status st) as [(e & Hcase) | (record' & Hcase)];
    rewrite Hrun in Hcase; [discriminate |].
  injection Hcase as <- ->.
  match goal with
  | |- context [_write_to_disk record ?s] =>
    destruct (_write_to_disk_spec record s) as (st4 & Hw & _ & _ & _ & Hfiles);
      rewrite Hw; simpl
  end.
  change (metrics_file (set_drift_detector (count_log_inference st) _))
    with file in Hfiles.
  simpl in Hfiles. rewrite Hfiles.
  destruct (io_fails (disk st) (IoOpen file ModeA)); [now split |].
  destruct Hrefused as [Hopen | Hwrite]; [discriminate |]. rewrite Hwrite.
  destruct (json_dumps (VDict record)); split;
    try (now rewrite lookup_insert_eq);
    intros path Hne; now rewrite lookup_insert_ne.
Qed.

(** X17. What is logged is what is returned. On a disk that refuses
    nothing, when the returned record serializes to a non-blank line that
    parses back to it and the lines of the log parse to [rows], reading
    after the call builds the frame from [rows] followed by the returned
    record: on a log of objects, the frame is these rows. *)
Theorem log_inference_then_read (probe : Probe) (prompt completion model : value)
    (response_time_ms : Z) (tokens_in tokens_out : option Z) (status : value)
    (st st' : State) (record : dict value) (rows : list value) (line : string) :
  log_inference probe prompt completion model response_time_ms tokens_in tokens_out
    status st = (Ok record, st') ->
  (forall op, io_fails (disk st) op = false) ->
  Forall2 (fun line row => json_loads line = Ok row)
    (List.filter nonblank (default [] (files (disk st) !! metrics_file st))) rows ->
  json_dumps (VDict record) = Ok line ->
  strip_is_empty line = false ->
  json_loads line = Ok (VDict record) ->
  files (disk st') !! metrics_file st
  = Some (default [] (files (disk st) !! metrics_file st) ++ [line])
  /\ fst (get_metrics_dataframe st') = pd_DataFrame (rows ++ [VDict record])
  /\ (forallb is_object rows = true ->
      fst (get_metrics_dataframe st') = Ok (rows ++ [VDict record])).
Proof.
  intros Hrun Hio Hrows Hdumps Hblank Hloads.
  destruct (log_inference_cases probe prompt completion model response_time_ms tokens_in
              tokens_out status st) as [(e & Hcase) | (record' & Hcase)];
    rewrite Hrun in Hcase; [discriminate |].
  injection Hcase as <- ->.
  match goal with
  | |- context [_write_to_disk record ?s] =>
    destruct (_write_to_disk_spec record s) as (st4 & Hw & Ht & _ & Hfails & Hfiles);
      rewrite Hw; simpl
  end.
  change (metrics_file (set_drift_detector (count_log_inference st) _))
    with (metrics_file st) in Hfiles.
  simpl in Hfiles, Hfails. rewrite !Hio, Hdumps in Hfiles.
  assert (Hfile : metrics_file st4 = metrics_file st)
    by (unfold metrics_file; now rewrite Ht).
  assert (Hlog : files (disk st4) !! metrics_file st
                 = Some (default [] (files (disk st) !! metrics_file st) ++ [line]))
    by (rewrite Hfiles; apply lookup_insert_eq).
  split; [exact Hlog |].
  assert (Hframe : fst (get_metrics_dataframe st4)
                   = pd_DataFrame (rows ++ [VDict record])).
  { apply (get_metrics_dataframe_of_lines st4
             (default [] (files (disk st) !! metrics_file st) ++ [line])).
    - now rewrite Hfile, Hlog.
    - now rewrite Hfails, Hio.
    - rewrite List.filter_app. apply Forall2_app; [exact Hrows |].
      simpl. unfold nonblank at 1. rewrite Hblank. simpl. now constructor. }
  split; [exact Hframe |]. intros Hobjects. rewrite Hframe.
  apply pd_DataFrame_objects. rewrite forallb_app, Hobjects. reflexivity.
Qed.

(** X18. The token counts of a record and of the drift window. A count
    the caller supplies is recorded as given; a count left out is the
    number of tokens the tokenizer gives for the text. The drift detector
    is called before they are computed, with the caller's [tokens_out]:
    when that was left out, the sample that enters the window has no
    token count although the record has one. The record's
    ["drift_detected"] is the answer of that call. *)
Theorem log_inference_token_counts (probe : Probe) (prompt completion model : value)
    (response_time_ms : Z) (tokens_in tokens_out : option Z) (status : value)
    (st st' : State) (record : dict value) :
  log_inference probe prompt completion model response_time_ms tokens_in tokens_out
    status st = (Ok record, st') ->
  let detector := drift_detector (tracker st) in
  let score :=
    score_hallucination (hallucination_detector (tracker st)) prompt completion in
  (forall n, tokens_in = Some n -> dict_get record "tokens_in" = Some (VInt n))
  /\ (tokens_in = None ->
        exists encoded, tokenizer_encode prompt = Ok encoded
          /\ dict_get record "tokens_in" = Some (VInt (Z.of_nat (length encoded))))
  /\ (forall n, tokens_out = Some n -> dict_get record "tokens_out" = Some (VInt n))
  /\ (tokens_out = None ->
        exists encoded, tokenizer_encode completion = Ok encoded
          /\ dict_get record "tokens_out" = Some (VInt (Z.of_nat (length encoded))))
  /\ Drift.current_window (drift_detector (tracker st'))
     = Drift.push_window (Drift.window_size detector) (Drift.current_window detector)
         (Drift.mkSample score response_time_ms tokens_out)
  /\ exists drift_detected,
       fst (Drift.detect_drift detector score response_time_ms tokens_out)
       = Ok drift_detected
       /\ dict_get record "drift_detected" = Some (VBool drift_detected).
Proof.
  intros Hrun detector score.
  pose proof (detect_drift_config detector score response_time_ms tokens_out)
    as (_ & _ & Hwindow).
  unfold log_inference, bind, modify, gets in Hrun. simpl in Hrun.
  fold detector in Hrun. fold score in Hrun.
  unfold tracker_detect_drift in Hrun. simpl in Hrun. fold detector in Hrun.
  destruct (Drift.detect_drift detector score response_time_ms tokens_out)
    as [[drift_detected | e] d']; simpl in Hrun, Hwindow; [| discriminate].
  set (st1 := set_drift_detector (count_log_inference st) d') in *.
  assert (Htok : forall tokens text n s,
            token_length tokens text st1 = (Ok n, s) ->
            s = st1
            /\ (forall k, tokens = Some k -> n = k)
            /\ (tokens = None ->
                  exists encoded, tokenizer_encode text = Ok encoded
                                  /\ n = Z.of_nat (length encoded))).
  { intros tokens text n s. unfold token_length, bind, lift, ret.
    destruct tokens as [k |].
    - intros [= <- <-]. repeat split; [now intros ? [= <-] | discriminate].
    - destruct (tokenizer_encode text) as [encoded |]; [| discriminate].
      intros [= <- <-]. repeat split; [discriminate | eauto]. }
  destruct (token_length tokens_in prompt st1) as [[in_tokens | e] st2] eqn:Ein;
    [| discriminate].
  destruct (Htok _ _ _ _ Ein) as (-> & Hin_given & Hin_counted).
  destruct (token_length tokens_out completion st1) as [[out_tokens | e] st3] eqn:Eout;
    [| discriminate].
  destruct (Htok _ _ _ _ Eout) as (-> & Hout_given & Hout_counted).
  match type of Hrun with
  | context [_write_to_disk ?r ?s] =>
    destruct (_write_to_disk_spec r s) as (st4 & Hw & Ht & _); rewrite Hw in Hrun
  end.
  unfold ret in Hrun. injection Hrun as <- <-.
  rewrite !dict_get_set_ne by discriminate. rewrite Ht.
  destruct (Qlt_bool score 0.8).
  all: split; [intros n Hn; rewrite (Hin_given n Hn); reflexivity |].
  all: split; [intros Hn; destruct (Hin_counted Hn) as (encoded & ? & ->);
               exists encoded; split; [assumption | reflexivity] |].
  all: split; [intros n Hn; rewrite (Hout_given n Hn); reflexivity |].
  all: split; [intros Hn; destruct (Hout_counted Hn) as (encoded & ? & ->);
               exists encoded; split; [assumption | reflexivity] |].
  all: split; [exact Hwindow | exists drift_detected; split; reflexivity].
Qed.

(** One call on a disk that refuses nothing. *)
Lemma log_inference_step (probe : Probe) (prompt completion model : value)
    (response_time_ms : Z) (tokens_in tokens_out : option Z) (status : value)
    (st : State) :
  (forall op, io_fails (disk st) op = false) ->
  let run :=
    log_inference probe prompt completion model response_time_ms tokens_in tokens_out
      status st in
  let file := metrics_file st in
  metrics_file (snd run) = file
  /\ (forall op, io_fails (disk (snd run)) op = false)
  /\ log_inference_calls (snd run) = S (log_inference_calls st)
  /\ match fst run with
     | Raise _ => files (disk (snd run)) = files (disk st)
     | Ok record =>
       forall line, json_dumps (VDict record) = Ok line ->
         files (disk (snd run)) !! file
         = Some (default [] (files (disk st) !! file) ++ [line])
     end.
Proof.
  intros Hio run file.
  destruct (log_inference_cases probe prompt completion model response_time_ms tokens_in
              tokens_out status st) as [(e & Hrun) | (record & Hrun)];
    fold run in Hrun; rewrite Hrun; simpl.
  - now repeat split.
  - match goal with
    | |- context [_write_to_disk record ?s] =>
      destruct (_write_to_disk_spec record s)
        as (st4 & Hw & Ht & Hn & Hfails & Hfiles); rewrite Hw; simpl
    end.
    change (metrics_file (set_drift_detector (count_log_inference st) _))
      with file in Hfiles.
    simpl in Hfiles, Hfails, Hn. rewrite !Hio in Hfiles.
    split; [unfold metrics_file; now rewrite Ht |].
    split; [intros op; now rewrite Hfails |].
    split; [exact Hn |].
    intros line Hline. rewrite Hfiles, Hline. apply lookup_insert_eq.
Qed.

(** X28. The log is the journal of the returned records. On a disk that
    refuses nothing, after any sequence of [log_inference] calls, each
    made whether the one before returned or raised, the log holds the
    lines it held followed by the serializations of the records that were
    returned, one line each and in the order of the calls, provided these
    records can be serialized; a call that raised left no line. *)
Theorem log_calls_journal (calls : list Runs.Call) (st : State) :
  let file := metrics_file st in
  let records := fst (Runs.log_calls calls st) in
  let st' := snd (Runs.log_calls calls st) in
  (forall op, io_fails (disk st) op = false) ->
  Forall (fun record => is_ok (json_dumps (VDict record)) = true) records ->
  (exists lines,
     Forall2 (fun record line => json_dumps (VDict record) = Ok line) records lines
     /\ default [] (files (disk st') !! file)
        = default [] (files (disk st) !! file) ++ lines)
  /\ log_inference_calls st' = (log_inference_calls st + length calls)%nat.
Proof.
  cbv zeta. revert st. induction calls as [| c calls IH]; intros st Hio Hok.
  - simpl. split; [| lia]. exists []. split; [constructor | now rewrite app_nil_r].
  - simpl in Hok |- *. unfold Runs.log_call in Hok |- *.
    pose proof (log_inference_step (Runs.call_probe c) (Runs.call_prompt c)
                  (Runs.call_completion c) (Runs.call_model c)
                  (Runs.call_response_time_ms c) (Runs.call_tokens_in c)
                  (Runs.call_tokens_out c) (Runs.call_status c) st Hio)
      as (Hfile & Hio1 & Hcalls & Hstep).
    destruct (log_inference _ _ _ _ _ _ _ _ st) as [r st1]. simpl in Hfile, Hio1, Hcalls, Hstep.
    specialize (IH st1 Hio1). rewrite Hfile in IH.
    destruct (Runs.log_calls calls st1) as [records st2]. simpl in IH, Hok |- *.
    destruct r as [record | e].
    + apply Forall_cons in Hok. destruct Hok as [Hrecord Hok].
      destruct (json_dumps (VDict record)) as [line |] eqn:Eline; [| discriminate].
      destruct (IH Hok) as ((lines & Hlines & Hlog) & Hn).
      split; [| rewrite Hn, Hcalls; lia].
      exists (line :: lines). split; [now constructor |].
      rewrite Hlog, (Hstep line eq_refl). simpl. now rewrite <- app_assoc.
    + destruct (IH Hok) as ((lines & Hlines & Hlog) & Hn).
      split; [| rewrite Hn, Hcalls; lia].
      exists lines. split; [exact Hlines |]. now rewrite Hlog, Hstep.
Qed.

Lemma detect_drift_empty_capacity (d : Drift.DriftDetector) (h : Q) (rt : Z)
    (tc : option Z) :
  (Drift.window_size d <= 0)%Z ->
  Drift.current_window d = [] ->
  Drift.reference_stats d <> ∅ ->
  Drift.detect_drift d h rt tc = (Raise (KeyError "hallucination_score"), d).
Proof.
  intros HW Hw Href. destruct d as [W ref w]. simpl in HW, Hw, Href. subst w.
  assert (E1 : (1 >? W)%Z = true) by (apply Z.gtb_lt; lia).
  assert (E2 : (0 <? W)%Z = false) by (apply Z.ltb_ge; lia).
  assert (E3 : (size ref =? 0)%nat = false).
  { apply Nat.eqb_neq. now rewrite map_size_empty_iff. }
  unfold Drift.detect_drift, Drift.push_window. simpl.
  change (Z.of_nat 1) with 1%Z. rewrite E1. simpl.
  change (Z.of_nat 0) with 0%Z. now rewrite E2, E3.
Qed.

(** X29. A drift detector without capacity silences the tracker. When
    the tracker's detector has a window size of 0 or less, an empty
    window and reference statistics loaded, every call of [log_inference]
    raises [KeyError] before a record is built: after any sequence of
    calls no record was returned, and the tracker and the disk are as
    they were. *)
Theorem log_calls_no_capacity (calls : list Runs.Call) (st : State) :
  let detector := drift_detector (tracker st) in
  (Drift.window_size detector <= 0)%Z ->
  Drift.current_window detector = [] ->
  Drift.reference_stats detector <> ∅ ->
  fst (Runs.log_calls calls st) = []
  /\ tracker (snd (Runs.log_calls calls st)) = tracker st
  /\ disk (snd (Runs.log_calls calls st)) = disk st
  /\ forall c, Runs.log_call c st
               = (Raise (KeyError "hallucination_score"), count_log_inference st).
Proof.
  cbv zeta. intros HW Hw Href.
  assert (Hcall : forall c s, tracker s = tracker st ->
            Runs.log_call c s
            = (Raise (KeyError "hallucination_score"), count_log_inference s)).
  { intros c s Hs. unfold Runs.log_call, log_inference, bind, modify, gets. simpl.
    unfold tracker_detect_drift. simpl.
    rewrite detect_drift_empty_capacity by (rewrite Hs; assumption).
    destruct s as [[sp ms hd dd] dk n]. reflexivity. }
  split; [| split; [| split]]; [| | | intros c; now apply Hcall].
  all: assert (Hgoal : forall s, tracker s = tracker st ->
                 fst (Runs.log_calls calls s) = []
                 /\ tracker (snd (Runs.log_calls calls s)) = tracker s
                 /\ disk (snd (Runs.log_calls calls s)) = disk s);
    [| now apply Hgoal].
  all: induction calls as [| c calls IH]; intros s Hs; [now repeat split |].
  all: simpl; rewrite (Hcall c s Hs).
  all: destruct (IH (count_log_inference s) Hs) as (Hr & Ht & Hd).
  all: destruct (Runs.log_calls calls (count_log_inference s)) as [records s2].
  all: simpl in *; now repeat split.
Qed.

End LogInferenceMore.

Section LogInferenceMoreExamples.
Import Hallucination Metrics.

Lemma log_calls_no_capacity_witness :
  fst (Runs.log_calls MoreExamples.example_calls MoreExamples.no_capacity_state) = []
  /\ tracker (snd (Runs.log_calls MoreExamples.example_calls
                     MoreExamples.no_capacity_state))
     = tracker MoreExamples.no_capacity_state
  /\ disk (snd (Runs.log_calls MoreExamples.example_calls MoreExamples.no_capacity_state))
     = disk MoreExamples.no_capacity_state
  /\ forall c, Runs.log_call c MoreExamples.no_capacity_state
               = (Raise (KeyError "hallucination_score"),
                  count_log_inference MoreExamples.no_capacity_state).
Proof.
  apply (@log_calls_no_capacity Examples.example_externals MoreExamples.example_calls
           MoreExamples.no_capacity_state).
  - simpl. lia.
  - reflexivity.
  - exact example_reference_nonempty.
Defined.

Lemma forallb_Forall {A} (f : A -> bool) (l : list A) :
  forallb f l = true -> Forall (fun x => f x = true) l.
Proof.
  induction l as [| x l IH]; simpl; [constructor |].
  intros E. apply andb_true_iff in E. destruct E as [Hx Hl]. constructor; auto.
Qed.

Lemma log_calls_journal_witness :
  (exists lines,
     Forall2 (fun record line => json_dumps (VDict record) = Ok line)
       (fst (Runs.log_calls MoreExamples.example_calls Examples.example_state)) lines
     /\ default [] (files (disk (snd (Runs.log_calls MoreExamples.example_calls
                                        Examples.example_state)))
                    !! metrics_file Examples.example_state)
        = default [] (files (disk Examples.example_state)
                      !! metrics_file Examples.example_state) ++ lines)
  /\ log_inference_calls (snd (Runs.log_calls MoreExamples.example_calls
                                 Examples.example_state))
     = (log_inference_calls Examples.example_state
        + length MoreExamples.example_calls)%nat.
Proof.
  apply (@log_calls_journal Examples.example_externals MoreExamples.example_calls
           Examples.example_state).
  - reflexivity.
  - apply forallb_Forall. vm_compute. reflexivity.
Defined.

Lemma log_inference_write_refused_witness :
  exists record st',
    log_inference Examples.example_probe Examples.example_prompt
      Examples.example_completion (VStr "alpha") 250 None None (VStr "success")
      MoreExamples.append_refused = (Ok record, st')
    /\ default [] (files (disk st') !! metrics_file MoreExamples.append_refused)
       = default [] (files (disk MoreExamples.append_refused)
                     !! metrics_file MoreExamples.append_refused)
    /\ (forall path, path <> metrics_file MoreExamples.append_refused ->
          files (disk st') !! path = files (disk MoreExamples.append_refused) !! path).
Proof.
  apply (@log_inference_write_refused Examples.example_externals Examples.example_probe
           Examples.example_prompt Examples.example_completion (VStr "alpha") 250
           None None (VStr "success") MoreExamples.append_refused).
  - right. reflexivity.
  - right. vm_compute. reflexivity.
  - right. vm_compute. reflexivity.
  - left. reflexivity.
Defined.

Lemma example_log_inference_run :
  log_inference Examples.example_probe Examples.example_prompt
    Examples.example_completion (VStr "alpha") 250 None None (VStr "success")
    Examples.example_state
  = (Ok Examples.example_record, snd Examples.example_log_inference).
Proof. vm_compute. reflexivity. Qed.

Lemma log_inference_then_read_witness :
  files (disk (snd Examples.example_log_inference))
  !! metrics_file Examples.example_state
  = Some (default [] (files (disk Examples.example_state)
                      !! metrics_file Examples.example_state)
          ++ [MoreExamples.example_line])
  /\ fst (get_metrics_dataframe (snd Examples.example_log_inference))
     = Ok ([] ++ [VDict Examples.example_record]).
Proof.
  destruct (@log_inference_then_read Examples.example_externals Examples.example_probe
              Examples.example_prompt Examples.example_completion (VStr "alpha") 250
              None None (VStr "success") Examples.example_state
              (snd Examples.example_log_inference) Examples.example_record []
              MoreExamples.example_line example_log_inference_run)
    as (Hlog & _ & Hframe).
  - reflexivity.
  - constructor.
  - apply example_line_round_trip.
  - apply example_line_round_trip.
  - apply example_line_round_trip.
  - split; [exact Hlog | exact (Hframe eq_refl)].
Defined.

Lemma log_inference_token_counts_witness :
  dict_get Examples.example_record "tokens_in" = Some (VInt 6)
  /\ dict_get Examples.example_record "tokens_out" = Some (VInt 6)
  /\ Drift.current_window (drift_detector (tracker (snd Examples.example_log_inference)))
     = [Drift.mkSample
          (score_hallucination Examples.example_embedder Examples.example_prompt
             Examples.example_completion) 250 None].
Proof.
  destruct (@log_inference_token_counts Examples.example_externals Examples.example_probe
              Examples.example_prompt Examples.example_completion (VStr "alpha") 250
              None None (VStr "success") Examples.example_state
              (snd Examples.example_log_inference) Examples.example_record
              example_log_inference_run)
    as (_ & Hin & _ & Hout & Hwindow & _).
  destruct (Hin eq_refl) as (encoded_in & Ein & ->).
  destruct (Hout eq_refl) as (encoded_out & Eout & ->).
  assert (Ein' : tokenizer_encode Examples.example_prompt
                 = Ok (try_except (tokenizer_encode Examples.example_prompt)
                         (fun _ => [])))
    by (vm_compute; reflexivity).
  assert (Eout' : tokenizer_encode Examples.example_completion
                  = Ok (try_except (tokenizer_encode Examples.example_completion)
                          (fun _ => [])))
    by (vm_compute; reflexivity).
  rewrite Ein' in Ein. rewrite Eout' in Eout.
  injection Ein as <-. injection Eout as <-.
  split; [vm_compute; reflexivity |]. split; [vm_compute; reflexivity |].
  exact Hwindow.
Defined.

End LogInferenceMoreExamples.

(** ** Aggregates, continued *)

Section StatsMore.
Import Hallucination Metrics Frames.
Context `{Externals}.
Local Open Scope m_scope.

Ltac exc_inv H :=
  unfold exc_bind in H;
  repeat match type of H with
         | match ?x with Ok _ => _ | Raise _ => _ end = Ok _ =>
           let E := fresh "E" in destruct x eqn:E; [| discriminate H]
         end.

(** X19. A log without records gives zeros, whatever the filter: when
    the log file is absent, cannot be opened for reading, or holds only
    blank lines, [get_resource_usage_stats] returns the count 0, the
    three averages 0 and an empty breakdown, and empties the cache. *)
Theorem get_resource_usage_stats_no_records (model : option string) (st : State) :
  let file := metrics_file st in
  files (disk st) !! file = None
  \/ io_fails (disk st) (IoOpen file ModeR) = true
  \/ (exists lines, files (disk st) !! file = Some lines
                    /\ List.filter nonblank lines = []) ->
  get_resource_usage_stats model st
  = (Ok (mkUsageStats 0 (Fin 0) (Fin 0) (Fin 0) []), set_metrics st []).
Proof.
  intros file Hlog.
  assert (Hframe : get_metrics_dataframe st = (Ok [], set_metrics st [])).
  { rewrite get_metrics_dataframe_run. cbv zeta. fold file.
    destruct Hlog as [Hnone | [Hread | (lines & Hlines & Hblank)]].
    - now rewrite Hnone.
    - rewrite Hread. now destruct (bool_decide _).
    - rewrite Hlines.
      rewrite (load_lines_parsed lines [] (set_metrics st []))
        by (rewrite Hblank; constructor).
      destruct (bool_decide _); [| reflexivity].
      now destruct (io_fails (disk st) (IoOpen file ModeR)). }
  unfold get_resource_usage_stats, bind, lift. now rewrite Hframe.
Qed.

(** X20. The filter and the breakdown agree. Under a non-empty filter
    that some record of the log matches, the breakdown has an entry for
    that model whose count and averages of CPU time, memory and response
    time are the top-level ones. *)
Theorem get_resource_usage_stats_filter_agrees (model : string) (st st' : State)
    (r : UsageStats) (row : value) :
  get_resource_usage_stats (Some model) st = (Ok r, st') ->
  model <> "" ->
  row ∈ metrics (tracker st') ->
  cell row "model" = Some (VStr model) ->
  exists stats,
    (Some (VStr model), stats) ∈ models r
    /\ m_count stats = count r
    /\ m_avg_cpu_time_sec stats = avg_cpu_time_sec r
    /\ m_avg_memory_delta_mb stats = avg_memory_delta_mb r
    /\ m_avg_response_time_ms stats = avg_response_time_ms r.
Proof.
  intros Hrun Hmodel Hin Hcell.
  destruct (get_resource_usage_stats_inv _ _ _ _ Hrun) as (_ & Hstats).
  set (df := metrics (tracker st')) in *.
  assert (Hdf : df <> []) by (intros E; rewrite E in Hin; now apply elem_of_nil in Hin).
  destruct (frame_usage_stats_filtered df model r Hdf Hmodel Hstats)
    as (Hcount & Hcpu & (mem & Hmem & Hmb) & Hrt & Hentries & _).
  destruct (Hentries row Hin) as (stats & Hentry & Hms & Hn).
  rewrite Hcell in Hentry, Hms, Hn.
  exists stats. split; [exact Hentry |].
  unfold model_stats, model_rows in Hms. exc_inv Hms. injection Hms as <-. simpl.
  unfold model_rows in Hn. simpl in Hn.
  rewrite filled_select in Hn |- *.
  repeat split; congruence.
Qed.

Lemma filter_map_length {A B} (f : B -> bool) (g : A -> B) (l : list A) :
  length (List.filter (fun x => f (g x)) l) = length (List.filter f (map g l)).
Proof.
  induction l as [| x l IH]; [reflexivity |]. simpl.
  destruct (f (g x)); simpl; now rewrite IH.
Qed.

Lemma model_rows_length (df : list value) (k : option value) :
  length (model_rows df k)
  = length (List.filter (selects k) (map (fun row => cell row "model") df)).
Proof.
  destruct k as [name |]; simpl.
  - unfold select_model. now rewrite <- filter_map_length.
  - induction df as [| row df IH]; [reflexivity | exact IH].
Qed.

Lemma selects_spec (k c : option value) :
  selects k c = true <-> named c = true /\ k = c.
Proof.
  destruct k as [name |], c as [v |]; simpl; try (split; [discriminate | intros [? ?]; congruence]).
  destruct v; simpl; rewrite ?bool_decide_eq_true;
    split; try (intros <-; now split); try (intros [_ [= <-]]; reflexivity);
    try discriminate; intros [? ?]; discriminate.
Qed.

Lemma list_sum_map_add {A} (a b : A -> nat) (l : list A) :
  list_sum (map (fun k => a k + b k)%nat l)
  = (list_sum (map a l) + list_sum (map b l))%nat.
Proof. induction l as [| k l IH]; simpl; [reflexivity | rewrite IH; lia]. Qed.

Lemma list_sum_map_zero {A} (a : A -> nat) (l : list A) :
  (forall k, k ∈ l -> a k = 0%nat) -> list_sum (map a l) = 0%nat.
Proof.
  induction l as [| k l IH]; intros Hz; simpl; [reflexivity |].
  rewrite (Hz k) by (apply elem_of_cons; now left).
  rewrite IH; [reflexivity |]. intros k' Hk'. apply Hz, elem_of_cons. now right.
Qed.

(** A cell is selected by exactly one of the distinct names that cover it. *)
Lemma selecting_names (names : list (option value)) (c : option value) :
  NoDup names -> c ∈ names ->
  list_sum (map (fun k => if selects k c then 1%nat else 0%nat) names)
  = if named c then 1%nat else 0%nat.
Proof.
  intros Hnd. induction Hnd as [| k names Hk Hnd IH]; intros Hin.
  - now apply elem_of_nil in Hin.
  - simpl. destruct (selects k c) eqn:Esel.
    + apply selects_spec in Esel. destruct Esel as [-> ->].
      rewrite list_sum_map_zero; [reflexivity |].
      intros k' Hk'. destruct (selects k' c) eqn:E'; [| reflexivity].
      apply selects_spec in E'. destruct E' as [_ ->]. contradiction.
    + apply elem_of_cons in Hin. destruct Hin as [-> | Hin]; [| now apply IH].
      destruct (named k) eqn:En.
      * assert (E : selects k k = true) by (apply selects_spec; now split). congruence.
      * apply list_sum_map_zero. intros k' Hk'.
        destruct (selects k' k) eqn:E'; [| reflexivity].
        apply selects_spec in E'. destruct E' as [? _]. congruence.
Qed.

Lemma selected_cells_add_up (names cells : list (option value)) :
  NoDup names -> (forall c, c ∈ cells -> c ∈ names) ->
  list_sum (map (fun k => length (List.filter (selects k) cells)) names)
  = length (List.filter named cells).
Proof.
  intros Hnd. induction cells as [| c cells IH]; intros Hcover.
  - simpl. now apply list_sum_map_zero.
  - assert (E : forall k,
              length (List.filter (selects k) (c :: cells))
              = ((if selects k c then 1 else 0)
                 + length (List.filter (selects k) cells))%nat).
    { intros k. simpl. now destruct (selects k c). }
    rewrite (map_ext _ _ E), list_sum_map_add.
    rewrite selecting_names by (try assumption; apply Hcover, elem_of_cons; now left).
    rewrite IH by (intros c' Hc'; apply Hcover, elem_of_cons; now right).
    simpl. now destruct (named c).
Qed.

Lemma unique_from_NoDup (cells seen u : list (option value)) :
  unique_from seen cells = Ok u -> NoDup u /\ forall c, c ∈ u -> c ∉ seen.
Proof.
  revert seen u. induction cells as [| c0 cells IH]; intros seen u Hu.
  - injection Hu as <-. split; [constructor | intros c Hc; now apply elem_of_nil in Hc].
  - simpl in Hu.
    assert (Hstep : (if bool_decide (c0 ∈ seen) then unique_from seen cells
                     else exc_bind (unique_from (c0 :: seen) cells)
                            (fun u => Ok (c0 :: u))) = Ok u).
    { destruct c0 as [[] |]; try discriminate; exact Hu. }
    clear Hu. destruct (bool_decide (c0 ∈ seen)) eqn:Eseen.
    + now apply IH.
    + apply bool_decide_eq_false in Eseen.
      destruct (unique_from (c0 :: seen) cells) as [u' |] eqn:Eu; [| discriminate].
      injection Hstep as <-. destruct (IH _ _ Eu) as [Hnd Hfresh]. split.
      * constructor; [| exact Hnd]. intros Hc0. apply (Hfresh c0 Hc0).
        apply elem_of_cons. now left.
      * intros c Hc. apply elem_of_cons in Hc. destruct Hc as [-> | Hc]; [exact Eseen |].
        intros Hs. apply (Hfresh c Hc). apply elem_of_cons. now right.
Qed.

Lemma breakdown_entries (df : list value) (names : list (option value))
    (l : list (option value * ModelStats)) :
  breakdown df names = Ok l ->
  map fst l = names
  /\ map (fun entry => m_count (snd entry)) l
     = map (fun k => length (model_rows df k)) names.
Proof.
  revert l. induction names as [| k names IH]; intros l Hb.
  - injection Hb as <-. now split.
  - simpl in Hb. exc_inv Hb. injection Hb as <-.
    match goal with
    | Hms : model_stats df k = Ok ?ms |- _ =>
      unfold model_stats in Hms; exc_inv Hms; injection Hms as <-
    end.
    destruct (IH _ eq_refl) as [Hk Hc]. simpl. now rewrite Hk, Hc.
Qed.

Lemma fill_missing_column_model_cells (df : list value) (key : string) :
  key <> "model" ->
  map (fun row => cell row "model") (fill_missing_column df key)
  = map (fun row => cell row "model") df.
Proof.
  intros Hne. unfold fill_missing_column.
  destruct (has_column df key); [reflexivity |].
  rewrite map_map. apply map_ext. intros row.
  destruct row; simpl;
    try (destruct (String.eqb_spec key "model"); [contradiction | reflexivity]).
  now apply dict_get_set_ne.
Qed.

Lemma filled_model_cells (df : list value) :
  map (fun row => cell row "model") (filled df) = map (fun row => cell row "model") df.
Proof.
  unfold filled. now rewrite !fill_missing_column_model_cells by discriminate.
Qed.

(** X21. The breakdown partitions the log. Whatever the filter, the
    per-model entries have distinct model names and their counts add up
    to the number of records that have a model. Without a filter the
    top-level count is the number of records, so the counts of the
    breakdown add up to it when every record has a model. *)
Theorem breakdown_counts_add_up (model : option string) (st st' : State)
    (r : UsageStats) :
  get_resource_usage_stats model st = (Ok r, st') ->
  let df := metrics (tracker st') in
  let total := list_sum (map (fun entry => m_count (snd entry)) (models r)) in
  NoDup (map fst (models r))
  /\ total = length (List.filter has_model df)
  /\ (model = None -> count r = length df)
  /\ (model = None -> (forall row, row ∈ df -> has_model row = true) -> total = count r).
Proof.
  intros Hrun df total.
  destruct (get_resource_usage_stats_inv _ _ _ _ Hrun) as (_ & Hstats).
  fold df in Hstats.
  assert (Hlen : length (filled df) = length df).
  { rewrite <- (length_map (fun row => cell row "model") (filled df)).
    now rewrite filled_model_cells, length_map. }
  assert (Hmain : NoDup (map fst (models r))
                  /\ total = length (List.filter has_model df)
                  /\ (model = None -> count r = length df)).
  { unfold resource_usage_stats in Hstats.
    destruct (length (filled df) =? 0)%nat eqn:Elen.
    { apply Nat.eqb_eq in Elen. rewrite Hlen in Elen.
      apply length_zero_iff_nil in Elen. injection Hstats as <-.
      subst total. simpl. rewrite Elen. repeat split. constructor. }
    exc_inv Hstats. injection Hstats as <-. subst total. simpl.
    match goal with
    | Ecol : column _ "model" = Ok ?cells,
      Euniq : unique ?cells = Ok ?names,
      Ebr : breakdown _ ?names = Ok ?per |- _ =>
      rename Ecol into Hcol; rename Euniq into Huniq; rename Ebr into Hbr;
      rename cells into cells0; rename names into names0; rename per into per0
    end.
    destruct (breakdown_entries _ _ _ Hbr) as [Hnames Hcounts].
    destruct (unique_from_NoDup _ _ _ Huniq) as [Hnd _].
    assert (Hcells : cells0 = map (fun row => cell row "model") df).
    { unfold column in Hcol. destruct (has_column (filled df) "model"); [| discriminate].
      injection Hcol as <-. apply filled_model_cells. }
    split; [now rewrite Hnames |]. split.
    - rewrite Hcounts.
      rewrite (map_ext _ _ (model_rows_length (filled df))), filled_model_cells.
      rewrite selected_cells_add_up.
      + symmetry. exact (filter_map_length named (fun row => cell row "model") df).
      + exact Hnd.
      + intros c Hc. rewrite <- Hcells in Hc.
        destruct (unique_from_covers _ _ _ _ Huniq Hc) as [Hnil | Hu];
          [now apply elem_of_nil in Hnil | exact Hu].
    - intros ->.
      match goal with
      | Esel : Ok (filled df) = Ok _ |- _ => injection Esel as <-
      end.
      exact Hlen. }
  destruct Hmain as (Hnd & Htotal & Hcount).
  repeat split; try assumption.
  intros Hnone Hall. rewrite Htotal, (Hcount Hnone). f_equal.
  clear -Hall. induction df as [| row df IH]; [reflexivity |]. simpl.
  rewrite (Hall row) by (apply elem_of_cons; now left). f_equal.
  apply IH. intros row' Hrow'. apply Hall, elem_of_cons. now right.
Qed.

Lemma unique_nonempty (c : option value) (cells names : list (option value)) :
  unique (c :: cells) = Ok names -> names <> [].
Proof.
  unfold unique. simpl. intros Hu.
  assert (Hstep : (if bool_decide (c ∈ @nil (option value)) then unique_from [] cells
                   else exc_bind (unique_from [c] cells) (fun u => Ok (c :: u)))
                  = Ok names).
  { destruct c as [[] |]; try discriminate; exact Hu. }
  rewrite bool_decide_eq_false_2 in Hstep by apply not_elem_of_nil.
  destruct (unique_from [c] cells); [| discriminate].
  injection Hstep as <-. discriminate.
Qed.

(** X30. The legacy fill covers two columns only. On a non-empty log,
    [get_resource_usage_stats] returns statistics only if some record has
    a ["response_time_ms"], some record has a ["model"] and some record
    has a ["hallucination_score"]; on a log that lacks one of these
    columns the call raises, whatever the filter, although the missing
    resource columns are filled in. *)
Theorem get_resource_usage_stats_needs_columns (model : option string) (st st' : State)
    (r : UsageStats) :
  get_resource_usage_stats model st = (Ok r, st') ->
  let df := metrics (tracker st') in
  df <> [] ->
  has_column df "response_time_ms" = true
  /\ has_column df "model" = true
  /\ has_column df "hallucination_score" = true.
Proof.
  intros Hrun df Hdf.
  destruct (get_resource_usage_stats_inv _ _ _ _ Hrun) as (_ & Hstats).
  fold df in Hstats. unfold resource_usage_stats in Hstats.
  assert (Hlen : length (filled df) = length df).
  { rewrite <- (length_map (fun row => cell row "model") (filled df)).
    now rewrite filled_model_cells, length_map. }
  destruct (length (filled df) =? 0)%nat eqn:Elen.
  { apply Nat.eqb_eq in Elen. rewrite Hlen in Elen.
    now apply length_zero_iff_nil in Elen. }
  exc_inv Hstats.
  match goal with
  | Ert : column_mean _ _ "response_time_ms" = Ok _,
    Ecol : column _ "model" = Ok ?cells,
    Euniq : unique ?cells = Ok ?names,
    Ebr : breakdown _ ?names = Ok _ |- _ =>
    rename Ert into Hrt; rename Ecol into Hcol; rename Euniq into Huniq;
    rename Ebr into Hbr; rename cells into cells0; rename names into names0
  end.
  unfold column_mean in Hrt.
  destruct (has_column (filled df) "response_time_ms") eqn:Ert; [| discriminate].
  rewrite has_column_filled in Ert by discriminate.
  unfold column in Hcol.
  destruct (has_column (filled df) "model") eqn:Emodel; [| discriminate].
  rewrite has_column_filled in Emodel by discriminate.
  injection Hcol as <-.
  split; [exact Ert |]. split; [exact Emodel |].
  destruct (filled df) as [| row rows] eqn:Efilled; [discriminate |].
  simpl in Huniq. apply unique_nonempty in Huniq.
  destruct names0 as [| k names0]; [contradiction |].
  simpl in Hbr. exc_inv Hbr.
  match goal with
  | Hms : model_stats _ k = Ok _ |- _ => unfold model_stats in Hms; exc_inv Hms
  end.
  match goal with
  | Hhs : column_mean _ _ "hallucination_score" = Ok _ |- _ =>
    unfold column_mean in Hhs;
      destruct (has_column (row :: rows) "hallucination_score") eqn:Ehs; [| discriminate]
  end.
  rewrite <- Efilled in Ehs. now rewrite has_column_filled in Ehs by discriminate.
Qed.

End StatsMore.

Section StatsMoreExamples.
Import Hallucination Metrics Frames.

Lemma get_resource_usage_stats_no_records_witness :
  get_resource_usage_stats (Some "alpha") Examples.example_state
  = (Ok (mkUsageStats 0 (Fin 0) (Fin 0) (Fin 0) []),
     set_metrics Examples.example_state []).
Proof.
  apply (@get_resource_usage_stats_no_records Examples.example_externals (Some "alpha")
           Examples.example_state).
  left. reflexivity.
Defined.

Lemma example_stats_run_eq :
  get_resource_usage_stats (Some "alpha") Examples.example_logged
  = (Ok Examples.example_stats, snd Examples.example_stats_run).
Proof. vm_compute. reflexivity. Qed.

Lemma get_resource_usage_stats_filter_agrees_witness :
  exists stats,
    (Some (VStr "alpha"), stats) ∈ models Examples.example_stats
    /\ m_count stats = count Examples.example_stats
    /\ m_avg_cpu_time_sec stats = avg_cpu_time_sec Examples.example_stats
    /\ m_avg_memory_delta_mb stats = avg_memory_delta_mb Examples.example_stats
    /\ m_avg_response_time_ms stats = avg_response_time_ms Examples.example_stats.
Proof.
  assert (Hframe : metrics (tracker (snd Examples.example_stats_run))
                   = VDict Examples.example_record
                     :: tail (metrics (tracker (snd Examples.example_stats_run))))
    by (vm_compute; reflexivity).
  apply (@get_resource_usage_stats_filter_agrees Examples.example_externals "alpha"
           Examples.example_logged (snd Examples.example_stats_run)
           Examples.example_stats (VDict Examples.example_record) example_stats_run_eq).
  - discriminate.
  - rewrite Hframe. apply elem_of_cons. now left.
  - vm_compute. reflexivity.
Defined.

Lemma breakdown_counts_add_up_witness :
  NoDup (map fst (models Examples.example_stats))
  /\ list_sum (map (fun entry => m_count (snd entry)) (models Examples.example_stats))
     = length (List.filter has_model (metrics (tracker (snd Examples.example_stats_run)))).
Proof.
  destruct (@breakdown_counts_add_up Examples.example_externals (Some "alpha")
              Examples.example_logged (snd Examples.example_stats_run)
              Examples.example_stats example_stats_run_eq) as (Hnd & Htotal & _).
  split; [exact Hnd | exact Htotal].
Defined.

Lemma get_resource_usage_stats_needs_columns_witness :
  has_column (metrics (tracker (snd Examples.example_stats_run))) "response_time_ms" = true
  /\ has_column (metrics (tracker (snd Examples.example_stats_run))) "model" = true
  /\ has_column (metrics (tracker (snd Examples.example_stats_run))) "hallucination_score"
     = true.
Proof.
  assert (Hlen : length (metrics (tracker (snd Examples.example_stats_run))) = 3%nat)
    by (vm_compute; reflexivity).
  assert (Hdf : metrics (tracker (snd Examples.example_stats_run)) <> []).
  { intros E. apply (f_equal (@length value)) in E. rewrite Hlen in E. discriminate E. }
  exact (@get_resource_usage_stats_needs_columns Examples.example_externals (Some "alpha")
           Examples.example_logged (snd Examples.example_stats_run)
           Examples.example_stats example_stats_run_eq Hdf).
Defined.

End StatsMoreExamples.

(** ** The middleware, continued *)

Section MiddlewareMore.
Import Hallucination Metrics Middleware.
Context `{Externals}.
Local Open Scope m_scope.

Ltac step_append :=
  repeat match goal with
         | |- context [String ?c ?s +:+ ?t] =>
           change (String c s +:+ t) with (String c (s +:+ t))
         | |- context [EmptyString +:+ ?t] => change (EmptyString +:+ t) with t
         | E : context [String ?c ?s +:+ ?t] |- _ =>
           change (String c s +:+ t) with (String c (s +:+ t)) in E
         | E : context [EmptyString +:+ ?t] |- _ =>
           change (EmptyString +:+ t) with t in E
         end.

Lemma prefix_append (needle hay : string) :
  String.prefix needle hay = true <-> exists after, hay = needle +:+ after.
Proof.
  revert hay. induction needle as [| a needle IH]; intros hay.
  - destruct hay; simpl; split; eauto.
  - destruct hay as [| b hay]; simpl.
    + split; [discriminate | intros (after & E); step_append; discriminate].
    + destruct (ascii_dec a b) as [-> | Hne].
      * rewrite IH. split; intros (after & E); exists after; step_append; congruence.
      * split; [discriminate | intros (after & E); step_append; congruence].
Qed.

Lemma str_contains_spec (needle hay : string) :
  str_contains needle hay = true
  <-> exists before after, hay = before +:+ needle +:+ after.
Proof.
  induction hay as [| c hay IH].
  - change (str_contains needle "") with (String.prefix needle "" || false).
    rewrite orb_true_iff, prefix_append. split.
    + intros [(after & E) | [=]]. exists "", after. now step_append.
    + intros (before & after & E). left.
      destruct before; step_append; [eauto | discriminate].
  - change (str_contains needle (String c hay))
      with (String.prefix needle (String c hay) || str_contains needle hay).
    rewrite orb_true_iff, prefix_append, IH. split.
    + intros [(after & E) | (before & after & E)].
      * exists "", after. now step_append.
      * exists (String c before), after. step_append. now rewrite E.
    + intros (before & after & E). destruct before as [| c' before]; step_append.
      * left. eauto.
      * right. injection E as _ E. eauto.
Qed.

(** X22. The path filter is a substring test. A path is audited exactly
    when no filter is set or the filter occurs somewhere in the path (the
    empty filter occurs in every path); a request whose path is not
    audited is handed to the downstream application and the state is left
    alone. *)
Theorem audit_path_filter_substring (self : AuditMiddleware) (path : string) :
  (_should_audit_path self path = true
   <-> (audit_path_filter self = None
        \/ exists filter before after,
             audit_path_filter self = Some filter
             /\ path = before +:+ filter +:+ after))
  /\ (forall env call_next request st,
        url_path request = path ->
        _should_audit_path self path = false ->
        dispatch self env call_next request st = (call_next 0%nat request, st)).
Proof.
  split.
  - unfold _should_audit_path.
    destruct (audit_path_filter self) as [filter |]; [| split; [now left | reflexivity]].
    destruct (String.eqb_spec filter "") as [-> | Hne].
    + split; [| reflexivity]. intros _. right. exists "", "", path. now step_append.
    + rewrite str_contains_spec. split.
      * intros (before & after & E). right. now exists filter, before, after.
      * intros [[=] | (filter' & before & after & [= <-] & E)]. eauto.
  - intros env call_next request st <- Hskip. unfold dispatch. now rewrite Hskip.
Qed.

(** What [_log_audit_info] does: it never raises, and it either leaves
    the state alone or does what one call of [log_inference] does. *)
Lemma _log_audit_info_effect (self : AuditMiddleware) (env : Env) (request_body : value)
    (response_body : string) (response_status : Z) (st : State) :
  exists st',
    _log_audit_info self env request_body response_body response_status st = (Ok tt, st')
    /\ (st' = st
        \/ exists model_name prompt completion,
             extract_model_name self request_body = Ok model_name
             /\ extract_prompt self request_body = Ok prompt
             /\ extract_completion self request_body
                  (try_except (json_loads response_body)
                     (fun _ => VDict [("response", VStr (decode_utf8 response_body))]))
                = Ok completion
             /\ st' = snd (log_inference (probe env) prompt completion model_name
                             (py_int ((audit_time env - request_time env) * 1000))
                             None None (VInt response_status) st)).
Proof.
  unfold _log_audit_info.
  destruct (String.eqb response_body "" || (response_status >=? 400)%Z);
    [exists st; split; [reflexivity | now left] |].
  unfold try_catch, bind, lift, ret.
  destruct (extract_model_name self request_body) as [model_name | e1];
    [| exists st; split; [reflexivity | now left]].
  destruct (extract_prompt self request_body) as [prompt | e2];
    [| exists st; split; [reflexivity | now left]].
  destruct (extract_completion self request_body _) as [completion | e3] eqn:Ecompletion;
    [| exists st; split; [reflexivity | now left]].
  destruct (log_inference (probe env) prompt completion model_name _ None None _ st)
    as [[record | e4] st'] eqn:Erun;
    (exists st'; split; [reflexivity |]; right;
     exists model_name, prompt, completion; now rewrite Erun).
Qed.

(** What [dispatch] does to the state. *)
Lemma dispatch_effect (self : AuditMiddleware) (env : Env)
    (call_next : nat -> Request -> Exc Response) (request : Request) (st : State) :
  snd (dispatch self env call_next request st) = st
  \/ exists response request_body model_name prompt completion,
       call_next 0%nat request = Ok response
       /\ read_request_body request = Ok request_body
       /\ extract_model_name self request_body = Ok model_name
       /\ extract_prompt self request_body = Ok prompt
       /\ extract_completion self request_body
            (try_except (json_loads (captured_body response))
               (fun _ => VDict [("response", VStr (decode_utf8 (captured_body response)))]))
          = Ok completion
       /\ snd (dispatch self env call_next request st)
          = snd (log_inference (probe env) prompt completion model_name
                   (py_int ((audit_time env - request_time env) * 1000))
                   None None (VInt (status_code response)) st).
Proof.
  unfold dispatch.
  destruct (_should_audit_path self (url_path request)); simpl; [| now left].
  destruct (read_request_body request) as [request_body | e]; [| now left].
  destruct (call_next 0%nat request) as [response | e]; [| now left].
  destruct ((200 <=? status_code response)%Z && (status_code response <? 300)%Z)
    eqn:Esuccess; unfold try_catch, bind, ret; simpl; [| now left].
  destruct (_log_audit_info_effect self env request_body
              (read_body (body_iterator response)) (status_code response) st)
    as (st' & Hrun & [-> | (model_name & prompt & completion & Hm & Hp & Hc & ->)]);
    rewrite Hrun; simpl; [now left | right].
  exists response, request_body, model_name, prompt, completion.
  unfold captured_body. rewrite Esuccess. now repeat split.
Qed.


(** X25. A failing extractor is swallowed. When the extractor of the
    model name or of the prompt raises on the request body (as [x.get]
    does on a body that is valid JSON but not an object), or the
    extractor of the completion always raises, the request is not audited
    and the state is left alone. *)
Theorem dispatch_extractor_failure (self : AuditMiddleware) (env : Env)
    (call_next : nat -> Request -> Exc Response) (request : Request) (st : State)
    (request_body : value) :
  read_request_body request = Ok request_body ->
  is_ok (extract_model_name self request_body) = false
  \/ is_ok (extract_prompt self request_body) = false
  \/ (forall response_json,
        is_ok (extract_completion self request_body response_json) = false) ->
  snd (dispatch self env call_next request st) = st.
Proof.
  intros Hbody Hfail.
  destruct (dispatch_effect self env call_next request st)
    as [Hsame | (response & request_body' & model_name & prompt & completion
                 & _ & Hbody' & Hm & Hp & Hc & _)]; [exact Hsame |].
  rewrite Hbody in Hbody'. injection Hbody' as <-.
  destruct Hfail as [Hf | [Hf | Hf]].
  - rewrite Hm in Hf. discriminate.
  - rewrite Hp in Hf. discriminate.
  - specialize (Hf (try_except (json_loads (captured_body response))
                      (fun _ => VDict [("response",
                                        VStr (decode_utf8 (captured_body response)))]))).
    rewrite Hc in Hf. discriminate.
Qed.

(** X26. The middleware as the API application configures it reads the
    completion from the key ["completion"] only. For an audited request
    whose body is an object and a 2xx answer with a non-empty body: when
    the body of the answer is not JSON the inference is logged with the
    empty completion, the raw text is dropped; when it is JSON but not an
    object nothing is logged; when it is an object the completion is its
    ["completion"], or the empty string. *)
Theorem api_middleware_completion (embedder : HallucinationDetector)
    (DEFAULT_MODEL : string) (env : Env) (call_next : nat -> Request -> Exc Response)
    (request : Request) (st : State) (response : Response) (d : dict value) :
  let self := Api.audit_middleware embedder DEFAULT_MODEL in
  let body := read_body (body_iterator response) in
  let logged completion :=
    snd (log_inference (probe env)
           (from_option id (VStr "") (dict_get d "prompt"))
           completion
           (from_option id (VStr DEFAULT_MODEL) (dict_get d "model"))
           (py_int ((audit_time env - request_time env) * 1000)) None None
           (VInt (status_code response)) st) in
  _should_audit_path self (url_path request) = true ->
  read_request_body request = Ok (VDict d) ->
  call_next 0%nat request = Ok response ->
  (200 <= status_code response < 300)%Z ->
  body <> "" ->
  (forall e, json_loads body = Raise e ->
     snd (dispatch self env call_next request st) = logged (VStr ""))
  /\ (forall v, json_loads body = Ok v -> (forall d', v <> VDict d') ->
        snd (dispatch self env call_next request st) = st)
  /\ (forall d', json_loads body = Ok (VDict d') ->
        snd (dispatch self env call_next request st)
        = logged (from_option id (VStr "") (dict_get d' "completion"))).
Proof.
  intros self body logged Hpath Hbody Hnext Hstatus Hne.
  assert (E : (200 <=? status_code response)%Z && (status_code response <? 300)%Z = true).
  { apply andb_true_iff. split; [apply Z.leb_le | apply Z.ltb_lt]; lia. }
  assert (Eskip : String.eqb body "" || (status_code response >=? 400)%Z = false).
  { apply orb_false_iff. split; [now apply String.eqb_neq |].
    destruct (Z.geb_spec (status_code response) 400); [lia | reflexivity]. }
  assert (Hrun : snd (dispatch self env call_next request st)
                 = snd (_log_audit_info self env (VDict d) body (status_code response) st)).
  { unfold dispatch. rewrite Hpath, Hbody, Hnext. simpl. rewrite E. fold body.
    unfold try_catch, bind, ret. simpl.
    destruct (_log_audit_info self env (VDict d) body (status_code response) st)
      as [[[] | err] st1]; reflexivity. }
  rewrite Hrun. unfold _log_audit_info. rewrite Eskip.
  unfold try_catch, bind, lift, ret. simpl.
  split; [| split].
  - intros e Hjson. rewrite Hjson. simpl. unfold logged.
    destruct (log_inference _ _ _ _ _ _ _ _ st) as [[record | err] st1]; reflexivity.
  - intros v Hjson Hobject. rewrite Hjson. simpl.
    destruct v; try reflexivity. now destruct (Hobject d0).
  - intros d' Hjson. rewrite Hjson. simpl. unfold logged.
    destruct (log_inference _ _ _ _ _ _ _ _ st) as [[record | err] st1]; reflexivity.
Qed.

(** X27. The background task of the inference route never logs. The
    call of [log_inference] in [record_metrics] passes the keywords
    [hallucination_score] and [drift_detected], which are not parameters
    of [log_inference]: whatever the request and the completion, the task
    raises [TypeError] before [log_inference] runs, and the log, the drift
    window and the count of [log_inference] calls are as before. *)
Theorem record_metrics_raises (probe : Probe) (prompt completion model : value)
    (hallucination_score : Q) (drift_detected : bool) (response_time_ms : Z)
    (tokens_in tokens_out : Z) (st : State) :
  Api.record_metrics probe prompt completion model hallucination_score drift_detected
    response_time_ms tokens_in tokens_out st = (Raise TypeError, st)
  /\ Api.unexpected_keyword Api.log_inference_parameters
       ["prompt"; "completion"; "model"; "response_time_ms"; "tokens_in"; "tokens_out"]
     = None
  /\ forall record st',
       log_inference probe prompt completion model response_time_ms
         (Some tokens_in) (Some tokens_out) (VStr "success") st = (Ok record, st') ->
       log_inference_calls st' <> log_inference_calls st.
Proof.
  split; [reflexivity |]. split; [reflexivity |].
  intros record st' Hrun.
  pose proof (log_inference_effect probe prompt completion model response_time_ms
                (Some tokens_in) (Some tokens_out) (VStr "success") st) as (Hcalls & _).
  rewrite Hrun in Hcalls. simpl in Hcalls. lia.
Qed.

End MiddlewareMore.

Section MiddlewareMoreExamples.
Import Hallucination Metrics Middleware.

Lemma dispatch_extractor_failure_witness :
  snd (dispatch Examples.example_middleware Examples.example_env
         (Examples.always Examples.raw_response) MoreExamples.list_request
         Examples.example_state)
  = Examples.example_state.
Proof.
  apply (@dispatch_extractor_failure Examples.example_externals
           Examples.example_middleware Examples.example_env
           (Examples.always Examples.raw_response) MoreExamples.list_request
           Examples.example_state (VList [])).
  - reflexivity.
  - left. reflexivity.
Defined.

Lemma api_middleware_completion_witness :
  snd (dispatch MoreExamples.api_middleware Examples.example_env
         (Examples.always Examples.raw_response) Examples.empty_request
         Examples.example_state)
  = snd (log_inference (probe Examples.example_env) (VStr "") (VStr "")
           (VStr "smollm2:360m")
           (py_int ((audit_time Examples.example_env
                     - request_time Examples.example_env) * 1000))
           None None (VInt 200) Examples.example_state).
Proof.
  destruct (@api_middleware_completion Examples.example_externals
              Examples.example_embedder "smollm2:360m" Examples.example_env
              (Examples.always Examples.raw_response) Examples.empty_request
              Examples.example_state Examples.raw_response [] eq_refl eq_refl eq_refl)
    as (Hraw & _ & _).
  - simpl. lia.
  - discriminate.
  - exact (Hraw JSONDecodeError eq_refl).
Defined.

End MiddlewareMoreExamples.
